(** * Air Canada PTFS operations bot: flight store, dashboard API and
      session tokens.

    A shallow embedding of [utilities.py] and [auth.py].

    Conventions of the embedding.
    - A Python [str] is a Rocq [string], a character outside ASCII
      being held as the bytes of its UTF-8 encoding.  [strip] and the
      digit test of [strptime] decode these bytes and know the white
      space and the decimal digits of every script; [len], [endswith]
      and [upper] act on the bytes, which is what Python does on ASCII
      text, and string order is the lexicographic order of the bytes,
      which is the order of the characters.
    - A value decoded from JSON ([user_data], a request body, a session
      payload) is a [value]; Python dicts keep their insertion order, so
      a dict is an association list whose first binding of a key is the
      live one and whose updates keep the position of the key.
    - An operation that Python may abort with an exception returns a
      [result]; an exception that leaves a FastAPI handler uncaught is
      answered with status 500.
    - Randomness, the clock and the Discord gateway are inputs of the
      functions that use them. *)

From Stdlib Require Import String Ascii List ZArith QArith Bool Lia.
From Stdlib Require Import Permutation Sorted.
From Stdlib Require Import Numbers.DecimalString.
From Stdlib Require Import QArith.Qround.
Import ListNotations.
Open Scope string_scope.
Open Scope list_scope.
Open Scope Z_scope.
Open Scope nat_scope.

Set Warnings "-register-all,-abstract-large-number".

(** ** Python values *)

Module Py.

(** Hashable scalars, the keys of a dict.  JSON text only has string
    keys; the program itself may index a dict by any hashable value. *)
Inductive key : Type :=
| KNone : key
| KBool : bool -> key
| KInt : Z -> key
| KStr : string -> key.

Coercion KStr : string >-> key.

Inductive value : Type :=
| VNone : value
| VBool : bool -> value
| VInt : Z -> value
| VStr : string -> value
| VList : list value -> value
| VDict : list (key * value) -> value.

Definition dict : Type := list (key * value).

Inductive exn : Type :=
| TypeError
| AttributeError
| ValueError
| KeyError
| DiscordException
| HTTPException (status_code : nat).

Inductive result (A : Type) : Type :=
| Ok (a : A)
| Raise (e : exn).

Arguments Ok {A} a.
Arguments Raise {A} e.

Definition bind {A B : Type} (r : result A) (k : A -> result B) : result B :=
  match r with
  | Ok a => k a
  | Raise e => Raise e
  end.

(** Insertion-ordered mappings, for any key type with an equality test. *)
Section Assoc.

Context {K V : Type} (eqb : K -> K -> bool).

(** [d.get(k)] *)
Fixpoint assoc_get (k : K) (d : list (K * V)) : option V :=
  match d with
  | [] => None
  | (k', v) :: d' => if eqb k k' then Some v else assoc_get k d'
  end.

(** [k in d] *)
Definition assoc_mem (k : K) (d : list (K * V)) : bool :=
  match assoc_get k d with
  | Some _ => true
  | None => false
  end.

(** [d[k] = v]: an existing key keeps its place (and the key object
    first inserted), a new key goes last. *)
Fixpoint assoc_set (k : K) (v : V) (d : list (K * V)) : list (K * V) :=
  match d with
  | [] => [(k, v)]
  | (k', v') :: d' =>
      if eqb k k' then (k', v) :: d' else (k', v') :: assoc_set k v d'
  end.

End Assoc.

(** [a == b] on keys: [True == 1] and [False == 0]. *)
Definition key_eqb (a b : key) : bool :=
  match a, b with
  | KNone, KNone => true
  | KStr s, KStr t => String.eqb s t
  | KBool x, KBool y => Bool.eqb x y
  | KBool x, KInt z => Z.eqb (Z.b2z x) z
  | KInt z, KBool x => Z.eqb z (Z.b2z x)
  | KInt x, KInt y => Z.eqb x y
  | _, _ => false
  end.

Definition dict_get : key -> dict -> option value := assoc_get key_eqb.
Definition dict_mem : key -> dict -> bool := assoc_mem key_eqb.
Definition dict_set : key -> value -> dict -> dict := assoc_set key_eqb.

(** [d.get(k, default)] *)
Definition get_default (k : key) (default : value) (d : dict) : value :=
  match dict_get k d with
  | Some v => v
  | None => default
  end.

(** The items of a dict, each key once: the first binding of a key is
    the live one, a later binding of the same key is dead. *)
Fixpoint live (seen : list key) (d : dict) : dict :=
  match d with
  | [] => []
  | (k, v) :: d' =>
      if existsb (key_eqb k) seen then live seen d'
      else (k, v) :: live (k :: seen) d'
  end.

(** [d.update(d2)], and the [**d2] of a dict display: the items of [d2]
    are written one after the other. *)
Definition dict_update (d d2 : dict) : dict :=
  fold_left (fun acc kv => dict_set (fst kv) (snd kv) acc) (live [] d2) d.

(** [hash(v)]: lists and dicts are unhashable. *)
Definition hash_key (v : value) : result key :=
  match v with
  | VNone => Ok KNone
  | VBool b => Ok (KBool b)
  | VInt z => Ok (KInt z)
  | VStr s => Ok (KStr s)
  | VList _ | VDict _ => Raise TypeError
  end.

(** [bool(v)] *)
Definition truthy (v : value) : bool :=
  match v with
  | VNone => false
  | VBool b => b
  | VInt z => negb (Z.eqb z 0)
  | VStr s => negb (String.eqb s "")
  | VList l => match l with [] => false | _ :: _ => true end
  | VDict d => match d with [] => false | _ :: _ => true end
  end.

(** [a or b] *)
Definition py_or (a b : value) : value := if truthy a then a else b.

(** [sub in s] on strings. *)
Definition str_contains (s sub : string) : bool :=
  match String.index 0 sub s with
  | Some _ => true
  | None => false
  end.

(** [item in container] for a string [item]: key membership in a dict,
    element membership in a list, substring test in a string; any other
    container raises TypeError. *)
Definition py_in (item : string) (container : value) : result bool :=
  match container with
  | VDict d => Ok (dict_mem item d)
  | VList l =>
      Ok (existsb (fun v => match v with
                            | VStr s => String.eqb s item
                            | _ => false
                            end) l)
  | VStr s => Ok (str_contains s item)
  | _ => Raise TypeError
  end.

(** [v.get(k, default)]: only dicts have [get]. *)
Definition py_get (v : value) (k : key) (default : value) : result value :=
  match v with
  | VDict d => Ok (get_default k default d)
  | _ => Raise AttributeError
  end.

(** [container[k]] for a string [k]: a dict raises KeyError on a missing
    key, every other value refuses a string index. *)
Definition py_index (container : value) (k : string) : result value :=
  match container with
  | VDict d =>
      match dict_get k d with
      | Some v => Ok v
      | None => Raise KeyError
      end
  | _ => Raise TypeError
  end.

(** [a == b]: numbers by value ([True == 1]), strings by their
    characters, lists item by item, dicts by their keys and the values
    under them whatever the order; values of different kinds are
    unequal.  It never raises. *)
Fixpoint py_eq (a b : value) {struct a} : bool :=
  match a, b with
  | VNone, VNone => true
  | VBool x, VBool y => Bool.eqb x y
  | VBool x, VInt y => Z.eqb (Z.b2z x) y
  | VInt x, VBool y => Z.eqb x (Z.b2z y)
  | VInt x, VInt y => Z.eqb x y
  | VStr s, VStr t => String.eqb s t
  | VList l, VList m =>
      (fix items (l m : list value) {struct l} : bool :=
         match l, m with
         | [], [] => true
         | x :: l', y :: m' => py_eq x y && items l' m'
         | _, _ => false
         end) l m
  | VDict d, VDict e =>
      (List.length (live [] d) =? List.length (live [] e))
      && (fix bindings (seen : list key) (d : list (key * value)) {struct d}
            : bool :=
            match d with
            | [] => true
            | (k, v) :: d' =>
                if existsb (key_eqb k) seen then bindings seen d'
                else match dict_get k e with
                     | Some w => py_eq v w && bindings (k :: seen) d'
                     | None => false
                     end
            end) [] d
  | _, _ => false
  end.

(** [a < b]: strings by character codes, ints and bools as numbers,
    lists by the first pair of items that are not equal (the shorter
    list first when one is the beginning of the other); None and dicts
    are unordered, and so are values of different kinds. *)
Fixpoint py_lt (a b : value) {struct a} : result bool :=
  match a, b with
  | VStr s, VStr t => Ok (String.ltb s t)
  | VInt x, VInt y => Ok (Z.ltb x y)
  | VInt x, VBool y => Ok (Z.ltb x (Z.b2z y))
  | VBool x, VInt y => Ok (Z.ltb (Z.b2z x) y)
  | VBool x, VBool y => Ok (Z.ltb (Z.b2z x) (Z.b2z y))
  | VList l, VList m =>
      (fix items (l m : list value) {struct l} : result bool :=
         match l, m with
         | [], [] => Ok false
         | [], _ :: _ => Ok true
         | _ :: _, [] => Ok false
         | x :: l', y :: m' => if py_eq x y then items l' m' else py_lt x y
         end) l m
  | _, _ => Raise TypeError
  end.

(** *** Strings *)

Definition is_lower (c : ascii) : bool :=
  (97 <=? nat_of_ascii c) && (nat_of_ascii c <=? 122).

Definition upper_char (c : ascii) : ascii :=
  if is_lower c then ascii_of_nat (nat_of_ascii c - 32) else c.

(** [s.upper()] *)
Fixpoint upper (s : string) : string :=
  match s with
  | EmptyString => EmptyString
  | String c s' => String (upper_char c) (upper s')
  end.

(** [s.endswith(suffix)] *)
Definition endswith (s suffix : string) : bool :=
  (String.length suffix <=? String.length s) &&
  String.eqb
    (substring (String.length s - String.length suffix)
               (String.length suffix) s)
    suffix.

(** A continuation byte of UTF-8 and the six bits it carries. *)
Definition continuation (c : ascii) : option N :=
  let n := N_of_ascii c in
  if ((128 <=? n) && (n <=? 191))%N then Some (n - 128)%N else None.

(** The first character of a string, as a code point, and the rest. *)
Definition decode_utf8 (s : string) : option (N * string) :=
  match s with
  | EmptyString => None
  | String a r =>
      let a := N_of_ascii a in
      if (a <? 128)%N then Some (a, r)
      else if (a <? 194)%N then None
      else if (a <? 224)%N then
        match r with
        | String b r' =>
            match continuation b with
            | Some b => Some ((a - 192) * 64 + b, r')%N
            | None => None
            end
        | _ => None
        end
      else if (a <? 240)%N then
        match r with
        | String b (String c r') =>
            match continuation b, continuation c with
            | Some b, Some c =>
                let cp := ((a - 224) * 4096 + b * 64 + c)%N in
                if ((2048 <=? cp) && negb ((55296 <=? cp) && (cp <=? 57343)))%N
                then Some (cp, r') else None
            | _, _ => None
            end
        | _ => None
        end
      else if (a <? 245)%N then
        match r with
        | String b (String c (String d r')) =>
            match continuation b, continuation c, continuation d with
            | Some b, Some c, Some d =>
                let cp := ((a - 240) * 262144 + b * 4096 + c * 64 + d)%N in
                if ((65536 <=? cp) && (cp <=? 1114111))%N
                then Some (cp, r') else None
            | _, _, _ => None
            end
        | _ => None
        end
      else None
  end.

(** The white space [strip] removes: the characters [str.isspace]
    holds of. *)
Definition space_points : list N :=
  [ 9; 10; 11; 12; 13; 28; 29; 30; 31; 32; 133; 160; 5760; 8192;
    8193; 8194; 8195; 8196; 8197; 8198; 8199; 8200; 8201; 8202;
    8232; 8233; 8239; 8287; 12288 ]%N.

Definition is_space (cp : N) : bool := existsb (N.eqb cp) space_points.

(** [s.lstrip()], one character after the other; [fuel] bounds the
    number of characters looked at. *)
Fixpoint lstrip_from (fuel : nat) (s : string) : string :=
  match fuel with
  | 0 => s
  | S fuel' =>
      match decode_utf8 s with
      | Some (cp, rest) => if is_space cp then lstrip_from fuel' rest else s
      | None => s
      end
  end.

Definition lstrip (s : string) : string := lstrip_from (String.length s) s.

(** [s.rstrip()]: the text up to the point after which only white space
    follows. *)
Fixpoint rstrip (s : string) : string :=
  match s with
  | EmptyString => EmptyString
  | String c s' =>
      if String.eqb (lstrip s) "" then EmptyString else String c (rstrip s')
  end.

(** [s.strip()] *)
Definition strip (s : string) : string := rstrip (lstrip s).

(** [str(n)] for an int. *)
Definition str_of_int (n : Z) : string :=
  NilZero.string_of_int (Z.to_int n).

(** [v.strip()] and [v.strip().upper()]: only strings have them. *)
Definition py_strip (v : value) : result value :=
  match v with
  | VStr s => Ok (VStr (strip s))
  | _ => Raise AttributeError
  end.

Definition py_strip_upper (v : value) : result value :=
  match v with
  | VStr s => Ok (VStr (upper (strip s)))
  | _ => Raise AttributeError
  end.

End Py.

Import Py.

Notation "x <- r ;; k" := (bind r (fun x => k))
  (at level 61, r at next level, right associativity).

(** ** Dates: the two [strptime] formats and the [strftime] formats in use *)

Module Dates.

(** A [datetime] as the handlers use it: only the calendar date matters. *)
Record datetime : Type := mkdate { year : nat; month : nat; day : nat }.

Definition is_digit (c : ascii) : bool :=
  (48 <=? nat_of_ascii c) && (nat_of_ascii c <=? 57).

Definition digit_val (c : ascii) : nat := nat_of_ascii c - 48.

Definition between (lo hi : nat) (c : ascii) : bool :=
  (lo <=? nat_of_ascii c) && (nat_of_ascii c <=? hi).

(** *** Decimal digits

    [\d] in a pattern of [re], and [int] on the text it matched, take
    the decimal digits of every script (the characters of category Nd),
    not only [0-9]. *)

(** The digit zero of every script that has decimal digits (Unicode
    14.0, the table of Python 3.11); the digits one to nine follow it. *)
Definition decimal_zeros : list N :=
  [ 48; 1632; 1776; 1984; 2406; 2534; 2662; 2790; 2918; 3046; 3174;
    3302; 3430; 3558; 3664; 3792; 3872; 4160; 4240; 6112; 6160; 6470;
    6608; 6784; 6800; 6992; 7088; 7232; 7248; 42528; 43216; 43264;
    43472; 43504; 43600; 44016; 65296; 66720; 68912; 69734; 69872;
    69942; 70096; 70384; 70736; 70864; 71248; 71360; 71472; 71904;
    72016; 72784; 73040; 73120; 92768; 92864; 93008; 120782; 120792;
    120802; 120812; 120822; 123200; 123632; 125264; 130032 ]%N.

(** [int(c)] for a decimal digit [c]. *)
Definition decimal_value (cp : N) : option nat :=
  match find (fun z => ((z <=? cp) && (cp <? z + 10))%N) decimal_zeros with
  | Some z => Some (N.to_nat (cp - z))
  | None => None
  end.

(** [\d]: one decimal digit, its value and the rest of the input. *)
Definition match_digit (s : string) : option (nat * string) :=
  match decode_utf8 s with
  | Some (cp, rest) =>
      match decimal_value cp with
      | Some v => Some (v, rest)
      | None => None
      end
  | None => None
  end.

(** *** The calendar *)

Definition is_leap (y : nat) : bool :=
  ((y mod 4 =? 0) && negb (y mod 100 =? 0)) || (y mod 400 =? 0).

Definition days_in_month (y m : nat) : nat :=
  match m with
  | 1 | 3 | 5 | 7 | 8 | 10 | 12 => 31
  | 4 | 6 | 9 | 11 => 30
  | 2 => if is_leap y then 29 else 28
  | _ => 0
  end.

(** The range check of the [date] constructor (years 1 to 9999, a day
    that exists in the month); [strptime] raises ValueError when it fails. *)
Definition valid_date (y m d : nat) : bool :=
  (1 <=? y) && (y <=? 9999) && (1 <=? m) && (m <=? 12) &&
  (1 <=? d) && (d <=? days_in_month y m).

Definition make_date (y m d : nat) : option datetime :=
  if valid_date y m d then Some (mkdate y m d) else None.

Definition orelse {A : Type} (a b : option A) : option A :=
  match a with
  | Some x => Some x
  | None => b
  end.

(** *** [strptime]

    The regular expressions [strptime] compiles the directives to.  A
    matcher tries the alternatives of its directive in order and hands
    the number read and the rest of the input to the continuation [k];
    an alternative whose continuation fails is abandoned for the next. *)

(** [%Y]: [\d\d\d\d] *)
Definition match_Y {A : Type} (s : string) (k : nat -> string -> option A)
  : option A :=
  match match_digit s with
  | Some (a, r1) =>
      match match_digit r1 with
      | Some (b, r2) =>
          match match_digit r2 with
          | Some (c, r3) =>
              match match_digit r3 with
              | Some (d, r4) => k (1000 * a + 100 * b + 10 * c + d) r4
              | None => None
              end
          | None => None
          end
      | None => None
      end
  | None => None
  end.

(** [%m]: [1[0-2]|0[1-9]|[1-9]] *)
Definition match_m {A : Type} (s : string) (k : nat -> string -> option A)
  : option A :=
  orelse
    (match s with
     | String a (String b rest) =>
         if between 49 49 a && between 48 50 b
         then k (10 + digit_val b) rest else None
     | _ => None
     end)
    (orelse
       (match s with
        | String a (String b rest) =>
            if between 48 48 a && between 49 57 b
            then k (digit_val b) rest else None
        | _ => None
        end)
       (match s with
        | String a rest =>
            if between 49 57 a then k (digit_val a) rest else None
        | _ => None
        end)).

(** [%d]: [3[0-1]|[1-2]\d|0[1-9]|[1-9]| [1-9]] *)
Definition match_d {A : Type} (s : string) (k : nat -> string -> option A)
  : option A :=
  orelse
    (match s with
     | String a (String b rest) =>
         if between 51 51 a && between 48 49 b
         then k (30 + digit_val b) rest else None
     | _ => None
     end)
    (orelse
       (match s with
        | String a r =>
            if between 49 50 a then
              match match_digit r with
              | Some (b, rest) => k (10 * digit_val a + b) rest
              | None => None
              end
            else None
        | _ => None
        end)
       (orelse
          (match s with
           | String a (String b rest) =>
               if between 48 48 a && between 49 57 b
               then k (digit_val b) rest else None
           | _ => None
           end)
          (orelse
             (match s with
              | String a rest =>
                  if between 49 57 a then k (digit_val a) rest else None
              | _ => None
              end)
             (match s with
              | String a (String b rest) =>
                  if between 32 32 a && between 49 57 b
                  then k (digit_val b) rest else None
              | _ => None
              end)))).

(** A literal character of the format. *)
Definition match_lit {A : Type} (c : ascii) (s : string)
  (k : string -> option A) : option A :=
  match s with
  | String a rest => if Ascii.eqb a c then k rest else None
  | EmptyString => None
  end.

(** The end of [strptime]: the first match must use up the whole input
    ("unconverted data remains" otherwise) and name an existing date. *)
Definition finish (m : option (nat * nat * nat * string)) : option datetime :=
  match m with
  | Some (y, mo, d, rest) =>
      if String.eqb rest "" then make_date y mo d else None
  | None => None
  end.

(** [datetime.strptime(s, "%d%m%Y")]; [None] stands for ValueError. *)
Definition strptime_dmY (s : string) : option datetime :=
  finish
    (match_d s (fun d r1 =>
     match_m r1 (fun mo r2 =>
     match_Y r2 (fun y r3 => Some (y, mo, d, r3))))).

(** [datetime.strptime(s, "%Y-%m-%d")] *)
Definition strptime_Ymd (s : string) : option datetime :=
  finish
    (match_Y s (fun y r1 =>
     match_lit "-" r1 (fun r2 =>
     match_m r2 (fun mo r3 =>
     match_lit "-" r3 (fun r4 =>
     match_d r4 (fun d r5 => Some (y, mo, d, r5))))))).

(** *** [strftime] *)

Definition digit_char (n : nat) : ascii := ascii_of_nat (48 + n).

(** [%d] and [%m]: two digits, zero-padded. *)
Definition pad2 (n : nat) : string :=
  String (digit_char (n / 10)) (String (digit_char (n mod 10)) "").

(** [str(n)] for a non-negative int. *)
Definition str_of_nat (n : nat) : string := str_of_int (Z.of_nat n).

(** [%Y]: the year in decimal as the C library prints it, without
    leading zeros; a year below 1000 has fewer than four digits. *)
Definition strftime_Y (dt : datetime) : string := str_of_nat (year dt).

(** [dt.strftime("%d%m%Y")] *)
Definition strftime_dmY (dt : datetime) : string :=
  pad2 (day dt) ++ pad2 (month dt) ++ strftime_Y dt.

(** [dt.strftime("%Y-%m-%d")] *)
Definition strftime_Ymd (dt : datetime) : string :=
  strftime_Y dt ++ "-" ++ pad2 (month dt) ++ "-" ++ pad2 (day dt).




(** *** The specification's words

    What follows is written from the specification, not from the code:
    the ordinal rule, the month names, the calendar, and the two ways a
    date is written. *)





Definition leap_year (y : nat) : Prop :=
  (y mod 4 = 0 /\ y mod 100 <> 0) \/ y mod 400 = 0.

(** A day of the calendar, years 1 to 9999. *)
Definition calendar_date (y m d : nat) : Prop :=
  1 <= y <= 9999 /\ 1 <= m <= 12 /\ 1 <= d <= 31
  /\ (m = 4 \/ m = 6 \/ m = 9 \/ m = 11 -> d <= 30)
  /\ (m = 2 -> d <= 29)
  /\ (m = 2 -> ~ leap_year y -> d <= 28).

Definition two_digits (n : nat) : string :=
  String (ascii_of_nat (48 + n / 10))
    (String (ascii_of_nat (48 + n mod 10)) "").

Definition four_digits (n : nat) : string :=
  two_digits (n / 100) ++ two_digits (n mod 100).

(** DDMMYYYY and YYYY-MM-DD. *)
Definition dmy_text (d m y : nat) : string :=
  two_digits d ++ two_digits m ++ four_digits y.

Definition ymd_text (y m d : nat) : string :=
  four_digits y ++ "-" ++ two_digits m ++ "-" ++ two_digits d.

(** The decimal digits a text begins with, and the rest of the text. *)
Inductive decimal_prefix : string -> list nat -> string -> Prop :=
| prefix_nil (s : string) : decimal_prefix s [] s
| prefix_cons (s r rest : string) (v : nat) (l : list nat) :
    match_digit s = Some (v, r) -> decimal_prefix r l rest ->
    decimal_prefix s (v :: l) rest.

Definition number (ds : list nat) : nat :=
  fold_left (fun n v => 10 * n + v) ds 0.

(** A text that reads as day, month and year: a day of one or two
    digits (a space may stand before it), a month of one or two digits
    and a year of four digits, and nothing more. *)
Definition reads_as (s : string) (d m y : nat) : Prop :=
  exists (s0 s1 s2 : string) (dd dm dy : list nat),
    (s = s0 \/ s = String " " s0)
    /\ decimal_prefix s0 dd s1
    /\ decimal_prefix s1 dm s2
    /\ decimal_prefix s2 dy ""
    /\ 1 <= List.length dd <= 2
    /\ 1 <= List.length dm <= 2
    /\ List.length dy = 4
    /\ d = number dd /\ m = number dm /\ y = number dy.

End Dates.

Import Dates.

(** ** The flight store: [user_data], real flights, day groups, codes *)

Module Store.

(** [user_data]: every key the program reads or writes is a string (a
    flight code, [str(user_id)], [str(user_id) + "_pending"], ["_day_msgs"]). *)
Definition store : Type := list (string * value).

Definition store_get : string -> store -> option value := assoc_get String.eqb.
Definition store_mem : string -> store -> bool := assoc_mem String.eqb.
Definition store_set : string -> value -> store -> store :=
  assoc_set String.eqb.

(** [isinstance(entry, dict)] *)
Definition isinstance_dict (entry : value) : bool :=
  match entry with
  | VDict _ => true
  | _ => false
  end.

(** ["flight_number" in entry], once [entry] is known to be a dict. *)
Definition has_flight_number (entry : value) : bool :=
  match entry with
  | VDict d => dict_mem "flight_number" d
  | _ => false
  end.

(** The filter of the comprehension in [get_real_flights]. *)
Definition is_real (code : string) (entry : value) : bool :=
  isinstance_dict entry
  && has_flight_number entry
  && negb (endswith code "_pending")
  && (String.length code =? 6).

Definition get_real_flights (user_data : store) : store :=
  filter (fun ce => is_real (fst ce) (snd ce)) user_data.

(** *** Grouping by day *)

(** The local dict [grouped]: a date key to the list of [(code, entry)]. *)
Definition groups : Type := list (key * list (string * value)).

(** [if date_raw not in grouped: grouped[date_raw] = []] followed by
    [grouped[date_raw].append(item)]. *)
Fixpoint group_append (k : key) (item : string * value) (g : groups) : groups :=
  match g with
  | [] => [(k, [item])]
  | (k', l) :: g' =>
      if key_eqb k k' then (k', l ++ [item]) :: g'
      else (k', l) :: group_append k item g'
  end.

(** [date_raw = entry.get("dep_date", "unknown")], hashed as a key of
    [grouped]. *)
Definition date_key (item : string * value) : result key :=
  date_raw <- py_get (snd item) "dep_date" (VStr "unknown") ;;
  hash_key date_raw.

(** One turn of [for code, entry in flights.items()]. *)
Definition group_step (acc : result groups) (item : string * value)
  : result groups :=
  g <- acc ;;
  k <- date_key item ;;
  Ok (group_append k item g).

(** [list.sort(key=...)] is stable and only asks [<] of the keys; it is
    rendered as a stable insertion sort.  A comparison Python refuses
    aborts the sort. *)
Fixpoint insert_sorted {A : Type} (kx : value) (x : A) (l : list (value * A))
  : result (list (value * A)) :=
  match l with
  | [] => Ok [(kx, x)]
  | (ky, y) :: l' =>
      c <- py_lt ky kx ;;
      if c then (r <- insert_sorted kx x l' ;; Ok ((ky, y) :: r))
      else Ok ((kx, x) :: (ky, y) :: l')
  end.

Fixpoint sort_keyed {A : Type} (l : list (value * A))
  : result (list (value * A)) :=
  match l with
  | [] => Ok []
  | (kx, x) :: l' => r <- sort_keyed l' ;; insert_sorted kx x r
  end.

(** The sort key [lambda x: x[1].get("dep_time", "00:00")]. *)
Definition dep_time_key (item : string * value) : result value :=
  py_get (snd item) "dep_time" (VStr "00:00").

Fixpoint with_keys (l : list (string * value))
  : result (list (value * (string * value))) :=
  match l with
  | [] => Ok []
  | x :: l' =>
      k <- dep_time_key x ;;
      r <- with_keys l' ;;
      Ok ((k, x) :: r)
  end.

Definition sort_by_dep_time (l : list (string * value))
  : result (list (string * value)) :=
  keyed <- with_keys l ;;
  sorted <- sort_keyed keyed ;;
  Ok (map snd sorted).

(** [for date_raw in grouped: grouped[date_raw].sort(...)] *)
Fixpoint sort_groups (g : groups) : result groups :=
  match g with
  | [] => Ok []
  | (k, l) :: g' =>
      l' <- sort_by_dep_time l ;;
      r <- sort_groups g' ;;
      Ok ((k, l') :: r)
  end.

Definition group_flights_by_date (flights : store) : result groups :=
  grouped <- fold_left group_step flights (Ok ([] : groups)) ;;
  sort_groups grouped.

(** A record whose [dep_date] and [dep_time], where present, are
    strings, as every record written by the wizard is. *)
Definition str_or_absent (k : key) (entry : value) : bool :=
  match entry with
  | VDict d =>
      match dict_get k d with
      | None | Some (VStr _) => true
      | Some _ => false
      end
  | _ => false
  end.

Definition timetabled (entry : value) : bool :=
  str_or_absent "dep_date" entry && str_or_absent "dep_time" entry.

(** A record whose [dep_date] is a list or a dict. *)
Definition unhashable_day (entry : value) : bool :=
  match entry with
  | VDict d =>
      match dict_get "dep_date" d with
      | Some (VList _) | Some (VDict _) => true
      | _ => false
      end
  | _ => false
  end.

(** The specification's words: the day and the time of a record, a
    missing [dep_date] counted as "unknown" and a missing [dep_time] as
    "00:00", and the ascending order of the times. *)
Definition field_text (name default : string) (entry : value)
  : option string :=
  match entry with
  | VDict d =>
      match dict_get name d with
      | None => Some default
      | Some (VStr s) => Some s
      | Some _ => None
      end
  | _ => None
  end.

Definition spec_day (item : string * value) : option string :=
  field_text "dep_date" "unknown" (snd item).

Definition spec_time (item : string * value) : option string :=
  field_text "dep_time" "00:00" (snd item).

Definition time_le (a b : string * value) : Prop :=
  exists s t, spec_time a = Some s /\ spec_time b = Some t
              /\ String.leb s t = true.

(** *** Code generation *)

Definition alphabet : string := "ABCDEFGHIJKLMNOPQRSTUVWXYZ0123456789".

(** The random generator is the stream of its draws: call number [n] of
    [random.choice] is decided by [r n]. *)
Definition rng : Type := nat -> nat.

(** [random.choice(alphabet)] *)
Definition random_choice (draw : nat) : ascii :=
  match String.get (draw mod String.length alphabet) alphabet with
  | Some c => c
  | None => "A"%char
  end.

(** ["".join(random.choice(alphabet) for _ in range(length))], reading
    the draws from position [pos] on. *)
Fixpoint join_choices (length : nat) (r : rng) (pos : nat) : string :=
  match length with
  | 0 => EmptyString
  | S n => String (random_choice (r pos)) (join_choices n r (S pos))
  end.

(** [generate_code(length=6)] *)
Definition generate_code (length : nat) (r : rng) (pos : nat) : string :=
  join_choices length r pos.

(** [generate_ref_code(length=7)] *)
Definition generate_ref_code (length : nat) (r : rng) (pos : nat) : string :=
  join_choices length r pos.

(** The characters of the alphabet, [A-Z0-9], and the strings made of
    them. *)
Definition code_char (c : ascii) : bool :=
  ((65 <=? nat_of_ascii c) && (nat_of_ascii c <=? 90))
  || ((48 <=? nat_of_ascii c) && (nat_of_ascii c <=? 57)).

Fixpoint code_chars (s : string) : bool :=
  match s with
  | EmptyString => true
  | String c s' => code_char c && code_chars s'
  end.

(** [code = generate_code()] then [while code in user_data: code =
    generate_code()].  [fuel] bounds the number of codes drawn; [None]
    means the loop is still running when the bound is reached.  The
    result carries the position of the next unused draw. *)
Fixpoint fresh_code (fuel : nat) (user_data : store) (r : rng) (pos : nat)
  : option (string * nat) :=
  match fuel with
  | 0 => None
  | S fuel' =>
      let code := generate_code 6 r pos in
      if store_mem code user_data
      then fresh_code fuel' user_data r (pos + 6)
      else Some (code, pos + 6)
  end.

(** *** The day board on Discord *)

(** What the gateway answers for one guild: whether the public and the
    admin channel exist, whether the day message already posted can be
    fetched and edited, and the id of a newly sent message ([None] when
    sending raises). *)
Record guild : Type := mkguild {
  public_channel : bool;
  admin_channel : bool;
  edit_existing : bool;
  public_send : option string;
  admin_send : option string
}.

(** [aircraft_full_name(entry.get("aircraft", "N/A"))] calls [upper] on
    the field; it is the one step of [build_day_embed] that can raise. *)
Fixpoint build_day_embed (flights_on_day : list (string * value))
  : result unit :=
  match flights_on_day with
  | [] => Ok tt
  | (_, entry) :: rest =>
      a <- py_get entry "aircraft" (VStr "N/A") ;;
      match a with
      | VStr _ => build_day_embed rest
      | _ => Raise AttributeError
      end
  end.

(** [post_or_update_day_schedule(guild, date_raw)]: the store it leaves
    and whether it raised. *)
Definition post_or_update_day_schedule (g : guild) (date_raw : value)
  (user_data : store) : store * result unit :=
  if negb (public_channel g) then (user_data, Ok tt) else
  match group_flights_by_date (get_real_flights user_data) with
  | Raise e => (user_data, Raise e)
  | Ok grouped =>
  match hash_key date_raw with
  | Raise e => (user_data, Raise e)
  | Ok k =>
  match assoc_get key_eqb k grouped with
  | None | Some [] => (user_data, Ok tt)
  | Some flights_on_day =>
  match build_day_embed flights_on_day with
  | Raise e => (user_data, Raise e)
  | Ok _ =>
      let user_data1 :=
        if store_mem "_day_msgs" user_data then user_data
        else store_set "_day_msgs" (VDict []) user_data in
      match store_get "_day_msgs" user_data1 with
      | Some (VDict day_msgs) =>
          if truthy (get_default k VNone day_msgs) && edit_existing g
          then (user_data1, Ok tt)
          else match public_send g with
               | None => (user_data1, Raise DiscordException)
               | Some msg_id =>
                   (store_set "_day_msgs"
                      (VDict (dict_set k (VStr msg_id) day_msgs)) user_data1,
                    Ok tt)
               end
      | _ => (user_data1, Raise AttributeError)
      end
  end end end end.

End Store.

Import Store.

(** ** The dashboard API ([create_api]) *)

Module Api.

(** [require_auth(request)], on the value [get_session(request)] returned:
    401 without a session, 403 without the role flag. *)
Definition require_auth (session : option value) : result value :=
  match session with
  | None => Raise (HTTPException 401)
  | Some s =>
      if negb (truthy s) then Raise (HTTPException 401)
      else
        has_role <- py_get s "has_role" VNone ;;
        if negb (truthy has_role) then Raise (HTTPException 403)
        else Ok s
  end.

(** The [try] block of [serialize_entry]: a stored DDMMYYYY date is shown
    as YYYY-MM-DD, anything [strptime] refuses is shown as it is. *)
Definition dep_date_display (dep_date_raw : value) : value :=
  match dep_date_raw with
  | VStr s =>
      match strptime_dmY s with
      | Some dt => VStr (strftime_Ymd dt)
      | None => dep_date_raw
      end
  | _ => dep_date_raw
  end.

(** [entry.get(outer, {}).get(inner, "N/A")] *)
Definition get_nested (entry : value) (outer inner : string) : result value :=
  sub <- py_get entry outer (VDict []) ;;
  py_get sub inner (VStr "N/A").

Definition serialize_entry (code : string) (entry : value) : result value :=
  dep_date_raw <- py_get entry "dep_date" (VStr "") ;;
  let dep_date_display := dep_date_display dep_date_raw in
  flight_number <- py_get entry "flight_number" (VStr "") ;;
  dep_city <- py_get entry "dep_city" (VStr "") ;;
  arr_city <- py_get entry "arr_city" (VStr "") ;;
  dep_code <- py_get entry "dep_code" (VStr "") ;;
  arr_code <- py_get entry "arr_code" (VStr "") ;;
  dep_airport <- py_get entry "dep_airport" (VStr "") ;;
  arr_airport <- py_get entry "arr_airport" (VStr "") ;;
  dep_time <- py_get entry "dep_time" (VStr "") ;;
  arr_time <- py_get entry "arr_time" (VStr "") ;;
  duration <- py_get entry "duration" (VStr "") ;;
  terminal <- py_get entry "terminal" (VStr "") ;;
  aircraft <- py_get entry "aircraft" (VStr "") ;;
  meal_service <- py_get entry "meal_service" (VStr "N/A") ;;
  status <- py_get entry "status" (VStr "N/A") ;;
  gate_dep <- get_nested entry "gate" "dep" ;;
  gate_arr <- get_nested entry "gate" "arr" ;;
  alerts <- py_get entry "alerts" (VStr "N/A") ;;
  server_link <- get_nested entry "server" "link" ;;
  event_link <- get_nested entry "event" "link" ;;
  host_user_id <- py_get entry "host_user_id" (VStr "") ;;
  created_at <- py_get entry "created_at" (VStr "") ;;
  Ok (VDict [
    (KStr "code", VStr code);
    (KStr "flight_number", flight_number);
    (KStr "dep_city", dep_city);
    (KStr "arr_city", arr_city);
    (KStr "dep_code", dep_code);
    (KStr "arr_code", arr_code);
    (KStr "dep_airport", dep_airport);
    (KStr "arr_airport", arr_airport);
    (KStr "dep_time", dep_time);
    (KStr "arr_time", arr_time);
    (KStr "dep_date", dep_date_display);
    (KStr "dep_date_raw", dep_date_raw);
    (KStr "duration", duration);
    (KStr "terminal", terminal);
    (KStr "aircraft", aircraft);
    (KStr "meal_service", meal_service);
    (KStr "status", status);
    (KStr "gate_dep", gate_dep);
    (KStr "gate_arr", gate_arr);
    (KStr "alerts", alerts);
    (KStr "server_link", server_link);
    (KStr "event_link", event_link);
    (KStr "host_user_id", host_user_id);
    (KStr "created_at", created_at)
  ]).

(** [if not entry or "flight_number" not in entry: raise 404], with
    [entry = user_data.get(code)]. *)
Definition lookup_flight (user_data : store) (code : string) : result value :=
  match store_get code user_data with
  | None => Raise (HTTPException 404)
  | Some entry =>
      if negb (truthy entry) then Raise (HTTPException 404)
      else
        has <- py_in "flight_number" entry ;;
        if negb has then Raise (HTTPException 404) else Ok entry
  end.

(** [[serialize_entry(code, entry) for code, entry in real.items()]]: the
    first record [serialize_entry] raises on ends the comprehension. *)
Fixpoint serialize_all (real : store) : result (list value) :=
  match real with
  | [] => Ok []
  | (code, entry) :: rest =>
      item <- serialize_entry code entry ;;
      items <- serialize_all rest ;;
      Ok (item :: items)
  end.

(** [GET /api/flights] *)
Definition get_flights (session : option value) (user_data : store)
  : result value :=
  _ <- require_auth session ;;
  items <- serialize_all (get_real_flights user_data) ;;
  Ok (VList items).

(** [GET /api/flights/{code}] *)
Definition get_flight (session : option value) (user_data : store)
  (code : string) : result value :=
  _ <- require_auth session ;;
  entry <- lookup_flight user_data (upper code) ;;
  serialize_entry (upper code) entry.

(** *** PATCH *)

(** [entry.update({k: v})] *)
Definition entry_update (entry : value) (k : string) (v : value)
  : result value :=
  match entry with
  | VDict d => Ok (VDict (dict_set k v d))
  | _ => Raise AttributeError
  end.

(** [entry.setdefault(outer, {}).update({inner: v})] *)
Definition entry_update_nested (entry : value) (outer inner : string)
  (v : value) : result value :=
  match entry with
  | VDict d =>
      match dict_get outer d with
      | None => Ok (VDict (dict_set outer (VDict [(KStr inner, v)]) d))
      | Some (VDict sub) =>
          Ok (VDict (dict_set outer (VDict (dict_set inner v sub)) d))
      | Some _ => Raise AttributeError
      end
  | _ => Raise AttributeError
  end.

(** [field_map], in the order of the dict display. *)
Definition field_map : list (string * (value -> value -> result value)) :=
  [ ("status", fun entry v => entry_update entry "status" v);
    ("alerts", fun entry v => entry_update entry "alerts" v);
    ("meal_service", fun entry v => entry_update entry "meal_service" v);
    ("gate_dep", fun entry v => entry_update_nested entry "gate" "dep" v);
    ("gate_arr", fun entry v => entry_update_nested entry "gate" "arr" v);
    ("server_link", fun entry v => entry_update_nested entry "server" "link" v);
    ("event_link", fun entry v => entry_update_nested entry "event" "link" v) ].

Definition VALID_STATUSES : list key :=
  [ KStr "On–Time"; KStr "Delayed"; KStr "Cancelled"; KStr "Rescheduled";
    KStr "N/A"; KStr "Ended" ].

(** [v in VALID_STATUSES]: an unhashable [v] raises TypeError. *)
Definition in_valid_statuses (v : value) : result bool :=
  k <- hash_key v ;;
  Ok (existsb (key_eqb k) VALID_STATUSES).

(** [if "status" in body and body["status"] not in VALID_STATUSES: raise 422] *)
Definition check_status (body : value) : result unit :=
  has <- py_in "status" body ;;
  if has then
    v <- py_index body "status" ;;
    valid <- in_valid_statuses v ;;
    if negb valid then Raise (HTTPException 422) else Ok tt
  else Ok tt.

(** The loop over [field_map.items()].  The entry is updated in place:
    when an updater raises, the fields already written stay written, so
    the entry reached so far is returned beside the outcome. *)
Fixpoint apply_fields (fields : list (string * (value -> value -> result value)))
  (body : value) (entry : value) (updated : list string)
  : value * result (list string) :=
  match fields with
  | [] => (entry, Ok updated)
  | (field, updater) :: rest =>
      match py_in field body with
      | Raise e => (entry, Raise e)
      | Ok false => apply_fields rest body entry updated
      | Ok true =>
          match py_index body field with
          | Raise e => (entry, Raise e)
          | Ok v =>
              match updater entry v with
              | Raise e => (entry, Raise e)
              | Ok entry' =>
                  apply_fields rest body entry' (updated ++ [field])
              end
          end
      end
  end.

(** [for g in bot.guilds: try: ...; break; except Exception: pass] of
    [update_flight]: the first guild whose refresh does not raise ends
    the loop.  [update_embeds_for_code] only edits Discord messages. *)
Fixpoint refresh_after_update (guilds : list guild) (entry : value)
  (user_data : store) : store :=
  match guilds with
  | [] => user_data
  | g :: rest =>
      match py_get entry "dep_date" VNone with
      | Raise _ => refresh_after_update rest entry user_data
      | Ok dep_date =>
          if truthy dep_date then
            match post_or_update_day_schedule g dep_date user_data with
            | (user_data', Ok _) => user_data'
            | (user_data', Raise _) => refresh_after_update rest entry user_data'
            end
          else user_data
      end
  end.

(** [PATCH /api/flights/{code}]: the store it leaves and its answer. *)
Definition update_flight (guilds : list guild) (session : option value)
  (user_data : store) (code : string) (body : value) : store * result value :=
  match require_auth session with
  | Raise e => (user_data, Raise e)
  | Ok _ =>
  let code := upper code in
  match lookup_flight user_data code with
  | Raise e => (user_data, Raise e)
  | Ok entry =>
  match check_status body with
  | Raise e => (user_data, Raise e)
  | Ok _ =>
  match apply_fields field_map body entry [] with
  | (entry', Raise e) => (store_set code entry' user_data, Raise e)
  | (entry', Ok updated) =>
      let user_data1 := store_set code entry' user_data in
      let user_data2 :=
        match updated with
        | [] => user_data1
        | _ :: _ => refresh_after_update guilds entry' user_data1
        end in
      (user_data2, serialize_entry code entry')
  end end end end.

(** *** POST *)

Definition required : list string :=
  [ "flight_number"; "dep_city"; "arr_city"; "dep_code"; "arr_code";
    "dep_airport"; "arr_airport"; "dep_time"; "arr_time"; "dep_date";
    "duration"; "terminal"; "aircraft" ].

(** [[f for f in required if not body.get(f)]] *)
Fixpoint missing_fields (body : value) (fields : list string)
  : result (list string) :=
  match fields with
  | [] => Ok []
  | f :: rest =>
      v <- py_get body f VNone ;;
      r <- missing_fields body rest ;;
      Ok (if truthy v then r else f :: r)
  end.

(** The [try] block of [create_flight]: a YYYY-MM-DD date is stored as
    DDMMYYYY, anything [strptime] refuses is stored as it came. *)
Definition dep_date_stored (dep_date_raw : value) : value :=
  match dep_date_raw with
  | VStr s =>
      match strptime_Ymd s with
      | Some dt => VStr (strftime_dmY dt)
      | None => dep_date_raw
      end
  | _ => dep_date_raw
  end.

(** [body[f].strip()] and [body[f].strip().upper()] *)
Definition stripped (body : value) (f : string) : result value :=
  v <- py_index body f ;; py_strip v.

Definition stripped_upper (body : value) (f : string) : result value :=
  v <- py_index body f ;; py_strip_upper v.

(** The dict display [entry = {...}] of [create_flight]; [now_iso] is
    [datetime.utcnow().isoformat()]. *)
Definition new_entry (body : value) (code : string) (dep_date_stored : value)
  (now_iso : string) : result value :=
  flight_number <- stripped body "flight_number" ;;
  dep_city <- stripped body "dep_city" ;;
  arr_city <- stripped body "arr_city" ;;
  dep_code <- stripped_upper body "dep_code" ;;
  arr_code <- stripped_upper body "arr_code" ;;
  dep_airport <- stripped body "dep_airport" ;;
  arr_airport <- stripped body "arr_airport" ;;
  dep_time <- stripped body "dep_time" ;;
  arr_time <- stripped body "arr_time" ;;
  duration <- stripped body "duration" ;;
  terminal <- stripped body "terminal" ;;
  aircraft <- stripped_upper body "aircraft" ;;
  host_user_id <- (v <- py_get body "host_user_id" (VStr "") ;; py_strip v) ;;
  meal_service <- py_get body "meal_service" (VStr "N/A") ;;
  status <- py_get body "status" (VStr "N/A") ;;
  event_link <- py_get body "event_link" (VStr "N/A") ;;
  Ok (VDict [
    (KStr "code", VStr code);
    (KStr "flight_number", flight_number);
    (KStr "dep_city", dep_city);
    (KStr "arr_city", arr_city);
    (KStr "dep_code", dep_code);
    (KStr "arr_code", arr_code);
    (KStr "dep_airport", dep_airport);
    (KStr "arr_airport", arr_airport);
    (KStr "dep_time", dep_time);
    (KStr "arr_time", arr_time);
    (KStr "dep_date", dep_date_stored);
    (KStr "duration", duration);
    (KStr "terminal", terminal);
    (KStr "aircraft", aircraft);
    (KStr "host_user_id", host_user_id);
    (KStr "gate", VDict [(KStr "dep", VStr "N/A"); (KStr "arr", VStr "N/A")]);
    (KStr "meal_service", meal_service);
    (KStr "status", status);
    (KStr "alerts", VStr "N/A");
    (KStr "server", VDict [(KStr "link", VStr "N/A")]);
    (KStr "event", VDict [(KStr "link", py_or event_link (VStr "N/A"))]);
    (KStr "public_message_id", VNone);
    (KStr "admin_message_id", VNone);
    (KStr "created_at", VStr (now_iso ++ "Z"))
  ]).

(** [for g in bot.guilds: ...; break] of [create_flight]: the day board
    of the first guild is refreshed (an exception is swallowed), then the
    admin panel is posted and its message id written into the entry. *)
Definition announce_created (guilds : list guild) (code : string)
  (entry : value) (dep_date_stored : value) (user_data : store)
  : store * value :=
  match guilds with
  | [] => (user_data, entry)
  | g :: _ =>
      let user_data1 :=
        fst (post_or_update_day_schedule g dep_date_stored user_data) in
      if admin_channel g then
        match admin_send g, entry with
        | Some msg_id, VDict d =>
            let entry' := VDict (dict_set "admin_message_id" (VStr msg_id) d) in
            (store_set code entry' user_data1, entry')
        | _, _ => (user_data1, entry)
        end
      else (user_data1, entry)
  end.

(** [POST /api/flights]: the store it leaves and its answer; [None] when
    the code loop has not found a free code within [fuel] draws. *)
Definition create_flight (guilds : list guild) (r : rng) (pos fuel : nat)
  (now_iso : string) (session : option value) (user_data : store)
  (body : value) : option (store * result value) :=
  match require_auth session with
  | Raise e => Some (user_data, Raise e)
  | Ok _ =>
  match missing_fields body required with
  | Raise e => Some (user_data, Raise e)
  | Ok (_ :: _) => Some (user_data, Raise (HTTPException 422))
  | Ok [] =>
  match fresh_code fuel user_data r pos with
  | None => None
  | Some (code, _) =>
  match py_index body "dep_date" with
  | Raise e => Some (user_data, Raise e)
  | Ok dep_date_raw =>
  let dep_date_stored := dep_date_stored dep_date_raw in
  match new_entry body code dep_date_stored now_iso with
  | Raise e => Some (user_data, Raise e)
  | Ok entry =>
      let user_data1 := store_set code entry user_data in
      let (user_data2, entry') :=
        announce_created guilds code entry dep_date_stored user_data1 in
      Some (user_data2, serialize_entry code entry')
  end end end end end.

(** *** What PATCH amounts to on a well-formed record *)

(** The sub-dicts [gate], [server] and [event] of a record are dicts
    where they exist; every record the program writes is of this shape. *)
Definition subdict_ok (outer : string) (d : dict) : bool :=
  match dict_get outer d with
  | None | Some (VDict _) => true
  | Some _ => false
  end.

Definition subdicts_ok (d : dict) : bool :=
  subdict_ok "gate" d && subdict_ok "server" d && subdict_ok "event" d.

(** [d[outer][inner]], when both exist. *)
Definition sub_get (outer inner : string) (d : dict) : option value :=
  match dict_get outer d with
  | Some (VDict sub) => dict_get inner sub
  | _ => None
  end.

(** [d.setdefault(outer, {})[inner] = v] *)
Definition nested_set (outer inner : string) (v : value) (d : dict) : dict :=
  match dict_get outer d with
  | Some (VDict sub) => dict_set outer (VDict (dict_set inner v sub)) d
  | _ => dict_set outer (VDict [(KStr inner, v)]) d
  end.

(** One recognised field of the body, written to the record if present. *)
Definition set_field (body : dict) (field : string) (d : dict) : dict :=
  match dict_get field body with
  | Some v => dict_set field v d
  | None => d
  end.

Definition set_nested (body : dict) (field outer inner : string) (d : dict)
  : dict :=
  match dict_get field body with
  | Some v => nested_set outer inner v d
  | None => d
  end.

(** The record after a PATCH with [body]: the seven recognised fields in
    the order of [field_map], nothing else. *)
Definition patched (body d : dict) : dict :=
  set_nested body "event_link" "event" "link"
    (set_nested body "server_link" "server" "link"
       (set_nested body "gate_arr" "gate" "arr"
          (set_nested body "gate_dep" "gate" "dep"
             (set_field body "meal_service"
                (set_field body "alerts"
                   (set_field body "status" d)))))).

(** The names [field_map] knows, and a body cut down to them. *)
Definition recognized (k : key) : bool :=
  existsb (key_eqb k) (map (fun fu => KStr (fst fu)) field_map).

Definition recognized_only (body : dict) : dict :=
  filter (fun kv => recognized (fst kv)) body.

(** The keys of a record a PATCH can write. *)
Definition patch_targets : list key :=
  [ KStr "status"; KStr "alerts"; KStr "meal_service"; KStr "gate";
    KStr "server"; KStr "event" ].

(** The HTTP status of an answer: an exception that is not an
    HTTPException leaves the handler and FastAPI answers 500. *)
Definition status_code (r : result value) : nat :=
  match r with
  | Ok _ => 200
  | Raise (HTTPException c) => c
  | Raise _ => 500
  end.

End Api.

Import Api.

(** ** The submission wizard: [ConfirmView.yes_button] *)

Module Wizard.

(** What the submitter is told. *)
Inductive outcome : Type :=
| NotForYou
| NoSessionData
| Saved (code : string)
| NextModal
| Reported (err_code : string).

(** [handle_exception_and_report]: the reference code it logs and shows. *)
Definition handle_exception_and_report (r : rng) (pos : nat) : string :=
  generate_ref_code 7 r pos.

(** The dict display [flight_entry = {"code": ..., "host_user_id": ...,
    **entry, "gate": ..., ...}]: later bindings win, a key keeps the place
    where it first appears. *)
Definition flight_entry (code : string) (user_id : Z) (entry : dict)
  (now_iso : string) : dict :=
  let d0 := [(KStr "code", VStr code); (KStr "host_user_id", VInt user_id)] in
  let d1 := dict_update d0 entry in
  let d2 := dict_set "gate"
              (VDict [(KStr "dep", VStr "N/A"); (KStr "arr", VStr "N/A")]) d1 in
  let d3 := dict_set "meal_service" (VStr "N/A") d2 in
  let d4 := dict_set "status" (VStr "N/A") d3 in
  let d5 := dict_set "alerts" (VStr "N/A") d4 in
  let d6 := dict_set "server" (VDict [(KStr "link", VStr "N/A")]) d5 in
  let d7 := dict_set "event" (VDict [(KStr "link", VStr "N/A")]) d6 in
  let d8 := dict_set "public_message_id" VNone d7 in
  let d9 := dict_set "admin_message_id" VNone d8 in
  dict_set "created_at" (VStr (now_iso ++ "Z")) d9.

(** [yes_button] of a [ConfirmView(user_id, ..., is_last_step)] pressed by
    [presser]: the store it leaves and what it answers; [None] when the
    code loop has not found a free code within [fuel] draws.  The ticket
    image and the messages sent afterwards do not touch the store. *)
Definition yes_button (r : rng) (pos fuel : nat) (now_iso : string)
  (user_id : Z) (is_last_step : bool) (presser : Z) (user_data : store)
  : option (store * outcome) :=
  if negb (Z.eqb presser user_id) then Some (user_data, NotForYou)
  else if is_last_step then
    match store_get (str_of_int user_id) user_data with
    | None | Some VNone => Some (user_data, NoSessionData)
    | Some entry =>
        match fresh_code fuel user_data r pos with
        | None => None
        | Some (code, pos') =>
            match entry with
            | VDict d =>
                let user_data1 :=
                  store_set code (VDict (flight_entry code user_id d now_iso))
                            user_data in
                let user_data2 :=
                  store_set (str_of_int user_id ++ "_pending") entry
                            user_data1 in
                Some (user_data2, Saved code)
            | _ =>
                Some (user_data, Reported (handle_exception_and_report r pos'))
            end
        end
    end
  else Some (user_data, NextModal).

End Wizard.

Import Wizard.

(** ** Signed session tokens ([auth.py]) *)

Module Auth.

Section Session.

(** The secret and the library functions the module calls:
    [hmac.new(key, msg, hashlib.sha256).hexdigest()],
    [json.dumps(_, separators=(",", ":"))], [json.loads],
    [base64.urlsafe_b64encode] and [base64.urlsafe_b64decode]; a
    decoder answers [None] where the library raises. *)
Variable SECRET_KEY : string.
Variable hmac_sha256_hexdigest : string -> string -> string.
Variable json_dumps : value -> string.
Variable json_loads : string -> option value.
Variable urlsafe_b64encode : string -> string.
Variable urlsafe_b64decode : string -> option string.

Definition _sign (payload : value) : string :=
  let raw := json_dumps payload in
  let b64 := urlsafe_b64encode raw in
  let sig := hmac_sha256_hexdigest SECRET_KEY b64 in
  b64 ++ "." ++ sig.

(** [token.rsplit(".", 1)] unpacked into two names: the text before
    and after the last dot; [None] (ValueError) without a dot. *)
Fixpoint rsplit_dot (token : string) : option (string * string) :=
  match token with
  | EmptyString => None
  | String c rest =>
      match rsplit_dot rest with
      | Some (a, b) => Some (String c a, b)
      | None => if Ascii.eqb c "." then Some (EmptyString, rest) else None
      end
  end.

(** [exp < time.time()], the clock reading being a rational number of
    seconds: an int or a bool compares as a number, anything else
    raises TypeError ([None]). *)
Definition expired (exp : value) (now : Q) : option bool :=
  match exp with
  | VInt z => Some (negb (Qle_bool now (inject_Z z)))
  | VBool b => Some (negb (Qle_bool now (inject_Z (Z.b2z b))))
  | _ => None
  end.

(** [_verify(token)] at clock reading [now]; every exception ends in
    [return None]. *)
Definition _verify (now : Q) (token : string) : option value :=
  match rsplit_dot token with
  | None => None
  | Some (b64, sig) =>
      let expected := hmac_sha256_hexdigest SECRET_KEY b64 in
      if negb (String.eqb sig expected) then None
      else
        match urlsafe_b64decode b64 with
        | None => None
        | Some raw =>
            match json_loads raw with
            | None => None
            | Some payload =>
                match py_get payload "exp" (VInt 0) with
                | Raise _ => None
                | Ok exp =>
                    match expired exp now with
                    | None => None
                    | Some true => None
                    | Some false => Some payload
                    end
                end
            end
        end
  end.

(** [get_session(request)], on the cookie [aic_session]. *)
Definition get_session (now : Q) (cookie : option string) : option value :=
  match cookie with
  | None => None
  | Some token =>
      if String.eqb token "" then None else _verify now token
  end.

(** A string with a dot in it; a hexadecimal digest has none. *)
Fixpoint has_dot (s : string) : bool :=
  match s with
  | EmptyString => false
  | String c s' => Ascii.eqb c "." || has_dot s'
  end.

(** The [exp] an unverified token carries: what [_verify] would read if
    the signature were accepted. *)
Definition embedded_exp (token : string) : option value :=
  match rsplit_dot token with
  | None => None
  | Some (b64, _) =>
      match urlsafe_b64decode b64 with
      | None => None
      | Some raw =>
          match json_loads raw with
          | Some (VDict d) => Some (get_default "exp" (VInt 0) d)
          | _ => None
          end
      end
  end.

End Session.

End Auth.

Import Auth.

(** ** Sample data *)

Module Samples.

(** A store holding a flight, a wizard session and the copy kept of an
    earlier submission. *)
Definition sample_fields : dict :=
  [ (KStr "code", VStr "AB12CD");
    (KStr "flight_number", VStr "AC8810");
    (KStr "dep_date", VStr "20092025");
    (KStr "dep_time", VStr "10:30");
    (KStr "gate", VDict [(KStr "dep", VStr "N/A"); (KStr "arr", VStr "N/A")]);
    (KStr "status", VStr "N/A") ].

Definition sample_flight : value := VDict sample_fields.

Definition sample_session : value :=
  VDict [ (KStr "flight_number", VStr "AC8815");
          (KStr "dep_city", VStr "Toronto");
          (KStr "dep_date", VStr "21092025");
          (KStr "terminal", VStr "1");
          (KStr "aircraft", VStr "B77W");
          (KStr "dep_time", VStr "18:15") ].

Definition sample_store : store :=
  [ ("AB12CD", sample_flight);
    ("123456789", sample_session);
    ("123456789_pending", sample_session) ].

(** The flights of two days and one without a date, out of time order. *)
Definition sample_flights : store :=
  [ ("AAAAA1", VDict [ (KStr "flight_number", VStr "AC1");
                       (KStr "dep_date", VStr "20092025");
                       (KStr "dep_time", VStr "18:15") ]);
    ("AAAAA2", VDict [ (KStr "flight_number", VStr "AC2");
                       (KStr "dep_date", VStr "21092025");
                       (KStr "dep_time", VStr "09:00") ]);
    ("AAAAA3", VDict [ (KStr "flight_number", VStr "AC3");
                       (KStr "dep_date", VStr "20092025");
                       (KStr "dep_time", VStr "10:30") ]);
    ("AAAAA4", VDict [ (KStr "flight_number", VStr "AC4") ]);
    ("AAAAA5", VDict [ (KStr "flight_number", VStr "AC5");
                       (KStr "dep_date", VStr "20092025") ]) ].

(** A PATCH body with two recognised fields and one the API does not
    know, and two bodies whose status is not an enumerated one. *)
Definition sample_patch : dict :=
  [ (KStr "status", VStr "Delayed");
    (KStr "gate_dep", VStr "A1");
    (KStr "colour", VStr "red") ].

Definition sample_bad_status : dict :=
  [ (KStr "status", VStr "Boarding"); (KStr "alerts", VStr "Fog") ].

Definition sample_list_status : dict :=
  [ (KStr "status", VList []); (KStr "alerts", VStr "Fog") ].

(** A store with a flight and a finished wizard session, a generator
    whose draws are 0, 1, 2, ... (the codes ABCDEF, GHIJKL, ...), and a
    store in which the first of these codes is taken. *)
Definition wizard_store : store :=
  [ ("AB12CD", sample_flight); ("123456789", sample_session) ].

Definition counting_rng : rng := fun n => n.

Definition crowded_store : store :=
  [ ("ABCDEF", sample_flight); ("123456789", sample_session) ].

(** A complete POST body. *)
Definition sample_post : dict :=
  [ (KStr "flight_number", VStr " AC8820 ");
    (KStr "dep_city", VStr "Toronto");
    (KStr "arr_city", VStr "Montreal");
    (KStr "dep_code", VStr "yyz");
    (KStr "arr_code", VStr "yul");
    (KStr "dep_airport", VStr "Toronto Pearson International Airport");
    (KStr "arr_airport", VStr "Trudeau International Airport");
    (KStr "dep_time", VStr "10:30");
    (KStr "arr_time", VStr "11:15");
    (KStr "dep_date", VStr "2025-09-20");
    (KStr "duration", VStr "0h 45m");
    (KStr "terminal", VStr "1");
    (KStr "aircraft", VStr "b77w") ].

(** A guild with both channels, where sending succeeds. *)
Definition sample_guild : guild :=
  mkguild true true false (Some "900") (Some "901").

(** Stand-ins for the library functions [auth.py] calls, to run [_sign]
    and [_verify] on an example: a keyed checksum written in decimal in
    place of HMAC-SHA256, the identity in place of base64, and a codec for
    payloads of the one field [exp] in place of [json]. *)
Fixpoint char_sum (s : string) : nat :=
  match s with
  | EmptyString => 0
  | String c s' => nat_of_ascii c + char_sum s'
  end.

Definition checksum_hex (key msg : string) : string :=
  str_of_int (Z.of_nat (char_sum key + 31 * char_sum msg)).

Definition exp_dumps (payload : value) : string :=
  match payload with
  | VDict [(KStr "exp", VInt z)] => "exp=" ++ str_of_int z
  | _ => "null"
  end.

Definition exp_loads (raw : string) : option value :=
  match raw with
  | String "e" (String "x" (String "p" (String "=" digits))) =>
      match NilZero.int_of_string digits with
      | Some i => Some (VDict [(KStr "exp", VInt (Z.of_int i))])
      | None => None
      end
  | _ => None
  end.

Definition plain_encode (raw : string) : string := raw.
Definition plain_decode (b64 : string) : option string := Some b64.

Definition sample_key : string := "change-me-please-use-a-long-random-string".

Definition sample_payload : value := VDict [(KStr "exp", VInt 1000)].

(** A session that passes [require_auth]. *)
Definition sample_auth : option value :=
  Some (VDict [ (KStr "user_id", VStr "42");
                (KStr "has_role", VBool true);
                (KStr "exp", VInt 2000000000) ]).

End Samples.

Import Samples.

(** ** The dashboard API: the other endpoints of [create_api] *)

Module Endpoints.

(** [del user_data[code]] *)
Definition store_del (code : string) (user_data : store) : store :=
  filter (fun ce => negb (String.eqb code (fst ce))) user_data.

(** [DELETE /api/flights/{code}]: the store it leaves and its answer.
    The guard is [code not in user_data or "flight_number" not in
    user_data.get(code, {})]; [user_data[code].get(...)] then needs a
    dict. *)
Definition delete_flight (session : option value) (user_data : store)
  (code : string) : store * result value :=
  match require_auth session with
  | Raise e => (user_data, Raise e)
  | Ok _ =>
  let code := upper code in
  match store_get code user_data with
  | None => (user_data, Raise (HTTPException 404))
  | Some entry =>
  match py_in "flight_number" entry with
  | Raise e => (user_data, Raise e)
  | Ok false => (user_data, Raise (HTTPException 404))
  | Ok true =>
  match py_get entry "flight_number" (VStr code) with
  | Raise e => (user_data, Raise e)
  | Ok _ =>
      (store_del code user_data, Ok (VDict [(KStr "deleted", VStr code)]))
  end end end end.

(** *** Statistics *)

(** The local dict [statuses]: a status to the number of flights. *)
Definition counts : Type := list (key * Z).

(** [statuses.get(k, 0)] *)
Definition count_get (k : key) (statuses : counts) : Z :=
  match assoc_get key_eqb k statuses with
  | Some n => n
  | None => 0%Z
  end.

(** One turn of [for entry in real.values()]:
    [s = entry.get("status", "N/A")], [statuses[s] = statuses.get(s, 0) + 1]. *)
Definition count_step (acc : result counts) (ce : string * value)
  : result counts :=
  statuses <- acc ;;
  s <- py_get (snd ce) "status" (VStr "N/A") ;;
  k <- hash_key s ;;
  Ok (assoc_set key_eqb k (count_get k statuses + 1)%Z statuses).

(** [GET /api/stats] *)
Definition get_stats (session : option value) (user_data : store)
  : result value :=
  _ <- require_auth session ;;
  let real := get_real_flights user_data in
  let total := Z.of_nat (List.length real) in
  statuses <- fold_left count_step real (Ok ([] : counts)) ;;
  let ended := count_get "Ended" statuses in
  let active_total := (total - ended)%Z in
  Ok (VDict [
    (KStr "total", VInt active_total);
    (KStr "ended", VInt ended);
    (KStr "accepted", VInt (count_get "On–Time" statuses));
    (KStr "denied", VInt (count_get "Cancelled" statuses));
    (KStr "pending",
     VInt (count_get "N/A" statuses + count_get "Rescheduled" statuses
           + count_get "Delayed" statuses)%Z);
    (KStr "statuses", VDict (map (fun kn => (fst kn, VInt (snd kn))) statuses))
  ]).

(** The status a flight is counted under. *)
Definition counted_status (entry : value) : result key :=
  s <- py_get entry "status" (VStr "N/A") ;; hash_key s.

(** The number of flights of a list counted under the status [k]. *)
Fixpoint tally (k : key) (l : store) : Z :=
  match l with
  | [] => 0%Z
  | ce :: l' =>
      ((match counted_status (snd ce) with
        | Ok k' => if key_eqb k k' then 1 else 0
        | Raise _ => 0
        end) + tally k l')%Z
  end.

(** *** Announcements *)

(** A guild with its announcement channel: whether the channel exists
    and the id of a message sent to it ([None] when sending raises). *)
Record announce_guild : Type := mkannounce {
  day_board : guild;
  announce_channel : bool;
  announce_send : option string
}.

(** The texts the endpoints post to the announcement channel, by the
    values their f-strings are filled with. *)
Inductive message : Type :=
| Reminder (flight_number : value) (timestamp_text : string)
    (event_link : value)
| CheckIn (flight_number arr_city : value) (spawn_location : string)
    (server_link : string)
| Announcement (text : string).

(** [(body.get(name) or "").strip()] *)
Definition text_field (body : value) (name : string) : result string :=
  v <- py_get body name VNone ;;
  match py_or v (VStr "") with
  | VStr s => Ok (strip s)
  | _ => Raise AttributeError
  end.

(** [for g in bot.guilds: try: (send if the channel exists) except: ...;
    break]: the messages that reached the channel. *)
Definition post_first (guilds : list announce_guild) (msg : message)
  : list message :=
  match guilds with
  | [] => []
  | g :: _ =>
      if announce_channel g then
        match announce_send g with
        | Some _ => [msg]
        | None => []
        end
      else []
  end.

(** [POST /api/flights/{code}/remind]: the messages posted and the answer. *)
Definition send_reminder_api (guilds : list announce_guild)
  (session : option value) (user_data : store) (code : string) (body : value)
  : list message * result value :=
  match require_auth session with
  | Raise e => ([], Raise e)
  | Ok _ =>
  let code := upper code in
  match lookup_flight user_data code with
  | Raise e => ([], Raise e)
  | Ok entry =>
  match text_field body "timestamp" with
  | Raise e => ([], Raise e)
  | Ok timestamp_text =>
  if String.eqb timestamp_text "" then ([], Raise (HTTPException 422)) else
  match py_get entry "flight_number" (VStr "Unknown") with
  | Raise e => ([], Raise e)
  | Ok flight_number =>
  match get_nested entry "event" "link" with
  | Raise e => ([], Raise e)
  | Ok event_link =>
      (post_first guilds (Reminder flight_number timestamp_text event_link),
       Ok (VDict [ (KStr "sent", VBool true);
                   (KStr "code", VStr code);
                   (KStr "timestamp", VStr timestamp_text) ]))
  end end end end end.

(** The loop of [post_announcement]: guilds without the channel are
    skipped, the first guild that has it gets the message and ends the
    loop; an exception of [ch.send] leaves the handler. *)
Fixpoint announce_loop (guilds : list announce_guild) (text : string)
  : list message * result bool :=
  match guilds with
  | [] => ([], Ok false)
  | g :: rest =>
      if announce_channel g then
        match announce_send g with
        | Some _ => ([Announcement text], Ok true)
        | None => ([], Raise DiscordException)
        end
      else announce_loop rest text
  end.

(** [POST /api/announce] *)
Definition post_announcement (guilds : list announce_guild)
  (session : option value) (body : value) : list message * result value :=
  match require_auth session with
  | Raise e => ([], Raise e)
  | Ok _ =>
  match text_field body "message" with
  | Raise e => ([], Raise e)
  | Ok message =>
  if String.eqb message "" then ([], Raise (HTTPException 422)) else
  match announce_loop guilds message with
  | (sent, Raise e) => (sent, Raise e)
  | (sent, Ok false) => (sent, Raise (HTTPException 503))
  | (sent, Ok true) => (sent, Ok (VDict [(KStr "sent", VBool true)]))
  end end end.

(** *** Starting, closing and refreshing a flight *)

(** [entry["server"]["link"] = link]: KeyError without a ["server"]
    key, TypeError when the entry or its ["server"] is not a dict. *)
Definition set_server_link (entry : value) (link : string) : result dict :=
  server <- py_index entry "server" ;;
  match entry, server with
  | VDict d, VDict sub =>
      Ok (dict_set "server" (VDict (dict_set "link" (VStr link) sub)) d)
  | _, _ => Raise TypeError
  end.

(** [for g in bot.guilds: try: update_embeds_for_code(...);
    post_or_update_day_schedule(g, dep_date) except: ...]: every guild
    is visited, an exception is printed and dropped. *)
Fixpoint refresh_all (guilds : list announce_guild) (dep_date : value)
  (user_data : store) : store :=
  match guilds with
  | [] => user_data
  | g :: rest =>
      refresh_all rest dep_date
        (fst (post_or_update_day_schedule (day_board g) dep_date user_data))
  end.

(** The second loop of [start_flight_api]: the first guild only; when
    its channel takes the message, the id is written into the entry. *)
Definition announce_start (guilds : list announce_guild) (code : string)
  (entry : dict) (spawn_location server_link : string) (user_data : store)
  : store * list message :=
  match guilds with
  | [] => (user_data, [])
  | g :: _ =>
      if announce_channel g then
        match announce_send g with
        | Some msg_id =>
            (store_set code
               (VDict (dict_set "announce_message_id" (VStr msg_id) entry))
               user_data,
             [ CheckIn (get_default "flight_number" (VStr "Unknown") entry)
                       (get_default "arr_city" (VStr "Unknown") entry)
                       (if String.eqb spawn_location "" then "the airport"
                        else spawn_location)
                       server_link ])
        | None => (user_data, [])
        end
      else (user_data, [])
  end.

(** [POST /api/flights/{code}/start]: the store it leaves, the messages
    posted and the answer. *)
Definition start_flight_api (guilds : list announce_guild)
  (session : option value) (user_data : store) (code : string) (body : value)
  : store * list message * result value :=
  match require_auth session with
  | Raise e => (user_data, [], Raise e)
  | Ok _ =>
  let code := upper code in
  match lookup_flight user_data code with
  | Raise e => (user_data, [], Raise e)
  | Ok entry =>
  match text_field body "server_link" with
  | Raise e => (user_data, [], Raise e)
  | Ok server_link =>
  match text_field body "spawn_location" with
  | Raise e => (user_data, [], Raise e)
  | Ok spawn_location =>
  if String.eqb server_link "" then (user_data, [], Raise (HTTPException 422))
  else
  match set_server_link entry server_link with
  | Raise e => (user_data, [], Raise e)
  | Ok entry1 =>
      let user_data1 := store_set code (VDict entry1) user_data in
      let user_data2 :=
        refresh_all guilds (get_default "dep_date" (VStr "") entry1)
                    user_data1 in
      let (user_data3, sent) :=
        announce_start guilds code entry1 spawn_location server_link
                       user_data2 in
      (user_data3, sent,
       Ok (VDict [ (KStr "started", VBool true);
                   (KStr "code", VStr code);
                   (KStr "server_link", VStr server_link) ]))
  end end end end end.

Definition GATE_CLOSED : string :=
  "<:AIC_Locked:1409728733589405777> Gate Closed".

(** [for g in bot.guilds: try: ...; post_or_update_day_schedule(g,
    dep_date); ...; break except: ...] of [close_flight_api]: the first
    guild whose board refresh does not raise ends the loop (editing the
    announce message has a [try] of its own). *)
Fixpoint refresh_until_ok (guilds : list announce_guild) (dep_date : value)
  (user_data : store) : store :=
  match guilds with
  | [] => user_data
  | g :: rest =>
      match post_or_update_day_schedule (day_board g) dep_date user_data with
      | (user_data', Ok _) => user_data'
      | (user_data', Raise _) => refresh_until_ok rest dep_date user_data'
      end
  end.

(** [POST /api/flights/{code}/close] *)
Definition close_flight_api (guilds : list announce_guild)
  (session : option value) (user_data : store) (code : string)
  : store * result value :=
  match require_auth session with
  | Raise e => (user_data, Raise e)
  | Ok _ =>
  let code := upper code in
  match lookup_flight user_data code with
  | Raise e => (user_data, Raise e)
  | Ok entry =>
  match set_server_link entry GATE_CLOSED with
  | Raise e => (user_data, Raise e)
  | Ok entry1 =>
      let user_data1 := store_set code (VDict entry1) user_data in
      (refresh_until_ok guilds (get_default "dep_date" (VStr "") entry1)
                        user_data1,
       Ok (VDict [(KStr "closed", VStr code)]))
  end end end.

(** [POST /api/flights/{code}/refresh]: its loop is the one of
    [update_flight]. *)
Definition refresh_embed (guilds : list guild) (session : option value)
  (user_data : store) (code : string) : store * result value :=
  match require_auth session with
  | Raise e => (user_data, Raise e)
  | Ok _ =>
  let code := upper code in
  match lookup_flight user_data code with
  | Raise e => (user_data, Raise e)
  | Ok entry =>
      (refresh_after_update guilds entry user_data,
       Ok (VDict [(KStr "refreshed", VStr code)]))
  end end.

(** *** The pages *)

Inductive page : Type :=
| RedirectResponse (url : string)
| FileResponse (name : string).

(** [GET /] and [GET /dashboard.html]:
    [if not session or not session.get("has_role"): redirect]. *)
Definition serve_root (session : option value) : result page :=
  match session with
  | None => Ok (RedirectResponse "/login.html")
  | Some s =>
      if negb (truthy s) then Ok (RedirectResponse "/login.html")
      else
        has_role <- py_get s "has_role" VNone ;;
        if negb (truthy has_role) then Ok (RedirectResponse "/login.html")
        else Ok (FileResponse "dashboard.html")
  end.

Definition serve_dashboard (session : option value) : result page :=
  serve_root session.

(** [GET /login.html]: [if session and session.get("has_role"): redirect]. *)
Definition serve_login (session : option value) : result page :=
  match session with
  | None => Ok (FileResponse "login.html")
  | Some s =>
      if truthy s then
        has_role <- py_get s "has_role" VNone ;;
        if truthy has_role then Ok (RedirectResponse "/")
        else Ok (FileResponse "login.html")
      else Ok (FileResponse "login.html")
  end.

(** *** The log reader: finding the JSON objects of the log file *)

Definition dquote : ascii := ascii_of_nat 34.
Definition backslash : ascii := ascii_of_nat 92.
Definition lbrace : ascii := ascii_of_nat 123.
Definition rbrace : ascii := ascii_of_nat 125.

(** The loop [for i in range(start, len(s))] of [_extract_json_at], on
    the characters from index [i] on: the index after the brace that
    brings [depth] back to 0, if there is one. *)
Fixpoint scan_object (rest : string) (i : nat) (depth : Z)
  (in_str esc : bool) : option nat :=
  match rest with
  | EmptyString => None
  | String c rest' =>
      if esc then scan_object rest' (S i) depth in_str false
      else if Ascii.eqb c backslash && in_str
      then scan_object rest' (S i) depth in_str true
      else
        let in_str := if Ascii.eqb c dquote then negb in_str else in_str in
        if negb in_str then
          if Ascii.eqb c lbrace
          then scan_object rest' (S i) (depth + 1)%Z in_str false
          else if Ascii.eqb c rbrace then
            let depth := (depth - 1)%Z in
            if (depth =? 0)%Z then Some (S i)
            else scan_object rest' (S i) depth in_str false
          else scan_object rest' (S i) depth in_str false
        else scan_object rest' (S i) depth in_str false
  end.

(** [s[a:b]] for [0 <= a] and [0 <= b]. *)
Definition slice (s : string) (a b : nat) : string := substring a (b - a) s.

(** [_extract_json_at(s, start)] *)
Definition _extract_json_at (s : string) (start : nat) : option string * nat :=
  match scan_object (slice s start (String.length s)) start 0%Z false false with
  | Some stop => (Some (slice s start stop), stop)
  | None => (None, start)
  end.

(** The pieces pass 1 of [get_logs] cuts the log file into. *)
Inductive segment : Type :=
| RawSegment (text : string)
| JsonSegment (obj : value).

(** [segments.append(("raw", text))] when [text] is not empty. *)
Definition add_raw (segments : list segment) (text : string) : list segment :=
  if String.eqb text "" then segments else segments ++ [RawSegment text].

(** The [while pos < len(content)] loop of pass 1, for a [json.loads]
    that answers [None] where the library raises.  [fuel] bounds the
    number of turns; [None] means the loop is still running when the
    bound is reached. *)
Fixpoint scan_segments (json_loads : string -> option value) (fuel : nat)
  (content : string) (pos : nat) (segments : list segment)
  : option (list segment) :=
  match fuel with
  | 0 => None
  | S fuel' =>
      if negb (pos <? String.length content) then Some segments
      else
        match String.index 0 "{" (slice content pos (String.length content)) with
        | None =>
            Some (add_raw segments
                    (strip (slice content pos (String.length content))))
        | Some m_start =>
            let segments :=
              add_raw segments (strip (slice content pos (pos + m_start))) in
            let obj_start := pos + m_start in
            match _extract_json_at content obj_start with
            | (Some obj_str, stop) =>
                if String.eqb obj_str ""
                then scan_segments json_loads fuel' content (obj_start + 1)
                                   segments
                else
                  let segments :=
                    match json_loads obj_str with
                    | Some obj => segments ++ [JsonSegment obj]
                    | None => segments ++ [RawSegment obj_str]
                    end in
                  scan_segments json_loads fuel' content stop segments
            | (None, _) =>
                scan_segments json_loads fuel' content (obj_start + 1) segments
            end
        end
  end.

(** The text between the braces of a JSON object, as the scan reads
    it: characters that are neither braces nor quotes, string literals
    (whatever they hold, a backslash taking the next character with
    it), and nested objects. *)
Inductive literal_body : string -> Prop :=
| literal_end : literal_body EmptyString
| literal_char (c : ascii) (s : string) :
    Ascii.eqb c dquote = false -> Ascii.eqb c backslash = false ->
    literal_body s -> literal_body (String c s)
| literal_escape (c : ascii) (s : string) :
    literal_body s -> literal_body (String backslash (String c s)).

Inductive object_body : string -> Prop :=
| body_end : object_body EmptyString
| body_char (c : ascii) (s : string) :
    Ascii.eqb c dquote = false -> Ascii.eqb c lbrace = false ->
    Ascii.eqb c rbrace = false ->
    object_body s -> object_body (String c s)
| body_literal (lit s : string) :
    literal_body lit -> object_body s ->
    object_body (String dquote (lit ++ String dquote s))
| body_object (b s : string) :
    object_body b -> object_body s ->
    object_body (String lbrace (b ++ String rbrace s)).

End Endpoints.

Import Endpoints.

(** ** Session cookies ([auth.py]) *)

Module Cookie.

Definition SESSION_TTL : Z := (60 * 60 * 24)%Z.

(** [int(t)] for a clock reading: the fraction is cut off, towards 0. *)
Definition int_of_time (t : Q) : Z :=
  if Qle_bool 0 t then Qfloor t else Qceiling t.

Section Issue.

Variable SECRET_KEY : string.
Variable hmac_sha256_hexdigest : string -> string -> string.
Variable json_dumps : value -> string.
Variable urlsafe_b64encode : string -> string.

(** [set_session_cookie(response, payload)] at clock reading [now]: the
    payload as it is left (it is stamped in place) and the value of the
    cookie [aic_session]. *)
Definition set_session_cookie (now : Q) (payload : dict) : dict * string :=
  let payload := dict_set "exp" (VInt (int_of_time now + SESSION_TTL)) payload in
  (payload,
   _sign SECRET_KEY hmac_sha256_hexdigest json_dumps urlsafe_b64encode
         (VDict payload)).

End Issue.

End Cookie.

Import Cookie.

(** ** The submission wizard: the three forms *)

Module Forms.

(** What a form answers: the summary with its Yes/No view, or the
    notice that an earlier step is missing. *)
Inductive form_reply : Type :=
| Summary
| MissingStep.

(** [FlightDetailsModal1.on_submit]: the session of the user is replaced
    by the five fields of the form. *)
Definition modal1_on_submit (uid : Z)
  (flight_number dep_city dep_date terminal aircraft : string)
  (user_data : store) : store :=
  store_set (str_of_int uid)
    (VDict [ (KStr "flight_number", VStr (strip flight_number));
             (KStr "dep_city", VStr (strip dep_city));
             (KStr "dep_date", VStr (strip dep_date));
             (KStr "terminal", VStr (strip terminal));
             (KStr "aircraft", VStr (strip aircraft)) ])
    user_data.

(** [user_data[session_key].update(fields)] behind the guard
    [if session_key not in user_data]; only a dict has [update]. *)
Definition update_session (uid : Z) (fields : dict) (user_data : store)
  : result (store * form_reply) :=
  let session_key := str_of_int uid in
  match store_get session_key user_data with
  | None => Ok (user_data, MissingStep)
  | Some (VDict d) =>
      Ok (store_set session_key (VDict (dict_update d fields)) user_data,
          Summary)
  | Some _ => Raise AttributeError
  end.

(** [FlightDetailsModal2.on_submit] *)
Definition modal2_on_submit (uid : Z)
  (arr_city dep_airport duration dep_time : string) (user_data : store)
  : result (store * form_reply) :=
  update_session uid
    [ (KStr "arr_city", VStr (strip arr_city));
      (KStr "dep_airport", VStr (strip dep_airport));
      (KStr "duration", VStr (strip duration));
      (KStr "dep_time", VStr (strip dep_time)) ]
    user_data.

(** [FlightDetailsModal3.on_submit] *)
Definition modal3_on_submit (uid : Z)
  (dep_code arr_code arr_airport arr_time : string) (user_data : store)
  : result (store * form_reply) :=
  update_session uid
    [ (KStr "dep_code", VStr (strip dep_code));
      (KStr "arr_code", VStr (strip arr_code));
      (KStr "arr_airport", VStr (strip arr_airport));
      (KStr "arr_time", VStr (strip arr_time)) ]
    user_data.

(** The thirteen answers of a submitter. *)
Record answers : Type := mkanswers {
  a_flight_number : string; a_dep_city : string; a_dep_date : string;
  a_terminal : string; a_aircraft : string;
  a_arr_city : string; a_dep_airport : string; a_duration : string;
  a_dep_time : string;
  a_dep_code : string; a_arr_code : string; a_arr_airport : string;
  a_arr_time : string
}.

(** The three forms one after the other, each confirmed with Yes. *)
Definition three_steps (uid : Z) (a : answers) (user_data : store)
  : result (store * form_reply) :=
  let user_data1 :=
    modal1_on_submit uid (a_flight_number a) (a_dep_city a) (a_dep_date a)
                     (a_terminal a) (a_aircraft a) user_data in
  r2 <- modal2_on_submit uid (a_arr_city a) (a_dep_airport a) (a_duration a)
                         (a_dep_time a) user_data1 ;;
  modal3_on_submit uid (a_dep_code a) (a_arr_code a) (a_arr_airport a)
                   (a_arr_time a) (fst r2).

(** The session the three forms leave, field by field. *)
Definition session_of (a : answers) : dict :=
  [ (KStr "flight_number", VStr (strip (a_flight_number a)));
    (KStr "dep_city", VStr (strip (a_dep_city a)));
    (KStr "dep_date", VStr (strip (a_dep_date a)));
    (KStr "terminal", VStr (strip (a_terminal a)));
    (KStr "aircraft", VStr (strip (a_aircraft a)));
    (KStr "arr_city", VStr (strip (a_arr_city a)));
    (KStr "dep_airport", VStr (strip (a_dep_airport a)));
    (KStr "duration", VStr (strip (a_duration a)));
    (KStr "dep_time", VStr (strip (a_dep_time a)));
    (KStr "dep_code", VStr (strip (a_dep_code a)));
    (KStr "arr_code", VStr (strip (a_arr_code a)));
    (KStr "arr_airport", VStr (strip (a_arr_airport a)));
    (KStr "arr_time", VStr (strip (a_arr_time a))) ].

End Forms.

Import Forms.

(** ** The admin panel: buttons, forms and message fetching *)

Module Panel.

(** [cid.split(":", 1)] unpacked into two names, behind the guard
    [":" in cid]: the text before and after the first colon. *)
Fixpoint split_colon (cid : string) : option (string * string) :=
  match cid with
  | EmptyString => None
  | String c rest =>
      if Ascii.eqb c ":" then Some (EmptyString, rest)
      else match split_colon rest with
           | Some (a, b) => Some (String c a, b)
           | None => None
           end
  end.

(** The branches of [on_interaction]. *)
Inductive component_action : Type :=
| Detail
| SetGates
| SetAlerts
| SendReminder
| NotStarted
| StartFlight
| CloseFlight.

Definition action_of (action : string) : option component_action :=
  if String.eqb action "detail" then Some Detail
  else if String.eqb action "set_gates" then Some SetGates
  else if String.eqb action "set_alerts" then Some SetAlerts
  else if String.eqb action "send_reminder" then Some SendReminder
  else if String.eqb action "not_started" then Some NotStarted
  else if String.eqb action "start_flight" then Some StartFlight
  else if String.eqb action "close_flight" then Some CloseFlight
  else None.

(** The head of [on_interaction], for an interaction with a component
    whose [custom_id] is [cid]: the branch the id leads to and the
    flight code handed to it ([code.upper()]); [None] when the handler
    returns without doing anything. *)
Definition on_interaction_route (cid : string)
  : option (component_action * string) :=
  match split_colon cid with
  | None => None
  | Some (action, code) =>
      match action_of action with
      | Some a => Some (a, upper code)
      | None => None
      end
  end.

(** The [custom_id]s of the six buttons of [make_admin_view(code)], in
    the order they are added. *)
Definition admin_button_ids (code : string) : list string :=
  map (fun action => String.append action (String ":" code))
      [ "set_gates"; "set_alerts"; "send_reminder";
        "not_started"; "start_flight"; "close_flight" ].

(** [fetch_message_with_retries(channel, message_id, attempts, delay)]:
    [fetch i] is what try number [i] gives ([None] when
    [channel.fetch_message] raises).  The result comes with the pauses
    slept, in order. *)
Fixpoint fetch_loop {A : Type} (fetch : nat -> option A) (delay : Q)
  (i n : nat) : option A * list Q :=
  match n with
  | 0 => (None, [])
  | S n' =>
      match fetch i with
      | Some msg => (Some msg, [])
      | None =>
          let (r, slept) := fetch_loop fetch delay (S i) n' in
          (r, (delay * inject_Z (Z.of_nat i + 1))%Q :: slept)
      end
  end.

Definition fetch_message_with_retries {A : Type} (fetch : nat -> option A)
  (attempts : Z) (delay : Q) : option A * list Q :=
  fetch_loop fetch delay 0 (Z.to_nat attempts).

(** The sum of the pauses. *)
Definition total_sleep (slept : list Q) : Q :=
  fold_right Qplus 0%Q slept.

(** [text.strip() or "N/A"] *)
Definition or_na (text : string) : string :=
  if String.eqb (strip text) "" then "N/A" else strip text.

(** [entry["gate"]["dep"] = dep] followed by [entry["gate"]["arr"] = arr]:
    KeyError without a ["gate"] key, TypeError when the entry or its
    ["gate"] is not a dict. *)
Definition set_gate_fields (entry : value) (dep arr : string) : result dict :=
  gate <- py_index entry "gate" ;;
  match entry, gate with
  | VDict d, VDict sub =>
      Ok (dict_set "gate"
            (VDict (dict_set "arr" (VStr arr) (dict_set "dep" (VStr dep) sub)))
            d)
  | _, _ => Raise TypeError
  end.

(** The [try] block after a form has written its fields:
    [if dep_date and interaction.guild: post_or_update_day_schedule(...)];
    an exception is reported and dropped. *)
Definition refresh_board (g : option guild) (dep_date : value)
  (user_data : store) : store :=
  match g with
  | Some g =>
      if truthy dep_date
      then fst (post_or_update_day_schedule g dep_date user_data)
      else user_data
  | None => user_data
  end.

(** [SetGatesModal(code).on_submit]: [None] for the notice that the
    code was not found, the store left otherwise. *)
Definition set_gates_on_submit (g : option guild) (code : string)
  (dep_gate arr_gate : string) (user_data : store)
  : result (option store) :=
  match store_get code user_data with
  | None => Ok None
  | Some entry =>
      if negb (truthy entry) then Ok None
      else
        entry1 <- set_gate_fields entry (or_na dep_gate) (or_na arr_gate) ;;
        let user_data1 := store_set code (VDict entry1) user_data in
        Ok (Some (refresh_board g (get_default "dep_date" VNone entry1)
                                user_data1))
  end.

End Panel.

Import Panel.

(** ** The shape of the store *)

Module Shape.

(** A record [serialize_entry] can read: a dict whose [gate], [server]
    and [event], where present, are dicts. *)
Definition shaped (entry : value) : bool :=
  match entry with
  | VDict d => subdicts_ok d
  | _ => false
  end.

(** A store all of whose values, the message ids under ["_day_msgs"]
    apart, are such records. *)
Definition well_formed (user_data : store) : bool :=
  forallb (fun ce => String.eqb (fst ce) "_day_msgs" || shaped (snd ce))
          user_data.

(** An answer that is not a server error: 200, or an HTTPException the
    handler raised itself. *)
Definition no_server_error (r : result value) : bool :=
  match r with
  | Ok _ | Raise (HTTPException _) => true
  | Raise _ => false
  end.

End Shape.

Import Shape.

(** ** More sample data *)

Module MoreSamples.

(** A complete record, as [POST /api/flights] writes it. *)
Definition full_fields : dict :=
  [ (KStr "code", VStr "QR57ST");
    (KStr "flight_number", VStr "AC8820");
    (KStr "dep_date", VStr "20092025");
    (KStr "dep_time", VStr "10:30");
    (KStr "aircraft", VStr "B77W");
    (KStr "gate", VDict [(KStr "dep", VStr "N/A"); (KStr "arr", VStr "N/A")]);
    (KStr "status", VStr "Delayed");
    (KStr "server", VDict [(KStr "link", VStr "N/A")]);
    (KStr "event", VDict [(KStr "link", VStr "N/A")]) ].

Definition ended_fields : dict :=
  [ (KStr "flight_number", VStr "AC8830");
    (KStr "dep_date", VStr "21092025");
    (KStr "status", VStr "Ended") ].

(** Two flights, one of them ended, beside a wizard session. *)
Definition busy_store : store :=
  [ ("QR57ST", VDict full_fields);
    ("UV68WX", VDict ended_fields);
    ("123456789", sample_session) ].

(** A store whose one flight is kept under a key in lowercase. *)
Definition lowercase_store : store := [("ab12cd", sample_flight)].

(** A guild whose announcement channel takes messages, and one without
    the channel. *)
Definition loud_guild : announce_guild :=
  mkannounce sample_guild true (Some "902").


(** A line of the log: a note, an object with a nested object and a
    string that holds a brace, and a tail. *)
Definition log_object : string :=
  String lbrace
    ("a:" ++ String lbrace ("b:1" ++ String rbrace
       (",c:" ++ String dquote ("x}y" ++ String dquote
          (String rbrace EmptyString))))).

Definition log_line : string := "saved " ++ log_object ++ " ok".

(** A fetch that fails twice and then succeeds. *)
Definition third_time (i : nat) : option string :=
  if i =? 2 then Some "message" else None.

Definition sample_answers : answers :=
  mkanswers " AC8840 " "Toronto" "22092025" "1" "A333"
            "Calgary" "Toronto Pearson" "4h 10m" "08:00"
            "YYZ" "YYC" "Calgary International" "12:10".

End MoreSamples.

Import MoreSamples.

(** * Properties *)

(** ** Association lists *)

Section AssocFacts.

Context {K V : Type} (eqb : K -> K -> bool).
Hypothesis eqb_refl : forall k, eqb k k = true.
Hypothesis eqb_sym : forall a b, eqb a b = eqb b a.
Hypothesis eqb_trans :
  forall a b c, eqb a b = true -> eqb b c = true -> eqb a c = true.

Lemma eqb_congr_r (k a b : K) : eqb a b = true -> eqb k a = eqb k b.
Proof using eqb_sym eqb_trans.
  intros Hab.
  destruct (eqb k a) eqn:Ha, (eqb k b) eqn:Hb; try reflexivity.
  - rewrite (eqb_trans _ _ _ Ha Hab) in Hb. discriminate.
  - rewrite eqb_sym in Hab.
    rewrite (eqb_trans _ _ _ Hb Hab) in Ha. discriminate.
Qed.

Lemma assoc_get_set (k k' : K) (v : V) (d : list (K * V)) :
  assoc_get eqb k (assoc_set eqb k' v d)
  = if eqb k k' then Some v else assoc_get eqb k d.
Proof using eqb_sym eqb_trans.
  induction d as [|[k2 v2] d IH]; simpl.
  - destruct (eqb k k'); reflexivity.
  - destruct (eqb k' k2) eqn:E; simpl.
    + rewrite <- (eqb_congr_r k _ _ E).
      destruct (eqb k k'); reflexivity.
    + rewrite IH.
      destruct (eqb k k2) eqn:E2; [|reflexivity].
      destruct (eqb k k') eqn:E1; [|reflexivity].
      rewrite eqb_sym in E1.
      rewrite (eqb_trans _ _ _ E1 E2) in E. discriminate.
Qed.

Lemma assoc_get_set_same (k : K) (v : V) (d : list (K * V)) :
  assoc_get eqb k (assoc_set eqb k v d) = Some v.
Proof using eqb_refl eqb_sym eqb_trans.
  rewrite assoc_get_set, eqb_refl. reflexivity.
Qed.

Lemma assoc_get_set_other (k k' : K) (v : V) (d : list (K * V)) :
  eqb k k' = false ->
  assoc_get eqb k (assoc_set eqb k' v d) = assoc_get eqb k d.
Proof using eqb_sym eqb_trans.
  intros E. rewrite assoc_get_set, E. reflexivity.
Qed.

(** Writing a key that is absent appends the binding. *)
Lemma assoc_set_fresh (k : K) (v : V) (d : list (K * V)) :
  assoc_get eqb k d = None -> assoc_set eqb k v d = d ++ [(k, v)].
Proof using Type.
  induction d as [|[k2 v2] d IH]; simpl; intros H.
  - reflexivity.
  - destruct (eqb k k2); [discriminate|].
    rewrite (IH H). reflexivity.
Qed.

(** Writing a key never changes the keys already there. *)
Lemma assoc_set_keys_incl (k : K) (v : V) (d : list (K * V)) :
  forall x, In x (map fst d) -> In x (map fst (assoc_set eqb k v d)).
Proof using Type.
  induction d as [|[k2 v2] d IH]; simpl; intros x Hx.
  - contradiction.
  - destruct (eqb k k2); simpl; destruct Hx as [Hx|Hx]; auto.
Qed.

End AssocFacts.

Lemma string_eqb_trans (a b c : string) :
  String.eqb a b = true -> String.eqb b c = true -> String.eqb a c = true.
Proof.
  rewrite !String.eqb_eq. congruence.
Qed.

Lemma key_eqb_refl (k : key) : key_eqb k k = true.
Proof.
  destruct k; simpl; auto using String.eqb_refl, Z.eqb_refl, Bool.eqb_reflx.
Qed.

Lemma key_eqb_sym (a b : key) : key_eqb a b = key_eqb b a.
Proof.
  destruct a, b; simpl;
    auto using String.eqb_sym, Z.eqb_sym.
  destruct b, b0; reflexivity.
Qed.

Lemma key_eqb_trans (a b c : key) :
  key_eqb a b = true -> key_eqb b c = true -> key_eqb a c = true.
Proof.
  destruct a, b, c; simpl; try discriminate; try reflexivity;
    rewrite ?Z.eqb_eq, ?String.eqb_eq, ?Bool.eqb_true_iff;
    intros; subst; try reflexivity; try congruence.
  all: destruct b, b0; simpl in *; congruence.
Qed.

Lemma store_get_set (k k' : string) (v : value) (s : store) :
  store_get k (store_set k' v s)
  = if String.eqb k k' then Some v else store_get k s.
Proof.
  unfold store_get, store_set.
  apply (assoc_get_set String.eqb String.eqb_sym string_eqb_trans).
Qed.

Lemma store_get_set_same (k : string) (v : value) (s : store) :
  store_get k (store_set k v s) = Some v.
Proof.
  rewrite store_get_set, String.eqb_refl. reflexivity.
Qed.

Lemma store_get_set_other (k k' : string) (v : value) (s : store) :
  k <> k' -> store_get k (store_set k' v s) = store_get k s.
Proof.
  intros H. rewrite store_get_set.
  apply String.eqb_neq in H. rewrite H. reflexivity.
Qed.

Lemma dict_get_set (k k' : key) (v : value) (d : dict) :
  dict_get k (dict_set k' v d)
  = if key_eqb k k' then Some v else dict_get k d.
Proof.
  unfold dict_get, dict_set.
  apply (assoc_get_set key_eqb key_eqb_sym key_eqb_trans).
Qed.

Lemma dict_get_set_same (k : key) (v : value) (d : dict) :
  dict_get k (dict_set k v d) = Some v.
Proof.
  rewrite dict_get_set, key_eqb_refl. reflexivity.
Qed.

(** ** Real flights *)

Lemma endswith_length (s suffix : string) :
  endswith s suffix = true -> String.length suffix <= String.length s.
Proof.
  unfold endswith. intros H.
  apply andb_true_iff in H. destruct H as [H _].
  apply Nat.leb_le in H. exact H.
Qed.

Lemma is_real_iff (code : string) (entry : value) :
  is_real code entry = true <->
  (exists d, entry = VDict d /\ dict_mem "flight_number" d = true)
  /\ String.length code = 6
  /\ endswith code "_pending" = false.
Proof.
  unfold is_real. rewrite !andb_true_iff, negb_true_iff, Nat.eqb_eq.
  split.
  - intros [[[Hd Hf] Hp] Hl]. repeat split; auto.
    destruct entry; simpl in Hd, Hf; try discriminate. eauto.
  - intros [[d [-> Hf]] [Hl Hp]]. simpl. auto.
Qed.

(** C3: a key/entry pair of the store is among the real flights exactly
    when the entry is a dict with a [flight_number] field, the key has
    length 6 and the key does not end in [_pending]; so a [_pending] key
    and a key of any other length (a wizard session keyed by a user id)
    are left out, and a 6-character code with a flight number is kept. *)
Theorem get_real_flights_iff (user_data : store) (code : string)
  (entry : value) :
  In (code, entry) user_data ->
  (In (code, entry) (get_real_flights user_data) <->
     (exists d, entry = VDict d /\ dict_mem "flight_number" d = true)
     /\ String.length code = 6
     /\ endswith code "_pending" = false)
  /\ (endswith code "_pending" = true ->
      ~ In (code, entry) (get_real_flights user_data))
  /\ (String.length code <> 6 ->
      ~ In (code, entry) (get_real_flights user_data))
  /\ (String.length code = 6 ->
      (exists d, entry = VDict d /\ dict_mem "flight_number" d = true) ->
      In (code, entry) (get_real_flights user_data)).
Proof.
  intros Hin.
  assert (Hiff : In (code, entry) (get_real_flights user_data) <->
                 is_real code entry = true).
  { unfold get_real_flights. rewrite filter_In. simpl. tauto. }
  split; [|split; [|split]].
  - rewrite Hiff. apply is_real_iff.
  - intros Hp H. apply Hiff, is_real_iff in H.
    destruct H as [_ [_ H]]. congruence.
  - intros Hl H. apply Hiff, is_real_iff in H.
    destruct H as [_ [H _]]. contradiction.
  - intros Hl Hf. apply Hiff, is_real_iff. repeat split; auto.
    destruct (endswith code "_pending") eqn:E; [|reflexivity].
    apply endswith_length in E. simpl in E. lia.
Qed.

Lemma get_real_flights_iff_witness :
  In ("AB12CD", sample_flight) (get_real_flights sample_store)
  /\ ~ In ("123456789_pending", sample_session) (get_real_flights sample_store)
  /\ ~ In ("123456789", sample_session) (get_real_flights sample_store).
Proof.
  split; [|split].
  - destruct (get_real_flights_iff sample_store "AB12CD" sample_flight)
      as (_ & _ & _ & H).
    + simpl. auto.
    + apply H; [reflexivity|].
      eexists. split; reflexivity.
  - destruct (get_real_flights_iff sample_store "123456789_pending"
                                   sample_session) as (_ & H & _).
    + simpl. auto.
    + apply H. reflexivity.
  - destruct (get_real_flights_iff sample_store "123456789" sample_session)
      as (_ & _ & H & _).
    + simpl. auto.
    + apply H. simpl. lia.
Defined.

(** ** Day groups *)

Lemma key_eqb_str (s : string) (k : key) :
  key_eqb (KStr s) k = true -> k = KStr s.
Proof.
  destruct k; simpl; try discriminate.
  rewrite String.eqb_eq. congruence.
Qed.

Lemma timetabled_date_key (item : string * value) :
  timetabled (snd item) = true -> exists s, date_key item = Ok (KStr s).
Proof.
  unfold timetabled, date_key, str_or_absent, py_get, get_default.
  destruct (snd item) as [| | | | |d]; simpl; try discriminate.
  destruct (dict_get "dep_date" d) as [[| | |s| |]|]; simpl;
    try discriminate; eauto.
Qed.

Lemma timetabled_dep_time_key (item : string * value) :
  timetabled (snd item) = true -> exists s, dep_time_key item = Ok (VStr s).
Proof.
  unfold timetabled, dep_time_key, str_or_absent, py_get, get_default.
  destruct (snd item) as [| | | | |d]; simpl; try discriminate.
  rewrite andb_true_iff. intros [_ H].
  destruct (dict_get "dep_time" d) as [[| | |s| |]|]; simpl;
    try discriminate; eauto.
Qed.

(** *** Grouping *)

Lemma group_append_perm (k : key) (item : string * value) (g : groups) :
  Permutation (concat (map snd (group_append k item g)))
              (concat (map snd g) ++ [item]).
Proof.
  induction g as [|[k' l] g IH]; simpl.
  - reflexivity.
  - destruct (key_eqb k k'); simpl.
    + rewrite <- !app_assoc. apply Permutation_app_head.
      apply Permutation_app_comm.
    + rewrite IH, app_assoc. reflexivity.
Qed.

Lemma group_append_keys (s : string) (item : string * value) (g : groups) :
  NoDup (map fst g) -> NoDup (map fst (group_append (KStr s) item g)).
Proof.
  induction g as [|[k' l] g IH]; cbn [group_append map fst]; intros Hnd.
  - constructor; [simpl; tauto | constructor].
  - inversion Hnd as [|? ? Hnotin Hnd']; subst.
    destruct (key_eqb (KStr s) k') eqn:E; cbn [map fst].
    + constructor; assumption.
    + constructor; [|auto].
      intros Hin. apply Hnotin. clear - Hin E.
      induction g as [|[k2 l2] g IH]; cbn [group_append map fst] in *.
      * destruct Hin as [Hin|[]]. subst k'.
        rewrite key_eqb_refl in E. discriminate.
      * destruct (key_eqb (KStr s) k2); cbn [map fst In] in *; tauto.
Qed.

Lemma group_append_Forall (P : string * value -> key -> Prop) (s : string)
  (item : string * value) (g : groups) :
  P item (KStr s) ->
  Forall (fun kl => Forall (fun i => P i (fst kl)) (snd kl)) g ->
  Forall (fun kl => Forall (fun i => P i (fst kl)) (snd kl))
         (group_append (KStr s) item g).
Proof.
  intros Hitem. induction g as [|[k' l] g IH]; cbn [group_append];
    intros Hg.
  - repeat constructor. exact Hitem.
  - inversion Hg as [|? ? Hl Hg']; subst. simpl in Hl.
    destruct (key_eqb (KStr s) k') eqn:E.
    + constructor; [|assumption]. simpl.
      apply key_eqb_str in E. subst k'.
      apply Forall_app. split; [assumption|]. repeat constructor. exact Hitem.
    + constructor; auto.
Qed.

(** What the first loop of [group_flights_by_date] keeps true of [grouped]. *)
Definition grouped_inv (g : groups) : Prop :=
  NoDup (map fst g)
  /\ Forall (fun kl =>
       Forall (fun i => date_key i = Ok (fst kl) /\ timetabled (snd i) = true)
              (snd kl)) g.

Lemma group_loop_ok (flights : store) (g : groups) :
  Forall (fun item => timetabled (snd item) = true) flights ->
  grouped_inv g ->
  exists g', fold_left group_step flights (Ok g) = Ok g'
             /\ Permutation (concat (map snd g')) (concat (map snd g) ++ flights)
             /\ grouped_inv g'.
Proof.
  revert g. induction flights as [|item flights IH]; cbn [fold_left];
    intros g Hty Hg.
  - exists g. rewrite app_nil_r. auto.
  - inversion Hty as [|? ? Hitem Hrest]; subst.
    destruct (timetabled_date_key item Hitem) as [s Hs].
    assert (Hstep : group_step (Ok g) item
                    = Ok (group_append (KStr s) item g)).
    { unfold group_step. cbn [bind]. rewrite Hs. reflexivity. }
    rewrite Hstep.
    destruct (IH (group_append (KStr s) item g) Hrest) as (g' & Hrun & Hperm & Hinv).
    + destruct Hg as [Hnd Hall]. split.
      * apply group_append_keys, Hnd.
      * apply (group_append_Forall
                 (fun i k => date_key i = Ok k /\ timetabled (snd i) = true));
          auto.
    + exists g'. split; [exact Hrun|]. split; [|exact Hinv].
      rewrite Hperm, group_append_perm, <- app_assoc. reflexivity.
Qed.

(** *** Sorting a day *)

(** Ascending order of the sort keys of two items of a day. *)
Definition dep_time_le (a b : string * value) : Prop :=
  exists s t, dep_time_key a = Ok (VStr s) /\ dep_time_key b = Ok (VStr t)
              /\ String.leb s t = true.

Lemma ltb_false_leb (s t : string) : String.ltb t s = false -> String.leb s t = true.
Proof.
  unfold String.ltb, String.leb. rewrite (String.compare_antisym s t).
  destruct (String.compare t s); simpl; congruence.
Qed.

Lemma ltb_true_leb (s t : string) : String.ltb s t = true -> String.leb s t = true.
Proof.
  unfold String.ltb, String.leb.
  destruct (String.compare s t); simpl; congruence.
Qed.

(** A sort key computed by [with_keys] for a timetabled item. *)
Definition keyed_ok (kx : value * (string * value)) : Prop :=
  exists s, fst kx = VStr s /\ dep_time_key (snd kx) = Ok (VStr s).

Definition keyed_le (a b : value * (string * value)) : Prop :=
  dep_time_le (snd a) (snd b).

Lemma with_keys_ok (l : list (string * value)) :
  Forall (fun item => timetabled (snd item) = true) l ->
  exists keyed, with_keys l = Ok keyed
                /\ map snd keyed = l
                /\ Forall keyed_ok keyed.
Proof.
  induction l as [|x l IH]; cbn [with_keys]; intros Hty.
  - exists []. repeat split. constructor.
  - inversion Hty as [|? ? Hx Hl]; subst.
    destruct (timetabled_dep_time_key x Hx) as [s Hs].
    destruct (IH Hl) as (keyed & Hrun & Hmap & Hok).
    rewrite Hs, Hrun. cbn [bind].
    exists ((VStr s, x) :: keyed). repeat split.
    + simpl. rewrite Hmap. reflexivity.
    + constructor; [exists s; auto | exact Hok].
Qed.

Lemma insert_sorted_ok (kx : value) (x : string * value)
  (l : list (value * (string * value))) :
  keyed_ok (kx, x) -> Forall keyed_ok l -> Sorted keyed_le l ->
  exists r, insert_sorted kx x l = Ok r
            /\ Permutation r ((kx, x) :: l)
            /\ Forall keyed_ok r
            /\ Sorted keyed_le r
            /\ (forall a, keyed_le a (kx, x) -> HdRel keyed_le a l ->
                          HdRel keyed_le a r).
Proof.
  intros Hx. destruct Hx as (s & Hk & Hs). simpl in Hk, Hs. subst kx.
  induction l as [|[ky y] l IH]; cbn [insert_sorted]; intros Hok Hsorted.
  - exists [(VStr s, x)]. repeat split; auto.
    + repeat constructor. exists s. auto.
  - inversion Hok as [|? ? Hy Hl]; subst.
    inversion Hsorted as [|? ? Hsl Hhd]; subst.
    destruct Hy as (t & Hk & Ht). simpl in Hk, Ht. subst ky.
    cbn [py_lt bind].
    destruct (String.ltb t s) eqn:E.
    + destruct (IH Hl Hsl) as (r & Hrun & Hperm & Hokr & Hsr & Hhdr).
      rewrite Hrun. cbn [bind].
      exists ((VStr t, y) :: r). repeat split.
      * rewrite Hperm. apply perm_swap.
      * constructor; [exists t; auto | exact Hokr].
      * constructor; [exact Hsr|].
        apply Hhdr; [|exact Hhd].
        exists t, s. simpl. auto using ltb_true_leb.
      * intros a _ Ha. inversion Ha; subst. constructor. assumption.
    + exists ((VStr s, x) :: (VStr t, y) :: l). repeat split.
      * reflexivity.
      * constructor; [exists s; auto|].
        constructor; [exists t; auto | exact Hl].
      * constructor; [exact Hsorted|]. constructor.
        exists s, t. simpl. auto using ltb_false_leb.
      * intros a Ha _. constructor. exact Ha.
Qed.

Lemma sort_keyed_ok (l : list (value * (string * value))) :
  Forall keyed_ok l ->
  exists r, sort_keyed l = Ok r
            /\ Permutation r l
            /\ Forall keyed_ok r
            /\ Sorted keyed_le r.
Proof.
  induction l as [|[kx x] l IH]; cbn [sort_keyed]; intros Hok.
  - exists []. repeat split; constructor.
  - inversion Hok as [|? ? Hx Hl]; subst.
    destruct (IH Hl) as (r & Hrun & Hperm & Hokr & Hsr).
    rewrite Hrun. cbn [bind].
    destruct (insert_sorted_ok kx x r Hx Hokr Hsr)
      as (r' & Hrun' & Hperm' & Hokr' & Hsr' & _).
    exists r'. repeat split; auto.
    rewrite Hperm'. constructor. exact Hperm.
Qed.

Lemma Sorted_map_snd (l : list (value * (string * value))) :
  Sorted keyed_le l -> Sorted dep_time_le (map snd l).
Proof.
  induction 1 as [|a l Hs IH Hhd]; simpl; constructor; auto.
  destruct Hhd; simpl; constructor. assumption.
Qed.

Lemma sort_by_dep_time_ok (l : list (string * value)) :
  Forall (fun item => timetabled (snd item) = true) l ->
  exists l', sort_by_dep_time l = Ok l'
             /\ Permutation l' l
             /\ Sorted dep_time_le l'.
Proof.
  intros Hty. unfold sort_by_dep_time.
  destruct (with_keys_ok l Hty) as (keyed & Hrun & Hmap & Hok).
  rewrite Hrun. cbn [bind].
  destruct (sort_keyed_ok keyed Hok) as (r & Hrun' & Hperm & _ & Hsr).
  rewrite Hrun'. cbn [bind].
  exists (map snd r). repeat split.
  - rewrite <- Hmap. apply Permutation_map. exact Hperm.
  - apply Sorted_map_snd. exact Hsr.
Qed.

Lemma sort_groups_ok (g : groups) :
  Forall (fun kl =>
       Forall (fun i => date_key i = Ok (fst kl) /\ timetabled (snd i) = true)
              (snd kl)) g ->
  exists g', sort_groups g = Ok g'
             /\ map fst g' = map fst g
             /\ Permutation (concat (map snd g')) (concat (map snd g))
             /\ Forall (fun kl =>
                  Forall (fun i => date_key i = Ok (fst kl)) (snd kl)
                  /\ Sorted dep_time_le (snd kl)) g'.
Proof.
  induction g as [|[k l] g IH]; cbn [sort_groups]; intros Hg.
  - exists []. repeat split; constructor.
  - inversion Hg as [|? ? Hl Hrest]; subst. cbn [fst snd] in Hl.
    destruct (sort_by_dep_time_ok l) as (l' & Hrun & Hperm & Hsorted).
    { eapply Forall_impl; [|exact Hl]. intros i [_ H]. exact H. }
    destruct (IH Hrest) as (g' & Hrun' & Hkeys & Hperm' & Hall).
    rewrite Hrun, Hrun'. cbn [bind].
    exists ((k, l') :: g'). repeat split.
    + simpl. rewrite Hkeys. reflexivity.
    + simpl. apply Permutation_app; assumption.
    + constructor; [|exact Hall]. cbn [fst snd]. split; [|exact Hsorted].
      apply Forall_forall. intros i Hi.
      rewrite Forall_forall in Hl.
      apply (Permutation_in _ Hperm) in Hi. apply (Hl i Hi).
Qed.

Lemma string_leb_trans (s t u : string) :
  String.leb s t = true -> String.leb t u = true -> String.leb s u = true.
Proof.
  unfold String.leb. revert t u.
  induction s as [|a s IH]; intros [|b t] [|c u]; simpl; try congruence.
  unfold Ascii.compare.
  destruct (N.compare_spec (N_of_ascii a) (N_of_ascii b)) as [E1|L1|G1];
    try congruence;
    destruct (N.compare_spec (N_of_ascii b) (N_of_ascii c)) as [E2|L2|G2];
    try congruence;
    destruct (N.compare_spec (N_of_ascii a) (N_of_ascii c)) as [E3|L3|G3];
    try lia; try congruence.
  apply IH.
Qed.

Lemma dep_time_le_trans (a b c : string * value) :
  dep_time_le a b -> dep_time_le b c -> dep_time_le a c.
Proof.
  intros (s & t & Ha & Hb & Hst) (t' & u & Hb' & Hc & Htu).
  rewrite Hb in Hb'. injection Hb' as ->.
  exists s, u. eauto using string_leb_trans.
Qed.

(** The sort key and the group key of the code are the time and the day
    the specification speaks of. *)
Lemma dep_time_key_spec (item : string * value) (s : string) :
  dep_time_key item = Ok (VStr s) -> spec_time item = Some s.
Proof.
  unfold dep_time_key, spec_time, field_text, py_get, get_default.
  destruct (snd item) as [| | | | |d]; try discriminate.
  destruct (dict_get "dep_time" d) as [v|]; intros [= ->]; reflexivity.
Qed.

Lemma date_key_spec (item : string * value) (k : key) :
  timetabled (snd item) = true -> date_key item = Ok k ->
  exists day, k = KStr day /\ spec_day item = Some day.
Proof.
  unfold timetabled, str_or_absent, date_key, spec_day, field_text, py_get,
    get_default.
  destruct (snd item) as [| | | | |d]; try discriminate.
  destruct (dict_get "dep_date" d) as [[| | |s| |]|]; cbn [andb bind hash_key];
    try discriminate; intros _ [= <-]; eauto.
Qed.

Lemma dep_time_le_spec (a b : string * value) : dep_time_le a b -> time_le a b.
Proof.
  intros (s & t & Ha & Hb & Hst). exists s, t.
  auto using dep_time_key_spec.
Qed.

Lemma StronglySorted_impl {A : Type} (R R' : A -> A -> Prop) (l : list A) :
  (forall a b, R a b -> R' a b) -> StronglySorted R l -> StronglySorted R' l.
Proof.
  intros HR. induction 1 as [|a l Hs IH Hall]; constructor; [exact IH|].
  eapply Forall_impl; [|exact Hall]. intros b. apply HR.
Qed.

(** *** A day that cannot be a key *)

Lemma group_loop_raised (flights : store) (e : exn) :
  fold_left group_step flights (Raise e) = Raise e.
Proof.
  induction flights as [|item flights IH]; cbn [fold_left]; [reflexivity|].
  exact IH.
Qed.

Lemma date_key_dict (item : string * value) :
  isinstance_dict (snd item) = true ->
  (unhashable_day (snd item) = true /\ date_key item = Raise TypeError)
  \/ (unhashable_day (snd item) = false /\ exists k, date_key item = Ok k).
Proof.
  unfold isinstance_dict, unhashable_day, date_key, py_get, get_default.
  destruct (snd item) as [| | | | |d]; try discriminate. intros _.
  destruct (dict_get "dep_date" d) as [[| | | | |]|]; cbn [bind hash_key];
    eauto.
Qed.

Lemma group_loop_raises (flights : store) (g : groups) :
  Forall (fun item => isinstance_dict (snd item) = true) flights ->
  Exists (fun item => unhashable_day (snd item) = true) flights ->
  fold_left group_step flights (Ok g) = Raise TypeError.
Proof.
  revert g. induction flights as [|item flights IH]; intros g Hd Hex;
    [inversion Hex|].
  inversion Hd as [|? ? Hitem Hrest]; subst. cbn [fold_left].
  unfold group_step at 2. cbn [bind].
  destruct (date_key_dict item Hitem) as [[_ Hk]|[Hu (k & Hk)]]; rewrite Hk;
    cbn [bind].
  - apply group_loop_raised.
  - apply IH; [exact Hrest|].
    inversion Hex as [? ? Hhead|? ? Htail]; subst; [congruence|exact Htail].
Qed.

(** C7, as the code has it.  On records whose [dep_date] and [dep_time]
    are strings (or missing, when "unknown" and "00:00" stand in),
    [group_flights_by_date] returns groups whose lists, put end to end,
    are a permutation of the records given (none dropped, none twice);
    the group keys are pairwise different and every record sits in the
    group of its own [dep_date]; and each group is in ascending order of
    the [dep_time] strings.  On records one of which has a list or a
    dict as its [dep_date] the function raises TypeError. *)
Theorem group_flights_by_date_partition (flights : store) :
  Forall (fun item => isinstance_dict (snd item) = true) flights ->
  (Forall (fun item => timetabled (snd item) = true) flights ->
   exists grouped,
     group_flights_by_date flights = Ok grouped
     /\ Permutation (concat (map snd grouped)) flights
     /\ NoDup (map fst grouped)
     /\ Forall (fun kl =>
          Forall (fun item =>
                    exists day, fst kl = KStr day /\ spec_day item = Some day)
                 (snd kl)
          /\ StronglySorted time_le (snd kl)) grouped)
  /\ (Exists (fun item => unhashable_day (snd item) = true) flights ->
      group_flights_by_date flights = Raise TypeError).
Proof.
  intros Hdicts. split.
  - intros Hty. unfold group_flights_by_date.
    destruct (group_loop_ok flights [] Hty) as (g & Hrun & Hperm & Hnd & Hall).
    { split; constructor. }
    rewrite Hrun. cbn [bind].
    destruct (sort_groups_ok g Hall) as (g' & Hrun' & Hkeys & Hperm' & Hall').
    assert (Hflat : Permutation (concat (map snd g')) flights).
    { rewrite Hperm', Hperm. reflexivity. }
    exists g'. repeat split; auto.
    + rewrite Hkeys. exact Hnd.
    + apply Forall_forall. intros kl Hkl.
      rewrite Forall_forall in Hall'. destruct (Hall' kl Hkl) as [Hd Hs].
      split.
      * apply Forall_forall. intros item Hitem.
        rewrite Forall_forall in Hd.
        apply date_key_spec; [|exact (Hd item Hitem)].
        rewrite Forall_forall in Hty. apply Hty.
        apply (Permutation_in _ Hflat).
        apply in_concat. exists (snd kl). split; [|exact Hitem].
        apply in_map. exact Hkl.
      * apply (StronglySorted_impl dep_time_le); [apply dep_time_le_spec|].
        apply Sorted_StronglySorted; [|exact Hs].
        intros x y z. apply dep_time_le_trans.
  - intros Hex. unfold group_flights_by_date.
    rewrite (group_loop_raises flights [] Hdicts Hex). reflexivity.
Qed.

Lemma group_flights_by_date_partition_witness :
  (exists grouped,
     group_flights_by_date sample_flights = Ok grouped
     /\ Permutation (concat (map snd grouped)) sample_flights
     /\ NoDup (map fst grouped)
     /\ Forall (fun kl =>
          Forall (fun item =>
                    exists day, fst kl = KStr day /\ spec_day item = Some day)
                 (snd kl)
          /\ StronglySorted time_le (snd kl)) grouped)
  /\ group_flights_by_date
       [ ("AAAAA6", VDict [ (KStr "flight_number", VStr "AC6");
                            (KStr "dep_date", VList [VStr "2025-09-20"]) ]) ]
     = Raise TypeError.
Proof.
  split.
  - apply (group_flights_by_date_partition sample_flights);
      repeat constructor.
  - apply (group_flights_by_date_partition
             [ ("AAAAA6", VDict [ (KStr "flight_number", VStr "AC6");
                                  (KStr "dep_date",
                                   VList [VStr "2025-09-20"]) ]) ]).
    + repeat constructor.
    + constructor. reflexivity.
Defined.

(** C7 as stated fails on a store the program can reach: a POST whose
    [dep_date] is a list is accepted and the list is stored as it came;
    the new record is a real flight, and grouping the real flights of
    the store then raises instead of returning groups. *)
Lemma group_flights_by_date_list_day :
  let body := dict_set "dep_date" (VList [VStr "2025-09-20"]) sample_post in
  exists user_data' json,
    create_flight [sample_guild] counting_rng 0 2 "2025-09-01T12:00:00"
                  sample_auth crowded_store (VDict body)
    = Some (user_data', Ok json)
    /\ map fst (get_real_flights user_data') = ["ABCDEF"; "GHIJKL"]
    /\ group_flights_by_date (get_real_flights user_data') = Raise TypeError.
Proof.
  do 2 eexists. split; [reflexivity|]. split; reflexivity.
Qed.

(** The groups of the sample, as the code computes them. *)
Example group_flights_by_date_sample :
  match group_flights_by_date sample_flights with
  | Ok grouped =>
      map (fun kl => (fst kl, map fst (snd kl))) grouped
      = [ (KStr "20092025", ["AAAAA5"; "AAAAA3"; "AAAAA1"]);
          (KStr "21092025", ["AAAAA2"]);
          (KStr "unknown", ["AAAAA4"]) ]
  | Raise _ => False
  end.
Proof.
  reflexivity.
Qed.

(** ** Looking a flight up *)

Lemma require_auth_raises (session : option value) (e : exn) :
  require_auth session = Raise e ->
  e = HTTPException 401 \/ e = HTTPException 403 \/ e = AttributeError.
Proof.
  unfold require_auth. destruct session as [s|]; [|intros [= <-]; auto].
  destruct (truthy s); cbn [negb]; [|intros [= <-]; auto].
  destruct s; cbn [py_get bind]; try (intros [= <-]; auto).
  destruct (truthy _); cbn [negb]; [discriminate|intros [= <-]; auto].
Qed.

Lemma serialize_entry_raises (code : string) (entry : value) (e : exn) :
  serialize_entry code entry = Raise e -> e = AttributeError.
Proof.
  unfold serialize_entry, get_nested.
  destruct entry as [| | | | |d]; cbn [py_get bind]; try (intros [= <-]; auto).
  destruct (get_default "gate" (VDict []) d); cbn [py_get bind];
    try (intros [= <-]; auto).
  destruct (get_default "server" (VDict []) d); cbn [py_get bind];
    try (intros [= <-]; auto).
  destruct (get_default "event" (VDict []) d); cbn [py_get bind];
    intros [= <-]; auto.
Qed.

(** The test [lookup_flight] makes, as a predicate on the store. *)
Definition not_found (user_data : store) (code : string) : Prop :=
  match store_get code user_data with
  | None => True
  | Some entry => truthy entry = false \/ py_in "flight_number" entry = Ok false
  end.

Lemma lookup_flight_404 (user_data : store) (code : string) :
  lookup_flight user_data code = Raise (HTTPException 404)
  <-> not_found user_data code.
Proof.
  unfold lookup_flight, not_found.
  destruct (store_get code user_data) as [entry|]; [|tauto].
  destruct (truthy entry); cbn [negb].
  - destruct (py_in "flight_number" entry) as [[|]|e] eqn:E; cbn [bind negb].
    + split; [discriminate|]. intros [H|H]; discriminate.
    + split; auto.
    + split.
      * intros [= ->]. destruct entry; discriminate.
      * intros [H|H]; discriminate.
  - split; auto.
Qed.

Lemma is_real_lookup (user_data : store) (code : string) (entry : value) :
  store_get code user_data = Some entry ->
  is_real code entry = true ->
  lookup_flight user_data code = Ok entry.
Proof.
  intros Hget Hreal. apply is_real_iff in Hreal.
  destruct Hreal as [[d [-> Hf]] _].
  unfold lookup_flight. rewrite Hget.
  assert (Ht : truthy (VDict d) = true).
  { destruct d; [discriminate|reflexivity]. }
  rewrite Ht. cbn [negb py_in bind]. rewrite Hf. reflexivity.
Qed.

Lemma upper_char_not_lower (c : ascii) : is_lower (upper_char c) = false.
Proof.
  destruct c as [[|] [|] [|] [|] [|] [|] [|] [|]]; reflexivity.
Qed.

Lemma serialize_entry_ok (code : string) (d : dict) :
  subdicts_ok d = true -> exists json, serialize_entry code (VDict d) = Ok json.
Proof.
  unfold subdicts_ok, subdict_ok. rewrite !andb_true_iff. intros [[Hg Hs] He].
  unfold serialize_entry, get_nested. cbn [py_get bind]. unfold get_default.
  destruct (dict_get "gate" d) as [[| | | | |g]|]; try discriminate;
    destruct (dict_get "server" d) as [[| | | | |sv]|]; try discriminate;
    destruct (dict_get "event" d) as [[| | | | |ev]|]; try discriminate;
    cbn [py_get bind]; eauto.
Qed.

(** A record one of whose [gate], [server] and [event] is not a dict
    does not serialize. *)
Lemma serialize_entry_fails (code : string) (d : dict) :
  subdicts_ok d = false -> serialize_entry code (VDict d) = Raise AttributeError.
Proof.
  unfold subdicts_ok, subdict_ok.
  unfold serialize_entry, get_nested. cbn [py_get bind]. unfold get_default.
  destruct (dict_get "gate" d) as [[| | | | |g]|];
    destruct (dict_get "server" d) as [[| | | | |sv]|];
    destruct (dict_get "event" d) as [[| | | | |ev]|];
    cbn [andb py_get bind]; intros H; try discriminate H; reflexivity.
Qed.

(** *** Keys and their uppercase *)

Lemma upper_char_idem (c : ascii) : upper_char (upper_char c) = upper_char c.
Proof.
  unfold upper_char at 1. rewrite upper_char_not_lower. reflexivity.
Qed.

Lemma upper_idem (s : string) : upper (upper s) = upper s.
Proof.
  induction s as [|c s IH]; cbn [upper]; [reflexivity|].
  rewrite upper_char_idem, IH. reflexivity.
Qed.

Lemma upper_append (s t : string) : upper (s ++ t) = (upper s ++ upper t)%string.
Proof.
  induction s as [|c s IH]; cbn [append upper]; [reflexivity|].
  rewrite IH. reflexivity.
Qed.

Lemma append_inv_head (s t u : string) : (s ++ t)%string = (s ++ u)%string -> t = u.
Proof.
  induction s as [|c s IH]; cbn [append]; [auto|].
  intros [= H]. exact (IH H).
Qed.

Lemma upper_fixed_append (s t : string) :
  upper (s ++ t) = (s ++ t)%string -> upper t = t.
Proof.
  induction s as [|c s IH]; cbn [append upper]; [auto|].
  intros [= _ H]. exact (IH H).
Qed.

Lemma substring_split (n : nat) (s : string) :
  n <= String.length s ->
  s = (substring 0 n s ++ substring n (String.length s - n) s)%string.
Proof.
  revert s. induction n as [|n IH]; intros s Hn.
  - rewrite Nat.sub_0_r.
    replace (substring 0 0 s) with "" by (destruct s; reflexivity).
    cbn [append]. clear Hn.
    induction s as [|c s IHs]; cbn [substring String.length];
      [reflexivity|]. rewrite <- IHs. reflexivity.
  - destruct s as [|c s]; cbn [String.length] in *; [lia|].
    cbn [substring append Nat.sub]. f_equal. apply IH. lia.
Qed.

Lemma endswith_split (s suffix : string) :
  endswith s suffix = true -> exists pre, s = (pre ++ suffix)%string.
Proof.
  unfold endswith. rewrite andb_true_iff, Nat.leb_le, String.eqb_eq.
  intros [Hlen Hsub].
  exists (substring 0 (String.length s - String.length suffix) s).
  pose proof (substring_split (String.length s - String.length suffix) s
                ltac:(lia)) as H.
  replace (String.length s - (String.length s - String.length suffix))
    with (String.length suffix) in H by lia.
  rewrite Hsub in H. exact H.
Qed.

(** A [_pending] key is not its own uppercase. *)
Lemma upper_pending (k : string) : endswith k "_pending" = true -> upper k <> k.
Proof.
  intros H Hup. destruct (endswith_split k _ H) as [pre ->].
  apply upper_fixed_append in Hup. discriminate.
Qed.

(** C9, as the code has it: for a caller that passes [require_auth],
    [GET /api/flights/{code}] looks up the uppercased code only.  It
    answers 404 exactly when that key is absent from the store, or the
    entry under it is empty (falsy) or has no [flight_number]; otherwise
    the answer is the serialization of that entry, which is a record
    when [gate], [server] and [event] are dicts or absent and a server
    error when one of them is not.  The real-record test plays no part:
    the length and the suffix of the key are not looked at, so an entry
    with a flight number under a key of any length is served.  A key
    that differs from its uppercase (every [_pending] key does) is never
    looked up: a record under such a key, real or not, is answered with
    404 unless the uppercased key is in the store too.  A real record
    under a key that is its own uppercase is served. *)
Theorem get_flight_404_iff (session : option value) (user_data : store)
  (code : string) (s : value) :
  require_auth session = Ok s ->
  (get_flight session user_data code = Raise (HTTPException 404)
   <-> not_found user_data (upper code))
  /\ (forall entry,
        store_get (upper code) user_data = Some entry ->
        truthy entry = true ->
        py_in "flight_number" entry = Ok true ->
        get_flight session user_data code
        = serialize_entry (upper code) entry)
  /\ (forall d,
        store_get (upper code) user_data = Some (VDict d) ->
        dict_mem "flight_number" d = true ->
        (subdicts_ok d = true ->
         exists json, get_flight session user_data code = Ok json)
        /\ (subdicts_ok d = false ->
            get_flight session user_data code = Raise AttributeError
            /\ status_code (get_flight session user_data code) = 500))
  /\ (upper (upper code) = upper code
      /\ forall k, upper k <> k -> upper code <> k)
  /\ (forall k, endswith k "_pending" = true -> upper k <> k)
  /\ (forall entry,
        store_get code user_data = Some entry ->
        upper code <> code ->
        store_get (upper code) user_data = None ->
        get_flight session user_data code = Raise (HTTPException 404))
  /\ (forall entry,
        store_get code user_data = Some entry ->
        is_real code entry = true ->
        upper code = code ->
        get_flight session user_data code = serialize_entry code entry).
Proof.
  intros Hauth. unfold get_flight. rewrite Hauth. cbn [bind].
  assert (Hserve : forall entry,
             store_get (upper code) user_data = Some entry ->
             truthy entry = true ->
             py_in "flight_number" entry = Ok true ->
             (entry <- lookup_flight user_data (upper code) ;;
              serialize_entry (upper code) entry)
             = serialize_entry (upper code) entry).
  { intros entry Hget Ht Hin.
    unfold lookup_flight. rewrite Hget, Ht. cbn [negb]. rewrite Hin.
    reflexivity. }
  split; [|split; [exact Hserve|split; [|split; [|split; [|split]]]]].
  - rewrite <- lookup_flight_404.
    destruct (lookup_flight user_data (upper code)) as [entry|e];
      cbn [bind]; [|tauto].
    split; [|discriminate].
    intros H. apply serialize_entry_raises in H. discriminate.
  - intros d Hget Hfn.
    assert (Ht : truthy (VDict d) = true).
    { destruct d; [discriminate|reflexivity]. }
    rewrite (Hserve (VDict d) Hget Ht) by (cbn [py_in]; rewrite Hfn; reflexivity).
    split.
    + apply serialize_entry_ok.
    + intros Hbad. rewrite (serialize_entry_fails _ d Hbad).
      split; reflexivity.
  - split; [apply upper_idem|].
    intros k Hk Heq. apply Hk. rewrite <- Heq. apply upper_idem.
  - apply upper_pending.
  - intros entry _ _ Hnone. unfold lookup_flight. rewrite Hnone. reflexivity.
  - intros entry Hget Hreal Hup. rewrite Hup.
    rewrite (is_real_lookup _ _ _ Hget Hreal). reflexivity.
Qed.

Lemma get_flight_404_iff_witness :
  get_flight sample_auth sample_store "zz99zz" = Raise (HTTPException 404)
  /\ get_flight sample_auth sample_store "ab12cd"
     = serialize_entry "AB12CD" sample_flight
  /\ get_flight sample_auth sample_store "123456789_pending"
     = Raise (HTTPException 404)
  /\ get_flight sample_auth lowercase_store "ab12cd"
     = Raise (HTTPException 404).
Proof.
  split; [|split; [|split]].
  - apply (get_flight_404_iff sample_auth sample_store "zz99zz"
             (VDict [ (KStr "user_id", VStr "42");
                      (KStr "has_role", VBool true);
                      (KStr "exp", VInt 2000000000) ])).
    + reflexivity.
    + exact I.
  - destruct (get_flight_404_iff sample_auth sample_store "ab12cd"
                (VDict [ (KStr "user_id", VStr "42");
                         (KStr "has_role", VBool true);
                         (KStr "exp", VInt 2000000000) ]))
      as (_ & H & _).
    + reflexivity.
    + apply H; reflexivity.
  - destruct (get_flight_404_iff sample_auth sample_store "123456789_pending"
                (VDict [ (KStr "user_id", VStr "42");
                         (KStr "has_role", VBool true);
                         (KStr "exp", VInt 2000000000) ]))
      as (_ & _ & _ & _ & _ & H & _).
    + reflexivity.
    + apply (H sample_session); [reflexivity|discriminate|reflexivity].
  - destruct (get_flight_404_iff sample_auth lowercase_store "ab12cd"
                (VDict [ (KStr "user_id", VStr "42");
                         (KStr "has_role", VBool true);
                         (KStr "exp", VInt 2000000000) ]))
      as (_ & _ & _ & _ & _ & H & _).
    + reflexivity.
    + apply (H sample_flight); [reflexivity|discriminate|reflexivity].
Defined.

(** C9 as stated fails: the wizard session kept under the submitter's id
    has a [flight_number] and is not a real record (its key is nine
    characters long), yet the endpoint serves it instead of answering 404. *)
Lemma get_flight_serves_session :
  require_auth sample_auth <> Raise (HTTPException 401)
  /\ store_get (upper "123456789") sample_store = Some sample_session
  /\ has_flight_number sample_session = true
  /\ is_real (upper "123456789") sample_session = false
  /\ get_flight sample_auth sample_store "123456789"
     = serialize_entry "123456789" sample_session
  /\ get_flight sample_auth sample_store "123456789"
     <> Raise (HTTPException 404).
Proof.
  repeat split; try reflexivity; discriminate.
Qed.

(** ** PATCH *)

(** An uppercased path parameter is never the reserved key [_day_msgs]. *)
Lemma upper_not_day_msgs (code : string) : upper code <> "_day_msgs".
Proof.
  destruct code as [|c0 [|c1 rest]]; simpl; try discriminate.
  intros H. injection H as _ H1 _.
  pose proof (upper_char_not_lower c1) as Hl. rewrite H1 in Hl. discriminate.
Qed.

Lemma post_or_update_day_schedule_frame (g : guild) (date_raw : value)
  (user_data : store) (k : string) :
  k <> "_day_msgs" ->
  store_get k (fst (post_or_update_day_schedule g date_raw user_data))
  = store_get k user_data.
Proof.
  intros Hk. unfold post_or_update_day_schedule.
  assert (H1 : forall v, store_get k (store_set "_day_msgs" v user_data)
                         = store_get k user_data).
  { intros v. apply store_get_set_other. exact Hk. }
  assert (H2 : store_get k
                 (if store_mem "_day_msgs" user_data then user_data
                  else store_set "_day_msgs" (VDict []) user_data)
               = store_get k user_data).
  { destruct (store_mem "_day_msgs" user_data); auto. }
  destruct (public_channel g); cbn [negb fst]; [|reflexivity].
  destruct (group_flights_by_date _) as [grouped|]; [|reflexivity].
  destruct (hash_key date_raw) as [dk|]; [|reflexivity].
  destruct (assoc_get key_eqb dk grouped) as [[|x l]|]; try reflexivity.
  destruct (build_day_embed _); [|reflexivity].
  destruct (store_get "_day_msgs" _) as [[| | | | |day_msgs]|]; try exact H2.
  destruct (truthy _ && edit_existing g); [exact H2|].
  destruct (public_send g); [|exact H2].
  cbn [fst]. rewrite store_get_set_other; [exact H2|exact Hk].
Qed.

Lemma refresh_after_update_frame (guilds : list guild) (entry : value)
  (user_data : store) (k : string) :
  k <> "_day_msgs" ->
  store_get k (refresh_after_update guilds entry user_data)
  = store_get k user_data.
Proof.
  intros Hk. revert user_data.
  induction guilds as [|g guilds IH]; intros user_data;
    cbn [refresh_after_update]; [reflexivity|].
  destruct (py_get entry "dep_date" VNone) as [dep_date|]; [|apply IH].
  destruct (truthy dep_date); [|reflexivity].
  pose proof (post_or_update_day_schedule_frame g dep_date user_data k Hk) as H.
  destruct (post_or_update_day_schedule g dep_date user_data) as [ud [|e]];
    cbn [fst] in H.
  - exact H.
  - rewrite IH. exact H.
Qed.

Lemma subdict_ok_dict_set (o : string) (k : key) (v : value) (d : dict) :
  subdict_ok o (dict_set k v d)
  = if key_eqb o k then match v with VDict _ => true | _ => false end
    else subdict_ok o d.
Proof.
  unfold subdict_ok. rewrite dict_get_set.
  destruct (key_eqb o k); [destruct v|]; reflexivity.
Qed.

Lemma entry_update_nested_ok (o i : string) (v : value) (d : dict) :
  subdict_ok o d = true ->
  entry_update_nested (VDict d) o i v = Ok (VDict (nested_set o i v d)).
Proof.
  unfold subdict_ok, entry_update_nested, nested_set.
  destruct (dict_get o d) as [[| | | | |sub]|]; try discriminate; reflexivity.
Qed.

Lemma subdict_ok_nested_set (o o' i : string) (v : value) (d : dict) :
  subdict_ok o d = true -> subdict_ok o (nested_set o' i v d) = true.
Proof.
  intros H. unfold nested_set.
  destruct (dict_get o' d) as [[| | | | |sub]|];
    rewrite subdict_ok_dict_set; destruct (key_eqb o o'); auto.
Qed.

Lemma subdict_ok_set_nested (b : dict) (f o o' i : string) (d : dict) :
  subdict_ok o d = true -> subdict_ok o (set_nested b f o' i d) = true.
Proof.
  intros H. unfold set_nested.
  destruct (dict_get f b); auto using subdict_ok_nested_set.
Qed.

Lemma subdict_ok_set_field (b : dict) (f o : string) (d : dict) :
  key_eqb o f = false ->
  subdict_ok o d = true -> subdict_ok o (set_field b f d) = true.
Proof.
  intros E H. unfold set_field.
  destruct (dict_get f b); auto.
  rewrite subdict_ok_dict_set, E. exact H.
Qed.

(** One turn of the loop over [field_map], for a dict body and an updater
    that succeeds on the record at hand. *)
Lemma apply_fields_step (f : string) (upd : value -> value -> result value)
  (rest : list (string * (value -> value -> result value)))
  (b d : dict) (updated : list string) (g : value -> dict) :
  (forall v, upd (VDict d) v = Ok (VDict (g v))) ->
  exists updated',
    apply_fields ((f, upd) :: rest) (VDict b) (VDict d) updated
    = apply_fields rest (VDict b)
        (VDict (match dict_get f b with Some v => g v | None => d end))
        updated'.
Proof.
  intros Hupd. cbn [apply_fields py_in py_index]. unfold dict_mem, assoc_mem.
  fold dict_get.
  destruct (dict_get f b) as [v|].
  - rewrite Hupd. eauto.
  - eauto.
Qed.

Lemma apply_fields_patched (b d : dict) :
  subdicts_ok d = true ->
  exists updated,
    apply_fields field_map (VDict b) (VDict d) []
    = (VDict (patched b d), Ok updated).
Proof.
  unfold subdicts_ok. rewrite !andb_true_iff. intros [[Hg Hs] He].
  unfold field_map, patched.
  set (d1 := set_field b "status" d).
  set (d2 := set_field b "alerts" d1).
  set (d3 := set_field b "meal_service" d2).
  set (d4 := set_nested b "gate_dep" "gate" "dep" d3).
  set (d5 := set_nested b "gate_arr" "gate" "arr" d4).
  set (d6 := set_nested b "server_link" "server" "link" d5).
  assert (Hg3 : subdict_ok "gate" d3 = true)
    by (repeat apply subdict_ok_set_field; auto).
  assert (Hs3 : subdict_ok "server" d3 = true)
    by (repeat apply subdict_ok_set_field; auto).
  assert (He3 : subdict_ok "event" d3 = true)
    by (repeat apply subdict_ok_set_field; auto).
  destruct (apply_fields_step "status" (fun entry v => entry_update entry "status" v) (tl field_map) b d []
              (fun v => dict_set "status" v d)) as [u1 H1]; [reflexivity|].
  destruct (apply_fields_step "alerts" (fun entry v => entry_update entry "alerts" v) (tl (tl field_map)) b d1 u1
              (fun v => dict_set "alerts" v d1)) as [u2 H2]; [reflexivity|].
  destruct (apply_fields_step "meal_service"
              (fun entry v => entry_update entry "meal_service" v)
              (tl (tl (tl field_map))) b d2 u2
              (fun v => dict_set "meal_service" v d2)) as [u3 H3];
    [reflexivity|].
  destruct (apply_fields_step "gate_dep"
              (fun entry v => entry_update_nested entry "gate" "dep" v)
              (tl (tl (tl (tl field_map)))) b d3 u3
              (fun v => nested_set "gate" "dep" v d3)) as [u4 H4].
  { intros v. apply entry_update_nested_ok. exact Hg3. }
  destruct (apply_fields_step "gate_arr"
              (fun entry v => entry_update_nested entry "gate" "arr" v)
              (tl (tl (tl (tl (tl field_map))))) b d4 u4
              (fun v => nested_set "gate" "arr" v d4)) as [u5 H5].
  { intros v. apply entry_update_nested_ok.
    apply subdict_ok_set_nested. exact Hg3. }
  destruct (apply_fields_step "server_link"
              (fun entry v => entry_update_nested entry "server" "link" v)
              (tl (tl (tl (tl (tl (tl field_map)))))) b d5 u5
              (fun v => nested_set "server" "link" v d5)) as [u6 H6].
  { intros v. apply entry_update_nested_ok.
    repeat apply subdict_ok_set_nested. exact Hs3. }
  destruct (apply_fields_step "event_link"
              (fun entry v => entry_update_nested entry "event" "link" v)
              [] b d6 u6
              (fun v => nested_set "event" "link" v d6)) as [u7 H7].
  { intros v. apply entry_update_nested_ok.
    repeat apply subdict_ok_set_nested. exact He3. }
  exists u7.
  cbn [tl field_map] in H1, H2, H3, H4, H5, H6.
  etransitivity; [exact H1|]. etransitivity; [exact H2|].
  etransitivity; [exact H3|]. etransitivity; [exact H4|].
  etransitivity; [exact H5|]. etransitivity; [exact H6|].
  etransitivity; [exact H7|]. reflexivity.
Qed.

Lemma dict_get_set_field (k : key) (b : dict) (f : string) (d : dict) :
  dict_get k (set_field b f d)
  = if key_eqb k f
    then match dict_get f b with Some v => Some v | None => dict_get k d end
    else dict_get k d.
Proof.
  unfold set_field. destruct (dict_get f b) as [v|].
  - apply dict_get_set.
  - destruct (key_eqb k f); reflexivity.
Qed.

Lemma dict_get_nested_set (k : key) (o i : string) (v : value) (d : dict) :
  key_eqb k o = false -> dict_get k (nested_set o i v d) = dict_get k d.
Proof.
  intros E. unfold nested_set.
  destruct (dict_get o d) as [[| | | | |sub]|]; rewrite dict_get_set, E;
    reflexivity.
Qed.

Lemma dict_get_set_nested (k : key) (b : dict) (f o i : string) (d : dict) :
  key_eqb k o = false -> dict_get k (set_nested b f o i d) = dict_get k d.
Proof.
  intros E. unfold set_nested.
  destruct (dict_get f b); auto using dict_get_nested_set.
Qed.

Lemma sub_get_set_field (o i : string) (b : dict) (f : string) (d : dict) :
  key_eqb o f = false -> sub_get o i (set_field b f d) = sub_get o i d.
Proof.
  intros E. unfold sub_get. rewrite dict_get_set_field, E. reflexivity.
Qed.

Lemma sub_get_nested_set (o i o' i' : string) (v : value) (d : dict) :
  subdict_ok o' d = true ->
  sub_get o i (nested_set o' i' v d)
  = if String.eqb o o' && String.eqb i i' then Some v else sub_get o i d.
Proof.
  unfold subdict_ok, sub_get, nested_set. intros Hok.
  destruct (String.eqb_spec o o') as [->|Hne].
  - destruct (dict_get o' d) as [[| | | | |sub]|]; try discriminate;
      rewrite dict_get_set_same; cbn [andb].
    + rewrite dict_get_set. reflexivity.
    + unfold dict_get. simpl. destruct (String.eqb i i'); reflexivity.
  - assert (E : key_eqb o o' = false) by (simpl; apply String.eqb_neq, Hne).
    cbn [andb].
    destruct (dict_get o' d) as [[| | | | |sub]|]; try discriminate;
      rewrite dict_get_set, E; reflexivity.
Qed.

Lemma sub_get_set_nested (o i : string) (b : dict) (f o' i' : string)
  (d : dict) :
  subdict_ok o' d = true ->
  sub_get o i (set_nested b f o' i' d)
  = match dict_get f b with
    | Some v => if String.eqb o o' && String.eqb i i' then Some v
                else sub_get o i d
    | None => sub_get o i d
    end.
Proof.
  intros Hok. unfold set_nested.
  destruct (dict_get f b); auto using sub_get_nested_set.
Qed.

Lemma subdicts_ok_patched (b d : dict) :
  subdicts_ok d = true -> subdicts_ok (patched b d) = true.
Proof.
  unfold subdicts_ok, patched. rewrite !andb_true_iff. intros [[Hg Hs] He].
  repeat split; repeat apply subdict_ok_set_nested;
    repeat apply subdict_ok_set_field; auto.
Qed.

Lemma dict_get_recognized_only (f : string) (b : dict) :
  recognized f = true -> dict_get f (recognized_only b) = dict_get f b.
Proof.
  intros Hf. induction b as [|[k v] b IH]; [reflexivity|].
  unfold recognized_only. cbn [filter fst]. fold (recognized_only b).
  unfold dict_get in *. cbn [assoc_get].
  destruct (recognized k) eqn:Hk; cbn [assoc_get].
  - rewrite IH. reflexivity.
  - destruct (key_eqb f k) eqn:E; [|exact IH].
    apply key_eqb_str in E. subst k. congruence.
Qed.

Lemma patched_recognized_only (b d : dict) :
  patched (recognized_only b) d = patched b d.
Proof.
  unfold patched, set_field, set_nested.
  rewrite !dict_get_recognized_only by reflexivity. reflexivity.
Qed.

Lemma check_status_dict (b : dict) :
  (forall v, dict_get "status" b = Some v -> in_valid_statuses v = Ok true) ->
  check_status (VDict b) = Ok tt.
Proof.
  intros H. unfold check_status. cbn [py_in py_index bind].
  unfold dict_mem, assoc_mem. fold dict_get.
  destruct (dict_get "status" b) as [v|]; [|reflexivity].
  cbn [bind]. rewrite (H v eq_refl). reflexivity.
Qed.

(** C5: a PATCH on a stored record whose sub-dicts are well formed, with
    a dict body whose [status], if given, is one of the enumerated values,
    is answered without error; the record it leaves is the one the
    recognised fields of the body alone produce, so any other field of
    the body changes nothing; every recognised field given is written
    ([status], [alerts], [meal_service] at the top level, [gate_dep],
    [gate_arr], [server_link], [event_link] into [gate], [server] and
    [event]); and no key of the record other than these six is touched. *)
Theorem update_flight_recognized_fields (guilds : list guild)
  (session : option value) (s : value) (user_data : store) (code : string)
  (body d : dict) :
  require_auth session = Ok s ->
  store_get (upper code) user_data = Some (VDict d) ->
  dict_mem "flight_number" d = true ->
  subdicts_ok d = true ->
  (forall v, dict_get "status" body = Some v ->
             in_valid_statuses v = Ok true) ->
  exists user_data' json,
    update_flight guilds session user_data code (VDict body)
    = (user_data', Ok json)
    /\ serialize_entry (upper code) (VDict (patched body d)) = Ok json
    /\ store_get (upper code) user_data' = Some (VDict (patched body d))
    /\ patched body d = patched (recognized_only body) d
    /\ (forall f v, In f ["status"; "alerts"; "meal_service"] ->
                    dict_get f body = Some v ->
                    dict_get f (patched body d) = Some v)
    /\ (forall f outer inner v,
          In (f, outer, inner)
             [ ("gate_dep", "gate", "dep"); ("gate_arr", "gate", "arr");
               ("server_link", "server", "link");
               ("event_link", "event", "link") ] ->
          dict_get f body = Some v ->
          sub_get outer inner (patched body d) = Some v)
    /\ (forall k, existsb (key_eqb k) patch_targets = false ->
                  dict_get k (patched body d) = dict_get k d).
Proof.
  intros Hauth Hget Hfn Hok Hstatus.
  destruct (apply_fields_patched body d Hok) as [updated Hrun].
  destruct (serialize_entry_ok (upper code) (patched body d)
              (subdicts_ok_patched body d Hok)) as [json Hjson].
  assert (Hlookup : lookup_flight user_data (upper code) = Ok (VDict d)).
  { unfold lookup_flight. rewrite Hget.
    assert (Ht : truthy (VDict d) = true)
      by (destruct d; [discriminate|reflexivity]).
    rewrite Ht. cbn [negb py_in bind]. rewrite Hfn. reflexivity. }
  assert (Hgk : subdict_ok "gate" d = true /\ subdict_ok "server" d = true
                /\ subdict_ok "event" d = true).
  { unfold subdicts_ok in Hok. rewrite !andb_true_iff in Hok. tauto. }
  destruct Hgk as (Hg & Hs & He).
  eexists. exists json. split; [|split; [exact Hjson|split; [|split]]].
  - unfold update_flight.
    rewrite Hauth, Hlookup, (check_status_dict body Hstatus), Hrun, Hjson.
    reflexivity.
  - cbn [fst].
    destruct updated as [|u updated'].
    + apply store_get_set_same.
    + rewrite refresh_after_update_frame by apply upper_not_day_msgs.
      apply store_get_set_same.
  - symmetry. apply patched_recognized_only.
  - split; [|split].
    + intros f v Hf Hb. unfold patched.
      rewrite !dict_get_set_nested
        by (cbn [In] in Hf; decompose [or] Hf; subst; try reflexivity;
            contradiction).
      cbn [In] in Hf. decompose [or] Hf; subst; try contradiction;
        rewrite !dict_get_set_field; cbn [key_eqb String.eqb Ascii.eqb Bool.eqb];
        rewrite Hb; reflexivity.
    + intros f outer inner v Hf Hb. unfold patched.
      cbn [In] in Hf. decompose [or] Hf; try contradiction;
        match goal with H : (_, _, _) = (_, _, _) |- _ =>
          injection H as <- <- <- end;
        rewrite !sub_get_set_nested
          by (repeat apply subdict_ok_set_nested;
              repeat apply subdict_ok_set_field; auto);
        rewrite Hb; cbn [String.eqb Ascii.eqb Bool.eqb andb];
        repeat match goal with
               | |- context [match dict_get ?g body with _ => _ end] =>
                   destruct (dict_get g body)
               end; reflexivity.
    + intros k Hk. unfold patch_targets in Hk. cbn [existsb] in Hk.
      rewrite !orb_false_iff in Hk.
      destruct Hk as (K1 & K2 & K3 & K4 & K5 & K6 & _).
      unfold patched.
      rewrite !dict_get_set_nested by assumption.
      rewrite !dict_get_set_field, K1, K2, K3. reflexivity.
Qed.

Lemma update_flight_recognized_fields_witness :
  exists user_data' json,
    update_flight [] sample_auth sample_store "ab12cd" (VDict sample_patch)
    = (user_data', Ok json)
    /\ store_get "AB12CD" user_data'
       = Some (VDict (patched sample_patch sample_fields))
    /\ dict_get "status" (patched sample_patch sample_fields)
       = Some (VStr "Delayed")
    /\ sub_get "gate" "dep" (patched sample_patch sample_fields)
       = Some (VStr "A1")
    /\ dict_get "colour" (patched sample_patch sample_fields) = None.
Proof.
  destruct (update_flight_recognized_fields [] sample_auth
              (VDict [ (KStr "user_id", VStr "42");
                       (KStr "has_role", VBool true);
                       (KStr "exp", VInt 2000000000) ])
              sample_store "ab12cd" sample_patch sample_fields)
    as (user_data' & json & Hrun & _ & Hget & _ & Hf & Hn & _).
  - reflexivity.
  - reflexivity.
  - reflexivity.
  - reflexivity.
  - intros v [= <-]. reflexivity.
  - exists user_data', json. split; [exact Hrun|]. split; [exact Hget|].
    split; [|split].
    + apply Hf; [simpl; auto | reflexivity].
    + apply (Hn "gate_dep"); [simpl; auto | reflexivity].
    + reflexivity.
Defined.

(** *** A status outside the enumerated set *)

(** A status that can be hashed and is not one of the six is refused with
    422 before any field is written: the store is returned as it was. *)
Lemma update_flight_invalid_status_422 (guilds : list guild)
  (session : option value) (s : value) (user_data : store) (code : string)
  (body : dict) (entry v : value) :
  require_auth session = Ok s ->
  lookup_flight user_data (upper code) = Ok entry ->
  dict_get "status" body = Some v ->
  in_valid_statuses v = Ok false ->
  update_flight guilds session user_data code (VDict body)
  = (user_data, Raise (HTTPException 422)).
Proof.
  intros Hauth Hlookup Hb Hv. unfold update_flight.
  rewrite Hauth, Hlookup.
  assert (Hc : check_status (VDict body) = Raise (HTTPException 422)).
  { unfold check_status. cbn [py_in py_index bind].
    unfold dict_mem, assoc_mem. fold dict_get. rewrite Hb. cbn [bind].
    rewrite Hv. reflexivity. }
  rewrite Hc. reflexivity.
Qed.

(** A status that cannot be hashed (a JSON array or object) makes the
    membership test itself raise: the store is returned as it was, but
    the exception is TypeError, which FastAPI answers with 500. *)
Lemma update_flight_unhashable_status_500 (guilds : list guild)
  (session : option value) (s : value) (user_data : store) (code : string)
  (body : dict) (entry v : value) :
  require_auth session = Ok s ->
  lookup_flight user_data (upper code) = Ok entry ->
  dict_get "status" body = Some v ->
  hash_key v = Raise TypeError ->
  update_flight guilds session user_data code (VDict body)
  = (user_data, Raise TypeError).
Proof.
  intros Hauth Hlookup Hb Hv. unfold update_flight.
  rewrite Hauth, Hlookup.
  assert (Hc : check_status (VDict body) = Raise TypeError).
  { unfold check_status, in_valid_statuses. cbn [py_in py_index bind].
    unfold dict_mem, assoc_mem. fold dict_get. rewrite Hb. cbn [bind].
    rewrite Hv. reflexivity. }
  rewrite Hc. reflexivity.
Qed.

Lemma update_flight_invalid_status_422_witness :
  update_flight [] sample_auth sample_store "ab12cd" (VDict sample_bad_status)
  = (sample_store, Raise (HTTPException 422)).
Proof.
  apply (update_flight_invalid_status_422 [] sample_auth
           (VDict [ (KStr "user_id", VStr "42");
                    (KStr "has_role", VBool true);
                    (KStr "exp", VInt 2000000000) ])
           sample_store "ab12cd" sample_bad_status sample_flight
           (VStr "Boarding")); reflexivity.
Defined.

(** C4 at the input where the code departs from it: the body
    [{"status": [], "alerts": "Fog"}] sent for the stored flight AB12CD.
    The status is outside the enumerated set and the record is left as it
    was, but the answer is 500 (TypeError: unhashable type), not 422. *)
Theorem update_flight_list_status :
  lookup_flight sample_store "AB12CD" = Ok sample_flight
  /\ dict_get "status" sample_list_status = Some (VList [])
  /\ update_flight [] sample_auth sample_store "AB12CD"
       (VDict sample_list_status)
     = (sample_store, Raise TypeError)
  /\ status_code
       (snd (update_flight [] sample_auth sample_store "AB12CD"
               (VDict sample_list_status))) = 500.
Proof.
  repeat split.
Qed.

(** ** Dates written and read back *)

Lemma digit_char_is_digit (n : nat) : n < 10 -> is_digit (digit_char n) = true.
Proof.
  intros H. do 10 (destruct n as [|n]; [reflexivity|]). lia.
Qed.

Lemma digit_val_digit_char (n : nat) : n < 10 -> digit_val (digit_char n) = n.
Proof.
  intros H. do 10 (destruct n as [|n]; [reflexivity|]). lia.
Qed.

(** On the characters [0-9], [\d] reads what the ranges read. *)
Lemma match_digit_char (n : nat) (rest : string) :
  n < 10 -> match_digit (String (digit_char n) rest) = Some (n, rest).
Proof.
  intros H. do 10 (destruct n as [|n]; [reflexivity|]). lia.
Qed.

Lemma two_digits_pad2 (n : nat) : two_digits n = pad2 n.
Proof.
  reflexivity.
Qed.

Lemma max_year : 9999 = 9 * 1000 + 999.
Proof.
  reflexivity.
Qed.

Lemma match_Y_four_digits {A : Type} (y : nat) (rest : string)
  (k : nat -> string -> option A) :
  y <= 9999 -> match_Y (four_digits y ++ rest) k = k y rest.
Proof.
  rewrite max_year. intros Hy. unfold four_digits, two_digits.
  cbn [append]. fold (digit_char (y / 100 / 10)).
  fold (digit_char ((y / 100) mod 10)). fold (digit_char (y mod 100 / 10)).
  fold (digit_char ((y mod 100) mod 10)).
  assert (H3 : y / 100 / 10 < 10).
  { apply Nat.Div0.div_lt_upper_bound. apply Nat.Div0.div_lt_upper_bound. lia. }
  assert (H2 : (y / 100) mod 10 < 10) by (apply Nat.mod_upper_bound; lia).
  assert (H1 : y mod 100 / 10 < 10).
  { apply Nat.Div0.div_lt_upper_bound.
    pose proof (Nat.mod_upper_bound y 100). lia. }
  assert (H0 : (y mod 100) mod 10 < 10) by (apply Nat.mod_upper_bound; lia).
  unfold match_Y. rewrite !match_digit_char by assumption.
  f_equal.
  pose proof (Nat.div_mod_eq y 100).
  pose proof (Nat.div_mod_eq (y / 100) 10).
  pose proof (Nat.div_mod_eq (y mod 100) 10).
  lia.
Qed.

Lemma match_m_two_digits {A : Type} (m : nat) (rest : string)
  (k : nat -> string -> option A) (x : A) :
  1 <= m <= 12 -> k m rest = Some x ->
  match_m (two_digits m ++ rest) k = Some x.
Proof.
  intros Hm Hk.
  do 13 (destruct m as [|m];
         [try lia; try (vm_compute; vm_compute in Hk; rewrite Hk; reflexivity)|]).
  lia.
Qed.

Lemma match_d_two_digits {A : Type} (d : nat) (rest : string)
  (k : nat -> string -> option A) (x : A) :
  1 <= d <= 31 -> k d rest = Some x ->
  match_d (two_digits d ++ rest) k = Some x.
Proof.
  intros Hd Hk.
  do 32 (destruct d as [|d];
         [try lia; try (vm_compute; vm_compute in Hk; rewrite Hk; reflexivity)|]).
  lia.
Qed.

Lemma valid_date_bounds (y m d : nat) :
  valid_date y m d = true -> 1 <= y <= 9999 /\ 1 <= m <= 12 /\ 1 <= d <= 31.
Proof.
  unfold valid_date. rewrite !andb_true_iff, !Nat.leb_le.
  intros [[[[[H1 H2] H3] H4] H5] H6]. repeat split; try assumption.
  unfold days_in_month in H6. clear H2.
  do 13 (destruct m as [|m]; [try destruct (is_leap y); lia|]). lia.
Qed.

Lemma is_leap_iff (y : nat) : is_leap y = true <-> leap_year y.
Proof.
  unfold is_leap, leap_year.
  rewrite orb_true_iff, andb_true_iff, negb_true_iff, !Nat.eqb_eq, Nat.eqb_neq.
  reflexivity.
Qed.

(** The range check of the [date] constructor is the calendar. *)
Lemma valid_date_iff (y m d : nat) :
  valid_date y m d = true <-> calendar_date y m d.
Proof.
  unfold valid_date, calendar_date.
  rewrite !andb_true_iff, !Nat.leb_le.
  pose proof (is_leap_iff y) as Hleap.
  assert (Hm : m = 0 \/ m = 1 \/ m = 2 \/ m = 3 \/ m = 4 \/ m = 5 \/ m = 6
               \/ m = 7 \/ m = 8 \/ m = 9 \/ m = 10 \/ m = 11 \/ m = 12
               \/ 13 <= m) by lia.
  split.
  - intros [[[[[H1 H2] H3] H4] H5] H6].
    decompose [or] Hm; clear Hm; try lia; subst m;
      cbn [days_in_month] in H6;
      try (repeat split; try lia; intros; lia).
    destruct (is_leap y) eqn:E.
    + repeat split; try lia; try (intros; lia).
      intros _ Hn. exfalso. apply Hn, Hleap. reflexivity.
    + repeat split; try lia; intros; lia.
  - intros ((H1 & H2) & (H3 & H4) & (H5 & H6) & H30 & H29 & H28).
    repeat split; try assumption.
    decompose [or] Hm; clear Hm; try lia; subst m; cbn [days_in_month];
      try lia.
    destruct (is_leap y) eqn:E; [lia|].
    apply H28; [reflexivity|].
    intros Hl. apply Hleap in Hl. congruence.
Qed.

(** [strptime] reads the two written forms of a calendar date. *)
Lemma strptime_Ymd_text (y m d : nat) :
  valid_date y m d = true ->
  strptime_Ymd (ymd_text y m d) = Some (mkdate y m d).
Proof.
  intros Hv. destruct (valid_date_bounds y m d Hv) as (Hy & Hm & Hd).
  unfold strptime_Ymd, ymd_text.
  rewrite match_Y_four_digits by apply Hy.
  cbn [append match_lit Ascii.eqb Bool.eqb].
  rewrite (match_m_two_digits m _ _ (y, m, d, "")); [| exact Hm |].
  - cbn [finish String.eqb]. unfold make_date. rewrite Hv. reflexivity.
  - cbn [append match_lit Ascii.eqb Bool.eqb].
    change (two_digits d) with (two_digits d ++ "")%string.
    apply match_d_two_digits; [exact Hd | reflexivity].
Qed.

Lemma strptime_dmY_text (y m d : nat) :
  valid_date y m d = true ->
  strptime_dmY (dmy_text d m y) = Some (mkdate y m d).
Proof.
  intros Hv. destruct (valid_date_bounds y m d Hv) as (Hy & Hm & Hd).
  unfold strptime_dmY, dmy_text.
  rewrite (match_d_two_digits d _ _ (y, m, d, "")); [| exact Hd |].
  - cbn [finish String.eqb]. unfold make_date. rewrite Hv. reflexivity.
  - apply match_m_two_digits; [exact Hm|].
    change (four_digits y) with (four_digits y ++ "")%string.
    rewrite match_Y_four_digits by apply Hy. reflexivity.
Qed.

(** From the year 1000 on, [%Y] writes four digits. *)
Lemma str_of_nat_four_digits (y : nat) :
  1000 <= y <= 9999 -> str_of_nat y = four_digits y.
Proof.
  rewrite max_year. intros Hy.
  assert (Hall : forallb (fun y => String.eqb (str_of_nat y) (four_digits y))
                         (seq 1000 (9 * 1000)) = true)
    by (vm_compute; reflexivity).
  rewrite forallb_forall in Hall.
  apply String.eqb_eq, Hall, in_seq. lia.
Qed.

Lemma strftime_dmY_text (y m d : nat) :
  1000 <= y <= 9999 -> strftime_dmY (mkdate y m d) = dmy_text d m y.
Proof.
  intros Hy. unfold strftime_dmY, strftime_Y, dmy_text. cbn [year month day].
  rewrite (str_of_nat_four_digits y Hy). reflexivity.
Qed.

Lemma strftime_Ymd_text (y m d : nat) :
  1000 <= y <= 9999 -> strftime_Ymd (mkdate y m d) = ymd_text y m d.
Proof.
  intros Hy. unfold strftime_Ymd, strftime_Y, ymd_text. cbn [year month day].
  rewrite (str_of_nat_four_digits y Hy). reflexivity.
Qed.

(** The two conversions of the API undo each other on a calendar date
    from the year 1000 on. *)
Lemma dep_date_round_trip (y m d : nat) :
  valid_date y m d = true -> 1000 <= y ->
  dep_date_stored (VStr (ymd_text y m d)) = VStr (dmy_text d m y)
  /\ dep_date_display (VStr (dmy_text d m y)) = VStr (ymd_text y m d).
Proof.
  intros Hv Hy. destruct (valid_date_bounds y m d Hv) as ((_ & Hy') & _).
  unfold dep_date_stored, dep_date_display.
  rewrite (strptime_Ymd_text y m d Hv), (strptime_dmY_text y m d Hv).
  rewrite strftime_dmY_text, strftime_Ymd_text by (split; assumption).
  split; reflexivity.
Qed.

(** ** Ordinal dates *)



(** *** What [strptime] has read when it returns *)

Lemma between_digit (lo hi : nat) (a : ascii) (rest : string) :
  48 <= lo -> hi <= 57 -> between lo hi a = true ->
  match_digit (String a rest) = Some (digit_val a, rest).
Proof.
  intros Hlo Hhi H. unfold between in H.
  apply andb_true_iff in H. destruct H as [H1 H2].
  apply Nat.leb_le in H1, H2.
  assert (Hd : nat_of_ascii a - 48 < 10) by lia.
  assert (Ha : a = digit_char (nat_of_ascii a - 48)).
  { unfold digit_char.
    replace (48 + (nat_of_ascii a - 48)) with (nat_of_ascii a) by lia.
    symmetry. apply ascii_nat_embedding. }
  unfold digit_val. rewrite Ha at 1. apply match_digit_char. exact Hd.
Qed.

Lemma between_val (n : nat) (a : ascii) :
  between n n a = true -> digit_val a = n - 48.
Proof.
  unfold between, digit_val. rewrite andb_true_iff, !Nat.leb_le. lia.
Qed.

Lemma match_Y_inv {A : Type} (s : string) (k : nat -> string -> option A)
  (x : A) :
  match_Y s k = Some x ->
  exists dy rest,
    decimal_prefix s dy rest /\ List.length dy = 4
    /\ k (number dy) rest = Some x.
Proof.
  unfold match_Y.
  destruct (match_digit s) as [[a r1]|] eqn:E1; [|discriminate].
  destruct (match_digit r1) as [[b r2]|] eqn:E2; [|discriminate].
  destruct (match_digit r2) as [[c r3]|] eqn:E3; [|discriminate].
  destruct (match_digit r3) as [[d r4]|] eqn:E4; [|discriminate].
  intros H. exists [a; b; c; d], r4. split; [|split; [reflexivity|]].
  - eapply prefix_cons; [exact E1|]. eapply prefix_cons; [exact E2|].
    eapply prefix_cons; [exact E3|]. eapply prefix_cons; [exact E4|].
    constructor.
  - replace (number [a; b; c; d]) with (1000 * a + 100 * b + 10 * c + d);
      [exact H|].
    unfold number. cbn [fold_left]. lia.
Qed.

Lemma prefix_one (lo hi : nat) (a : ascii) (rest : string) :
  48 <= lo -> hi <= 57 -> between lo hi a = true ->
  decimal_prefix (String a rest) [digit_val a] rest.
Proof.
  intros Hlo Hhi H. eapply prefix_cons; [|constructor].
  exact (between_digit lo hi a rest Hlo Hhi H).
Qed.

Lemma prefix_two (lo hi lo' hi' : nat) (a b : ascii) (rest : string) :
  48 <= lo -> hi <= 57 -> 48 <= lo' -> hi' <= 57 ->
  between lo hi a = true -> between lo' hi' b = true ->
  decimal_prefix (String a (String b rest)) [digit_val a; digit_val b] rest.
Proof.
  intros Hlo Hhi Hlo' Hhi' Ha Hb. eapply prefix_cons.
  - exact (between_digit lo hi a _ Hlo Hhi Ha).
  - exact (prefix_one lo' hi' b rest Hlo' Hhi' Hb).
Qed.

Lemma number_two (a b : nat) : number [a; b] = 10 * a + b.
Proof.
  unfold number. cbn [fold_left]. lia.
Qed.

Lemma number_one (a : nat) : number [a] = a.
Proof.
  unfold number. cbn [fold_left]. lia.
Qed.

Lemma match_m_inv {A : Type} (s : string) (k : nat -> string -> option A)
  (x : A) :
  match_m s k = Some x ->
  exists dm rest,
    decimal_prefix s dm rest /\ 1 <= List.length dm <= 2
    /\ k (number dm) rest = Some x.
Proof.
  unfold match_m, orelse.
  destruct s as [|a r]; [discriminate|].
  destruct r as [|b rest].
  - destruct (between 49 57 a) eqn:E; [|discriminate].
    intros H. exists [digit_val a], "". split; [|split; [cbn; lia|]].
    + apply (prefix_one 49 57); [lia|lia|exact E].
    + rewrite number_one. exact H.
  - destruct (between 49 49 a && between 48 50 b) eqn:E1.
    + apply andb_true_iff in E1. destruct E1 as [Ea Eb].
      destruct (k (10 + digit_val b) rest) as [x1|] eqn:K1.
      * intros [= <-]. exists [digit_val a; digit_val b], rest.
        split; [|split; [cbn; lia|]].
        -- apply (prefix_two 49 49 48 50); try lia; assumption.
        -- rewrite number_two, (between_val 49 a Ea). exact K1.
      * assert (E2 : between 48 48 a = false).
        { unfold between in *. apply andb_true_iff in Ea.
          destruct Ea as [Ea _]. apply Nat.leb_le in Ea.
          apply andb_false_iff. right. apply Nat.leb_gt. lia. }
        rewrite E2. cbn [andb].
        destruct (between 49 57 a) eqn:E3; [|discriminate].
        intros H. exists [digit_val a], (String b rest).
        split; [|split; [cbn; lia|]].
        -- apply (prefix_one 49 57); [lia|lia|exact E3].
        -- rewrite number_one. exact H.
    + destruct (between 48 48 a && between 49 57 b) eqn:E2.
      * apply andb_true_iff in E2. destruct E2 as [Ea Eb].
        destruct (k (digit_val b) rest) as [x1|] eqn:K1.
        -- intros [= <-]. exists [digit_val a; digit_val b], rest.
           split; [|split; [cbn; lia|]].
           ++ apply (prefix_two 48 48 49 57); try lia; assumption.
           ++ rewrite number_two, (between_val 48 a Ea). exact K1.
        -- destruct (between 49 57 a) eqn:E3; [|discriminate].
           intros H. exists [digit_val a], (String b rest).
           split; [|split; [cbn; lia|]].
           ++ apply (prefix_one 49 57); [lia|lia|exact E3].
           ++ rewrite number_one. exact H.
      * destruct (between 49 57 a) eqn:E3; [|discriminate].
        intros H. exists [digit_val a], (String b rest).
        split; [|split; [cbn; lia|]].
        -- apply (prefix_one 49 57); [lia|lia|exact E3].
        -- rewrite number_one. exact H.
Qed.

(** The five alternatives of [%d], one after the other. *)
Lemma match_d_inv {A : Type} (s : string) (k : nat -> string -> option A)
  (x : A) :
  match_d s k = Some x ->
  exists s0 dd rest,
    (s = s0 \/ s = String " " s0)
    /\ decimal_prefix s0 dd rest /\ 1 <= List.length dd <= 2
    /\ k (number dd) rest = Some x.
Proof.
  unfold match_d.
  set (alt1 := match s with
               | String a (String b rest) =>
                   if between 51 51 a && between 48 49 b
                   then k (30 + digit_val b) rest else None
               | _ => None
               end).
  set (alt2 := match s with
               | String a r =>
                   if between 49 50 a then
                     match match_digit r with
                     | Some (b, rest) => k (10 * digit_val a + b) rest
                     | None => None
                     end
                   else None
               | _ => None
               end).
  set (alt3 := match s with
               | String a (String b rest) =>
                   if between 48 48 a && between 49 57 b
                   then k (digit_val b) rest else None
               | _ => None
               end).
  set (alt4 := match s with
               | String a rest =>
                   if between 49 57 a then k (digit_val a) rest else None
               | _ => None
               end).
  set (alt5 := match s with
               | String a (String b rest) =>
                   if between 32 32 a && between 49 57 b
                   then k (digit_val b) rest else None
               | _ => None
               end).
  assert (H1 : forall y, alt1 = Some y ->
                 exists s0 dd rest,
                   (s = s0 \/ s = String " " s0)
                   /\ decimal_prefix s0 dd rest /\ 1 <= List.length dd <= 2
                   /\ k (number dd) rest = Some y).
  { subst alt1. intros y. destruct s as [|a [|b rest]]; try discriminate.
    destruct (between 51 51 a && between 48 49 b) eqn:E; [|discriminate].
    apply andb_true_iff in E. destruct E as [Ea Eb]. intros H.
    exists (String a (String b rest)), [digit_val a; digit_val b], rest.
    split; [left; reflexivity|]. split; [|split; [cbn; lia|]].
    - apply (prefix_two 51 51 48 49); try lia; assumption.
    - rewrite number_two, (between_val 51 a Ea). exact H. }
  assert (H2 : forall y, alt2 = Some y ->
                 exists s0 dd rest,
                   (s = s0 \/ s = String " " s0)
                   /\ decimal_prefix s0 dd rest /\ 1 <= List.length dd <= 2
                   /\ k (number dd) rest = Some y).
  { subst alt2. intros y. destruct s as [|a r]; try discriminate.
    destruct (between 49 50 a) eqn:Ea; [|discriminate].
    destruct (match_digit r) as [[b rest]|] eqn:Eb; [|discriminate].
    intros H. exists (String a r), [digit_val a; b], rest.
    split; [left; reflexivity|]. split; [|split; [cbn; lia|]].
    - eapply prefix_cons.
      + exact (between_digit 49 50 a r ltac:(lia) ltac:(lia) Ea).
      + eapply prefix_cons; [exact Eb|constructor].
    - rewrite number_two. exact H. }
  assert (H3 : forall y, alt3 = Some y ->
                 exists s0 dd rest,
                   (s = s0 \/ s = String " " s0)
                   /\ decimal_prefix s0 dd rest /\ 1 <= List.length dd <= 2
                   /\ k (number dd) rest = Some y).
  { subst alt3. intros y. destruct s as [|a [|b rest]]; try discriminate.
    destruct (between 48 48 a && between 49 57 b) eqn:E; [|discriminate].
    apply andb_true_iff in E. destruct E as [Ea Eb]. intros H.
    exists (String a (String b rest)), [digit_val a; digit_val b], rest.
    split; [left; reflexivity|]. split; [|split; [cbn; lia|]].
    - apply (prefix_two 48 48 49 57); try lia; assumption.
    - rewrite number_two, (between_val 48 a Ea). exact H. }
  assert (H4 : forall y, alt4 = Some y ->
                 exists s0 dd rest,
                   (s = s0 \/ s = String " " s0)
                   /\ decimal_prefix s0 dd rest /\ 1 <= List.length dd <= 2
                   /\ k (number dd) rest = Some y).
  { subst alt4. intros y. destruct s as [|a rest]; try discriminate.
    destruct (between 49 57 a) eqn:Ea; [|discriminate]. intros H.
    exists (String a rest), [digit_val a], rest.
    split; [left; reflexivity|]. split; [|split; [cbn; lia|]].
    - apply (prefix_one 49 57); [lia|lia|exact Ea].
    - rewrite number_one. exact H. }
  assert (H5 : forall y, alt5 = Some y ->
                 exists s0 dd rest,
                   (s = s0 \/ s = String " " s0)
                   /\ decimal_prefix s0 dd rest /\ 1 <= List.length dd <= 2
                   /\ k (number dd) rest = Some y).
  { subst alt5. intros y. destruct s as [|a [|b rest]]; try discriminate.
    destruct (between 32 32 a && between 49 57 b) eqn:E; [|discriminate].
    apply andb_true_iff in E. destruct E as [Ea Eb]. intros H.
    exists (String b rest), [digit_val b], rest.
    split; [right|split; [|split; [cbn; lia|]]].
    - f_equal. unfold between in Ea.
      apply andb_true_iff in Ea. destruct Ea as [E1 E2].
      apply Nat.leb_le in E1, E2.
      rewrite <- (ascii_nat_embedding a).
      replace (nat_of_ascii a) with 32 by lia. reflexivity.
    - apply (prefix_one 49 57); [lia|lia|exact Eb].
    - rewrite number_one. exact H. }
  clearbody alt1 alt2 alt3 alt4 alt5. unfold orelse.
  destruct alt1; [intros [= <-]; auto|].
  destruct alt2; [intros [= <-]; auto|].
  destruct alt3; [intros [= <-]; auto|].
  destruct alt4; [intros [= <-]; auto|].
  destruct alt5; [intros [= <-]; auto|discriminate].
Qed.

(** A text [strptime] accepts as [%d%m%Y] reads as day, month and year
    of a calendar date. *)
Lemma strptime_dmY_reads (s : string) (dt : datetime) :
  strptime_dmY s = Some dt ->
  reads_as s (day dt) (month dt) (year dt)
  /\ valid_date (year dt) (month dt) (day dt) = true.
Proof.
  unfold strptime_dmY, finish.
  destruct (match_d s _) as [[[[y mo] d] rest]|] eqn:E; [|discriminate].
  destruct (String.eqb_spec rest "") as [->|]; [|discriminate].
  unfold make_date. destruct (valid_date y mo d) eqn:Hv; [|discriminate].
  intros [= <-]. cbn [year month day]. split; [|exact Hv].
  apply match_d_inv in E.
  destruct E as (s0 & dd & s1 & Hs & Hdd & Hld & E).
  apply match_m_inv in E. destruct E as (dm & s2 & Hdm & Hlm & E).
  apply match_Y_inv in E. destruct E as (dy & s3 & Hdy & Hly & E).
  injection E as <- <- <- ->.
  exists s0, s1, s2, dd, dm, dy. repeat split; auto; lia.
Qed.


(** ** Generated codes *)

Lemma random_choice_code_char (draw : nat) : code_char (random_choice draw) = true.
Proof.
  unfold random_choice.
  assert (H : draw mod String.length alphabet < 36)
    by (apply Nat.mod_upper_bound; discriminate).
  generalize dependent (draw mod String.length alphabet). intros n H.
  do 36 (destruct n as [|n]; [reflexivity|]). lia.
Qed.

Lemma join_choices_length (n : nat) (r : rng) (pos : nat) :
  String.length (join_choices n r pos) = n.
Proof.
  revert pos. induction n as [|n IH]; intros pos; simpl; auto.
Qed.

Lemma join_choices_code_chars (n : nat) (r : rng) (pos : nat) :
  code_chars (join_choices n r pos) = true.
Proof.
  revert pos. induction n as [|n IH]; intros pos; cbn [join_choices code_chars].
  - reflexivity.
  - rewrite random_choice_code_char, IH. reflexivity.
Qed.

Lemma upper_code_char (c : ascii) : code_char c = true -> upper_char c = c.
Proof.
  destruct c as [[|] [|] [|] [|] [|] [|] [|] [|]];
    vm_compute; congruence.
Qed.

Lemma upper_code_chars (s : string) : code_chars s = true -> upper s = s.
Proof.
  induction s as [|c s IH]; cbn [code_chars upper]; [reflexivity|].
  rewrite andb_true_iff. intros [Hc Hs].
  rewrite (upper_code_char c Hc), (IH Hs). reflexivity.
Qed.

(** What the collision loop returns is one of the codes drawn, six
    characters of the alphabet, and not a key of the store. *)
Lemma fresh_code_spec (fuel : nat) (user_data : store) (r : rng)
  (pos : nat) (code : string) (pos' : nat) :
  fresh_code fuel user_data r pos = Some (code, pos') ->
  String.length code = 6
  /\ code_chars code = true
  /\ store_get code user_data = None.
Proof.
  revert pos. induction fuel as [|fuel IH]; intros pos; cbn [fresh_code];
    [discriminate|].
  pose proof (join_choices_length 6 r pos) as Hlen.
  pose proof (join_choices_code_chars 6 r pos) as Hchars.
  fold (generate_code 6 r pos) in Hlen, Hchars.
  remember (generate_code 6 r pos) as c eqn:Hc. clear Hc.
  destruct (store_mem c user_data) eqn:E.
  - apply IH.
  - intros H. injection H as Hcode _. subst code.
    split; [exact Hlen|]. split; [exact Hchars|].
    unfold store_mem, assoc_mem in E. unfold store_get.
    destruct (assoc_get String.eqb c user_data); [discriminate|reflexivity].
Qed.

(** The loop ends as soon as a drawn code is free: if draw number [k] is
    the first free one, [k + 1] rounds return it. *)
Lemma fresh_code_terminates (user_data : store) (r : rng) (k pos fuel : nat) :
  (forall j, j < k ->
             store_mem (generate_code 6 r (pos + 6 * j)) user_data = true) ->
  store_mem (generate_code 6 r (pos + 6 * k)) user_data = false ->
  k < fuel ->
  fresh_code fuel user_data r pos
  = Some (generate_code 6 r (pos + 6 * k), pos + 6 * k + 6).
Proof.
  revert pos fuel. induction k as [|k IH]; intros pos fuel Hbusy Hfree Hfuel;
    (destruct fuel as [|fuel]; [lia|]); cbn [fresh_code].
  - replace (pos + 6 * 0) with pos in * by lia. rewrite Hfree. reflexivity.
  - pose proof (Hbusy 0 ltac:(lia)) as H0.
    replace (pos + 6 * 0) with pos in H0 by lia. rewrite H0.
    rewrite (IH (pos + 6) fuel).
    + replace (pos + 6 + 6 * k) with (pos + 6 * S k) by lia. reflexivity.
    + intros j Hj. specialize (Hbusy (S j) ltac:(lia)).
      replace (pos + 6 + 6 * j) with (pos + 6 * S j) by lia. exact Hbusy.
    + replace (pos + 6 + 6 * k) with (pos + 6 * S k) by lia. exact Hfree.
    + lia.
Qed.

(** ** Finishing the wizard *)

Lemma length_append (s t : string) :
  String.length (s ++ t) = String.length s + String.length t.
Proof.
  induction s as [|c s IH]; simpl; auto.
Qed.

Lemma substring_append (s t : string) :
  substring (String.length s) (String.length t) (s ++ t) = t.
Proof.
  induction s as [|c s IH]; simpl; [|exact IH].
  induction t as [|c t IH]; simpl; [reflexivity|]. rewrite IH. reflexivity.
Qed.

Lemma endswith_append (s suffix : string) : endswith (s ++ suffix) suffix = true.
Proof.
  unfold endswith. rewrite length_append.
  replace (String.length s + String.length suffix - String.length suffix)
    with (String.length s) by lia.
  rewrite substring_append, String.eqb_refl, andb_true_r.
  apply Nat.leb_le. lia.
Qed.

Lemma is_real_pending (k : string) (v : value) :
  endswith k "_pending" = true -> is_real k v = false.
Proof.
  intros H. unfold is_real. rewrite H. cbn [negb].
  rewrite andb_false_r. reflexivity.
Qed.

(** Writing a [_pending] key never changes the set of real flights. *)
Lemma get_real_flights_set_pending (k : string) (v : value) (s : store) :
  endswith k "_pending" = true ->
  get_real_flights (store_set k v s) = get_real_flights s.
Proof.
  intros Hk. unfold get_real_flights, store_set.
  induction s as [|[k' v'] s IH]; cbn [assoc_set filter fst snd].
  - rewrite (is_real_pending k v Hk). reflexivity.
  - destruct (String.eqb_spec k k') as [<-|Hne]; cbn [filter fst snd].
    + rewrite !(is_real_pending k _ Hk). reflexivity.
    + rewrite IH. reflexivity.
Qed.

Lemma dict_mem_set (k k' : key) (v : value) (d : dict) :
  dict_mem k (dict_set k' v d) = key_eqb k k' || dict_mem k d.
Proof.
  unfold dict_mem, assoc_mem. fold dict_get. fold (dict_set k' v d).
  rewrite dict_get_set. destruct (key_eqb k k'); reflexivity.
Qed.

Lemma key_eqb_seen (k k' : key) (seen : list key) :
  key_eqb k k' = true ->
  existsb (key_eqb k) seen = existsb (key_eqb k') seen.
Proof.
  intros E. induction seen as [|x seen IH]; cbn [existsb]; [reflexivity|].
  rewrite IH. f_equal.
  rewrite (key_eqb_sym k x), (key_eqb_sym k' x).
  apply (eqb_congr_r key_eqb key_eqb_sym key_eqb_trans). exact E.
Qed.

(** Writing the items of [d] over [d0]: a key of [d] gets the value it
    has in [d], every other key keeps the value it has in [d0]. *)
Lemma dict_get_write_live (k : key) (d : dict) :
  forall (seen : list key) (d0 : dict),
    dict_get k (fold_left (fun acc kv => dict_set (fst kv) (snd kv) acc)
                          (live seen d) d0)
    = if existsb (key_eqb k) seen then dict_get k d0
      else match dict_get k d with
           | Some v => Some v
           | None => dict_get k d0
           end.
Proof.
  induction d as [|[k' v'] d IH]; intros seen d0; cbn [live fold_left].
  - destruct (existsb (key_eqb k) seen); reflexivity.
  - unfold dict_get at 3. cbn [assoc_get]. fold (dict_get k d).
    destruct (existsb (key_eqb k') seen) eqn:Es.
    + rewrite IH.
      destruct (existsb (key_eqb k) seen) eqn:Ek; [reflexivity|].
      destruct (key_eqb k k') eqn:E; [|reflexivity].
      rewrite (key_eqb_seen k k' seen E) in Ek. congruence.
    + cbn [fold_left fst snd]. rewrite IH. cbn [existsb].
      rewrite dict_get_set.
      destruct (key_eqb k k') eqn:E; cbn [orb].
      * rewrite (key_eqb_seen k k' seen E), Es. reflexivity.
      * destruct (existsb (key_eqb k) seen); reflexivity.
Qed.

Lemma dict_get_update (k : key) (d0 d : dict) :
  dict_get k (dict_update d0 d)
  = match dict_get k d with
    | Some v => Some v
    | None => dict_get k d0
    end.
Proof.
  unfold dict_update. rewrite dict_get_write_live. reflexivity.
Qed.

Lemma dict_mem_update (k : key) (d0 d : dict) :
  dict_mem k (dict_update d0 d) = dict_mem k d0 || dict_mem k d.
Proof.
  unfold dict_mem, assoc_mem. fold dict_get. fold (dict_update d0 d).
  rewrite dict_get_update.
  destruct (dict_get k d), (dict_get k d0); reflexivity.
Qed.

Lemma flight_entry_has_flight_number (code : string) (user_id : Z)
  (d : dict) (now_iso : string) :
  dict_mem "flight_number" d = true ->
  dict_mem "flight_number" (flight_entry code user_id d now_iso) = true.
Proof.
  intros H. unfold flight_entry. rewrite !dict_mem_set, dict_mem_update, H.
  rewrite !orb_true_r. reflexivity.
Qed.

(** The defaults written after [**entry] win over anything the session
    carried under the same keys. *)
Lemma flight_entry_defaults (code : string) (user_id : Z) (d : dict)
  (now_iso : string) :
  let fe := flight_entry code user_id d now_iso in
  sub_get "gate" "dep" fe = Some (VStr "N/A")
  /\ sub_get "gate" "arr" fe = Some (VStr "N/A")
  /\ dict_get "meal_service" fe = Some (VStr "N/A")
  /\ dict_get "status" fe = Some (VStr "N/A")
  /\ dict_get "alerts" fe = Some (VStr "N/A").
Proof.
  unfold flight_entry, sub_get. cbn zeta.
  repeat split;
    repeat (rewrite dict_get_set; cbn [key_eqb String.eqb Ascii.eqb Bool.eqb]);
    reflexivity.
Qed.

(** The keys the dict display of [yes_button] writes after [**entry]. *)
Definition default_keys : list key :=
  [ KStr "gate"; KStr "meal_service"; KStr "status"; KStr "alerts";
    KStr "server"; KStr "event"; KStr "public_message_id";
    KStr "admin_message_id"; KStr "created_at" ].

(** The nine defaults of the record, whatever the session holds. *)
Lemma flight_entry_default_values (code : string) (user_id : Z) (d : dict)
  (now_iso : string) :
  let fe := flight_entry code user_id d now_iso in
  dict_get "gate" fe
  = Some (VDict [(KStr "dep", VStr "N/A"); (KStr "arr", VStr "N/A")])
  /\ dict_get "meal_service" fe = Some (VStr "N/A")
  /\ dict_get "status" fe = Some (VStr "N/A")
  /\ dict_get "alerts" fe = Some (VStr "N/A")
  /\ dict_get "server" fe = Some (VDict [(KStr "link", VStr "N/A")])
  /\ dict_get "event" fe = Some (VDict [(KStr "link", VStr "N/A")])
  /\ dict_get "public_message_id" fe = Some VNone
  /\ dict_get "admin_message_id" fe = Some VNone
  /\ dict_get "created_at" fe = Some (VStr (now_iso ++ "Z")).
Proof.
  unfold flight_entry. cbn zeta.
  repeat split;
    repeat (rewrite dict_get_set; cbn [key_eqb String.eqb Ascii.eqb Bool.eqb]);
    reflexivity.
Qed.

(** Every other key of the record holds what the session holds under
    it; [code] and [host_user_id] are the new code and the submitter's
    id when the session has no field of that name. *)
Lemma flight_entry_session_fields (code : string) (user_id : Z) (d : dict)
  (now_iso : string) (k : key) :
  existsb (key_eqb k) default_keys = false ->
  dict_get k (flight_entry code user_id d now_iso)
  = match dict_get k d with
    | Some v => Some v
    | None =>
        dict_get k [ (KStr "code", VStr code);
                     (KStr "host_user_id", VInt user_id) ]
    end.
Proof.
  intros Hk. unfold default_keys in Hk. cbn [existsb] in Hk.
  repeat (apply orb_false_elim in Hk;
          let E := fresh "E" in destruct Hk as [E Hk]).
  unfold flight_entry. cbn zeta.
  repeat (rewrite dict_get_set;
          match goal with
          | E : key_eqb k ?x = false |- context [key_eqb k ?x] => rewrite E
          end).
  apply dict_get_update.
Qed.

Lemma append_neq (s t : string) : t <> "" -> s <> (s ++ t)%string.
Proof.
  intros Ht H. apply (f_equal String.length) in H.
  rewrite length_append in H. destruct t; [congruence|simpl in H; lia].
Qed.

(** C1, as the code has it: pressing Yes on the last step, with a session
    dict holding a flight number under the submitter's id, adds exactly
    one real flight, under a code of six characters that was free.  The
    record carries the nine defaults whatever the session holds under
    their names ("N/A" for both gates, the meal service, the status, the
    alerts and the links, no message ids, the time of creation); every
    other field of the record is the session's field of that name, and
    [code] and [host_user_id] are the new code and the submitter's id
    unless the session has fields of these names.  The session is also
    stored under [{id}_pending]; the plain id key is not removed: it
    still holds the session; every other key of the store is unchanged. *)
Theorem yes_button_finalizes (r : rng) (pos fuel : nat) (now_iso : string)
  (user_id : Z) (user_data : store) (d : dict) (code : string) (pos' : nat) :
  store_get (str_of_int user_id) user_data = Some (VDict d) ->
  dict_mem "flight_number" d = true ->
  fresh_code fuel user_data r pos = Some (code, pos') ->
  exists user_data' fe,
    yes_button r pos fuel now_iso user_id true user_id user_data
    = Some (user_data', Saved code)
    /\ (String.length code = 6 /\ code_chars code = true
        /\ store_get code user_data = None)
    /\ store_get code user_data' = Some (VDict fe)
    /\ get_real_flights user_data'
       = (get_real_flights user_data ++ [(code, VDict fe)])%list
    /\ (dict_get "gate" fe
        = Some (VDict [(KStr "dep", VStr "N/A"); (KStr "arr", VStr "N/A")])
        /\ dict_get "meal_service" fe = Some (VStr "N/A")
        /\ dict_get "status" fe = Some (VStr "N/A")
        /\ dict_get "alerts" fe = Some (VStr "N/A")
        /\ dict_get "server" fe = Some (VDict [(KStr "link", VStr "N/A")])
        /\ dict_get "event" fe = Some (VDict [(KStr "link", VStr "N/A")])
        /\ dict_get "public_message_id" fe = Some VNone
        /\ dict_get "admin_message_id" fe = Some VNone
        /\ dict_get "created_at" fe = Some (VStr (now_iso ++ "Z")))
    /\ (forall k : key,
          existsb (key_eqb k) default_keys = false ->
          dict_get k fe
          = match dict_get k d with
            | Some v => Some v
            | None =>
                dict_get k [ (KStr "code", VStr code);
                             (KStr "host_user_id", VInt user_id) ]
            end)
    /\ store_get (str_of_int user_id ++ "_pending") user_data'
       = Some (VDict d)
    /\ store_get (str_of_int user_id) user_data' = Some (VDict d)
    /\ (forall k : string,
          k <> code -> k <> (str_of_int user_id ++ "_pending")%string ->
          store_get k user_data' = store_get k user_data).
Proof.
  intros Hsession Hfn Hfresh.
  destruct (fresh_code_spec _ _ _ _ _ _ Hfresh) as (Hlen & Hchars & Hfree).
  set (fe := flight_entry code user_id d now_iso).
  set (pend := (str_of_int user_id ++ "_pending")%string).
  assert (Hpend : endswith pend "_pending" = true) by apply endswith_append.
  assert (Hcp : code <> pend).
  { intros ->. apply endswith_length in Hpend. simpl in Hpend. lia. }
  assert (Hcu : str_of_int user_id <> code) by congruence.
  assert (Hup : str_of_int user_id <> pend)
    by (apply append_neq; discriminate).
  exists (store_set pend (VDict d) (store_set code (VDict fe) user_data)), fe.
  split; [|split; [auto|split; [|split; [|split; [|split; [|split; [|split]]]]]]].
  - unfold yes_button. rewrite Z.eqb_refl. cbn [negb].
    rewrite Hsession, Hfresh. reflexivity.
  - rewrite store_get_set_other by exact Hcp. apply store_get_set_same.
  - rewrite get_real_flights_set_pending by exact Hpend.
    unfold store_set at 1.
    rewrite (assoc_set_fresh String.eqb code (VDict fe) user_data Hfree).
    unfold get_real_flights. rewrite filter_app. cbn [filter fst snd].
    assert (Hreal : is_real code (VDict fe) = true).
    { apply is_real_iff. split; [|split].
      - exists fe. split; [reflexivity|].
        apply flight_entry_has_flight_number. exact Hfn.
      - exact Hlen.
      - destruct (endswith code "_pending") eqn:E; [|reflexivity].
        apply endswith_length in E. simpl in E. lia. }
    rewrite Hreal. reflexivity.
  - apply flight_entry_default_values.
  - intros k Hk. apply flight_entry_session_fields. exact Hk.
  - apply store_get_set_same.
  - rewrite !store_get_set_other by assumption. exact Hsession.
  - intros k Hkc Hkp. rewrite !store_get_set_other by assumption. reflexivity.
Qed.

Lemma yes_button_finalizes_witness :
  exists user_data' fe,
    yes_button counting_rng 0 1 "2025-09-01T12:00:00" 123456789 true
               123456789 wizard_store
    = Some (user_data', Saved "ABCDEF")
    /\ get_real_flights user_data'
       = (get_real_flights wizard_store ++ [("ABCDEF", VDict fe)])%list
    /\ dict_get "flight_number" fe = Some (VStr "AC8815")
    /\ dict_get "status" fe = Some (VStr "N/A")
    /\ store_get "123456789_pending" user_data' = Some sample_session
    /\ store_get "123456789" user_data' = Some sample_session
    /\ store_get "AB12CD" user_data' = Some sample_flight.
Proof.
  destruct (yes_button_finalizes counting_rng 0 1 "2025-09-01T12:00:00"
              123456789 wizard_store
              [ (KStr "flight_number", VStr "AC8815");
                (KStr "dep_city", VStr "Toronto");
                (KStr "dep_date", VStr "21092025");
                (KStr "terminal", VStr "1");
                (KStr "aircraft", VStr "B77W");
                (KStr "dep_time", VStr "18:15") ] "ABCDEF" 6)
    as (user_data' & fe & Hrun & _ & _ & Hreal & Hdef & Hses & Hpend & Hkey
        & Hframe).
  - reflexivity.
  - reflexivity.
  - reflexivity.
  - exists user_data', fe. split; [exact Hrun|]. split; [exact Hreal|].
    split; [|split; [|split; [|split]]].
    + rewrite (Hses (KStr "flight_number")); reflexivity.
    + apply Hdef.
    + exact Hpend.
    + exact Hkey.
    + rewrite (Hframe "AB12CD"); [reflexivity|discriminate|discriminate].
Defined.

(** C1 as stated fails twice.  After the finalization the store has the
    [_pending] key and still has the plain id key, with the same session;
    and a session that carries a status of its own gets a record whose
    status is "N/A" all the same. *)
Lemma yes_button_keeps_session_key :
  (exists user_data',
     yes_button counting_rng 0 1 "2025-09-01T12:00:00" 123456789 true
                123456789 wizard_store
     = Some (user_data', Saved "ABCDEF")
     /\ store_mem "123456789_pending" user_data' = true
     /\ store_mem "123456789" user_data' = true
     /\ store_get "123456789" user_data' = Some sample_session)
  /\ dict_get "status"
       (flight_entry "ABCDEF" 123456789
          [ (KStr "flight_number", VStr "AC8815");
            (KStr "status", VStr "Delayed") ] "2025-09-01T12:00:00")
     = Some (VStr "N/A").
Proof.
  split; [|reflexivity].
  eexists. split; [reflexivity|]. repeat split.
Qed.

(** ** POST, then GET *)




Lemma announce_created_spec (guilds : list guild) (code : string) (e : dict)
  (dd : value) (user_data : store) :
  code <> "_day_msgs" ->
  store_get code user_data = Some (VDict e) ->
  exists user_data' e',
    announce_created guilds code (VDict e) dd user_data = (user_data', VDict e')
    /\ store_get code user_data' = Some (VDict e')
    /\ (e' = e \/ exists msg_id,
                    e' = dict_set "admin_message_id" (VStr msg_id) e).
Proof.
  intros Hc Hget. unfold announce_created.
  destruct guilds as [|g _]; [eauto 6|].
  pose proof (post_or_update_day_schedule_frame g dd user_data code Hc) as Hf.
  rewrite Hget in Hf.
  destruct (admin_channel g); [|eauto 6].
  destruct (admin_send g) as [msg_id|]; [|eauto 6].
  do 2 eexists. split; [reflexivity|]. split; [|eauto].
  apply store_get_set_same.
Qed.

Lemma serialize_entry_dep_date (code : string) (d : dict) (json : value) :
  serialize_entry code (VDict d) = Ok json ->
  exists j, json = VDict j
            /\ dict_get "dep_date" j
               = Some (dep_date_display (get_default "dep_date" (VStr "") d))
            /\ dict_get "dep_date_raw" j
               = Some (get_default "dep_date" (VStr "") d)
            /\ dict_get "code" j = Some (VStr code).
Proof.
  unfold serialize_entry, get_nested. cbn [py_get bind].
  destruct (get_default "gate" (VDict []) d); cbn [py_get bind];
    try discriminate;
    destruct (get_default "server" (VDict []) d); cbn [py_get bind];
    try discriminate;
    destruct (get_default "event" (VDict []) d); cbn [py_get bind];
    try discriminate.
  intros [= <-]. eexists. split; [reflexivity|]. repeat split.
Qed.

Lemma code_not_day_msgs (code : string) :
  String.length code = 6 -> code <> "_day_msgs".
Proof.
  intros H ->. discriminate.
Qed.




(** ** How long a generated code is *)

Lemma new_entry_dict (body : value) (code : string) (dd : value)
  (now_iso : string) (entry : value) :
  new_entry body code dd now_iso = Ok entry -> exists e, entry = VDict e.
Proof.
  unfold new_entry.
  repeat match goal with
         | |- context [bind ?x _] =>
             destruct x; cbn [bind]; try discriminate
         end.
  intros [= <-]. eauto.
Qed.

(** C2, as the code has it: the code of a flight, whether created by
    [POST /api/flights] or by the last Yes of the wizard, has six
    characters of [A-Z0-9], was not a key of the store (the loop draws
    again while it is) and is a key of the store afterwards; the
    reference code of an error report has seven characters of the same
    alphabet and is not compared with the store. *)
Theorem generated_code_lengths :
  (forall guilds r pos fuel now_iso session user_data body user_data' json,
      create_flight guilds r pos fuel now_iso session user_data body
      = Some (user_data', Ok json) ->
      exists code,
        py_get json "code" VNone = Ok (VStr code)
        /\ String.length code = 6
        /\ code_chars code = true
        /\ store_get code user_data = None
        /\ store_mem code user_data' = true)
  /\ (forall r pos fuel now_iso user_id last presser user_data user_data' code,
        yes_button r pos fuel now_iso user_id last presser user_data
        = Some (user_data', Saved code) ->
        String.length code = 6
        /\ code_chars code = true
        /\ store_get code user_data = None
        /\ store_mem code user_data' = true)
  /\ (forall r pos,
        String.length (handle_exception_and_report r pos) = 7
        /\ code_chars (handle_exception_and_report r pos) = true).
Proof.
  split; [|split].
  - intros guilds r pos fuel now_iso session user_data body user_data' json.
    unfold create_flight.
    destruct (require_auth session); [|intros [= _ H]; discriminate].
    destruct (missing_fields body required) as [[|? ?]|];
      try (intros [= _ H]; discriminate).
    destruct (fresh_code fuel user_data r pos) as [[code pos']|] eqn:Hfresh;
      [|discriminate].
    destruct (fresh_code_spec _ _ _ _ _ _ Hfresh) as (Hlen & Hchars & Hfree).
    destruct (py_index body "dep_date") as [raw|];
      [|intros [= _ H]; discriminate].
    cbn zeta.
    destruct (new_entry body code (dep_date_stored raw) now_iso)
      as [entry|] eqn:Hnew; [|intros [= _ H]; discriminate].
    destruct (new_entry_dict _ _ _ _ _ Hnew) as [e ->].
    destruct (announce_created_spec guilds code e (dep_date_stored raw)
                (store_set code (VDict e) user_data)
                (code_not_day_msgs code Hlen) (store_get_set_same _ _ _))
      as (ud2 & e' & Hann & Hget & _).
    rewrite Hann. intros [= <- Hjson].
    destruct (serialize_entry_dep_date code e' json Hjson)
      as (j & -> & _ & _ & Hjc).
    exists code. repeat split; auto.
    + cbn [py_get]. unfold get_default. rewrite Hjc. reflexivity.
    + unfold store_mem, assoc_mem. fold (store_get code ud2).
      rewrite Hget. reflexivity.
  - intros r pos fuel now_iso user_id last presser user_data user_data' code.
    unfold yes_button.
    destruct (negb (presser =? user_id)%Z); [discriminate|].
    destruct last; [|discriminate].
    destruct (store_get (str_of_int user_id) user_data) as [entry|];
      [|discriminate].
    destruct (fresh_code fuel user_data r pos) as [[c pos']|] eqn:Hfresh;
      [|destruct entry; discriminate].
    destruct entry as [| | | | |d]; try discriminate.
    intros [= <- <-].
    destruct (fresh_code_spec _ _ _ _ _ _ Hfresh) as (Hlen & Hchars & Hfree).
    repeat split; auto.
    unfold store_mem, assoc_mem. fold store_get.
    rewrite store_get_set_other.
    + rewrite store_get_set_same. reflexivity.
    + intros ->.
      pose proof (endswith_append (str_of_int user_id) "_pending") as E.
      apply endswith_length in E. simpl in E. lia.
  - intros r pos. unfold handle_exception_and_report, generate_ref_code.
    split; [apply join_choices_length | apply join_choices_code_chars].
Qed.

(** C2 as stated fails: the code the wizard gives a finished flight has
    six characters, not seven (and only a six-character key counts as a
    real flight). *)
Lemma wizard_code_is_six_long :
  exists user_data' code,
    yes_button counting_rng 0 1 "2025-09-01T12:00:00" 123456789 true
               123456789 wizard_store
    = Some (user_data', Saved code)
    /\ String.length code = 6
    /\ String.length code <> 7
    /\ In code (map fst (get_real_flights user_data')).
Proof.
  exists (store_set "123456789_pending" sample_session
            (store_set "ABCDEF"
               (VDict (flight_entry "ABCDEF" 123456789
                         [ (KStr "flight_number", VStr "AC8815");
                           (KStr "dep_city", VStr "Toronto");
                           (KStr "dep_date", VStr "21092025");
                           (KStr "terminal", VStr "1");
                           (KStr "aircraft", VStr "B77W");
                           (KStr "dep_time", VStr "18:15") ]
                         "2025-09-01T12:00:00"))
               wizard_store)), "ABCDEF".
  split; [reflexivity|]. split; [reflexivity|]. split; [discriminate|].
  simpl. auto.
Qed.

(** ** Session tokens *)

Section SessionFacts.

Variable SECRET_KEY : string.
Variable hmac_sha256_hexdigest : string -> string -> string.
Variable json_dumps : value -> string.
Variable json_loads : string -> option value.
Variable urlsafe_b64encode : string -> string.
Variable urlsafe_b64decode : string -> option string.

Local Abbreviation sign :=
  (_sign SECRET_KEY hmac_sha256_hexdigest json_dumps urlsafe_b64encode).
Local Abbreviation verify :=
  (_verify SECRET_KEY hmac_sha256_hexdigest json_loads urlsafe_b64decode).

Lemma rsplit_dot_no_dot (s : string) : has_dot s = false -> rsplit_dot s = None.
Proof.
  induction s as [|c s IH]; cbn [has_dot rsplit_dot]; [reflexivity|].
  rewrite orb_false_iff. intros [Hc Hs]. rewrite (IH Hs), Hc. reflexivity.
Qed.

Lemma rsplit_dot_append (b64 sig : string) :
  has_dot sig = false -> rsplit_dot (b64 ++ "." ++ sig) = Some (b64, sig).
Proof.
  intros Hsig. induction b64 as [|c b64 IH]; cbn [append rsplit_dot].
  - rewrite (rsplit_dot_no_dot sig Hsig). reflexivity.
  - cbn [append] in IH. rewrite IH. reflexivity.
Qed.

Lemma expired_iff (e : Z) (now : Q) :
  expired (VInt e) now = Some true <-> (inject_Z e < now)%Q.
Proof.
  unfold expired. split.
  - intros [= H]. apply negb_true_iff in H.
    apply Qnot_le_lt. intros Hle. apply Qle_bool_iff in Hle. congruence.
  - intros Hlt. f_equal. apply negb_true_iff.
    destruct (Qle_bool now (inject_Z e)) eqn:E; [|reflexivity].
    apply Qle_bool_iff in E. exfalso. exact (Qlt_not_le _ _ Hlt E).
Qed.

(** C10, as the code has it, for whatever the library functions are.
    A payload dict whose [exp] is an int not earlier than the clock, and
    which survives the JSON and base64 round trips of the library, is
    returned as it is by [_verify(_sign(payload))].  [_verify] returns
    None on a token without a dot, on a token whose part after the last
    dot is not the digest of the part before it, and on a token whose
    payload carries an [exp] earlier than the clock; it is a total
    function, so no token makes it raise. *)
Theorem verify_sign_and_reject (now : Q) :
  (forall payload d e,
      payload = VDict d ->
      dict_get "exp" d = Some (VInt e) ->
      (now <= inject_Z e)%Q ->
      json_loads (json_dumps payload) = Some payload ->
      urlsafe_b64decode (urlsafe_b64encode (json_dumps payload))
      = Some (json_dumps payload) ->
      has_dot (hmac_sha256_hexdigest SECRET_KEY
                 (urlsafe_b64encode (json_dumps payload))) = false ->
      verify now (sign payload) = Some payload)
  /\ (forall token, rsplit_dot token = None -> verify now token = None)
  /\ (forall token b64 sig,
        rsplit_dot token = Some (b64, sig) ->
        sig <> hmac_sha256_hexdigest SECRET_KEY b64 ->
        verify now token = None)
  /\ (forall token e,
        embedded_exp json_loads urlsafe_b64decode token = Some (VInt e) ->
        (inject_Z e < now)%Q ->
        verify now token = None).
Proof.
  split; [|split; [|split]].
  - intros payload d e -> Hexp Hnow Hjson Hb64 Hdot.
    unfold _verify, _sign. cbn zeta.
    rewrite (rsplit_dot_append _ _ Hdot), String.eqb_refl. cbn [negb].
    rewrite Hb64, Hjson. cbn [py_get]. unfold get_default. rewrite Hexp.
    destruct (expired (VInt e) now) as [[|]|] eqn:E.
    + apply expired_iff in E. exfalso. exact (Qlt_not_le _ _ E Hnow).
    + reflexivity.
    + discriminate.
  - intros token H. unfold _verify. rewrite H. reflexivity.
  - intros token b64 sig H Hne. unfold _verify. rewrite H.
    apply String.eqb_neq in Hne. rewrite Hne. reflexivity.
  - intros token e. unfold embedded_exp, _verify.
    destruct (rsplit_dot token) as [[b64 sig]|]; [|discriminate].
    destruct (urlsafe_b64decode b64) as [raw|]; [|discriminate].
    destruct (json_loads raw) as [[| | | | |d]|]; try discriminate.
    intros [= Hexp] Hlt.
    destruct (negb _); [reflexivity|].
    cbn [py_get]. rewrite Hexp.
    apply expired_iff in Hlt. rewrite Hlt. reflexivity.
Qed.

End SessionFacts.

Lemma verify_sign_and_reject_witness :
  _verify sample_key checksum_hex exp_loads plain_decode (999 # 1)
    (_sign sample_key checksum_hex exp_dumps plain_encode sample_payload)
  = Some sample_payload
  /\ _verify sample_key checksum_hex exp_loads plain_decode (999 # 1)
       "exp=1000.00000" = None
  /\ _verify sample_key checksum_hex exp_loads plain_decode (1001 # 1)
       (_sign sample_key checksum_hex exp_dumps plain_encode sample_payload)
     = None.
Proof.
  split; [|split].
  - apply (verify_sign_and_reject sample_key checksum_hex exp_dumps exp_loads
             plain_encode plain_decode (999 # 1))
      with (d := [(KStr "exp", VInt 1000)]) (e := 1000%Z);
      try reflexivity.
    unfold Qle. simpl. lia.
  - apply (verify_sign_and_reject sample_key checksum_hex exp_dumps exp_loads
             plain_encode plain_decode (999 # 1))
      with (b64 := "exp=1000") (sig := "00000"); [reflexivity|].
    vm_compute. discriminate.
  - apply (verify_sign_and_reject sample_key checksum_hex exp_dumps exp_loads
             plain_encode plain_decode (1001 # 1)) with (e := 1000%Z);
      [reflexivity|]. unfold Qlt. simpl. lia.
Defined.

(** C10 as stated fails at the boundary: a correctly signed token whose
    [exp] equals the clock reading is not later than the current time,
    and [_verify] returns its payload, not None (the test is
    [exp < time.time()]). *)
Lemma verify_accepts_exp_now :
  let token :=
    _sign sample_key checksum_hex exp_dumps plain_encode sample_payload in
  embedded_exp exp_loads plain_decode token = Some (VInt 1000)
  /\ (inject_Z 1000 <= 1000 # 1)%Q
  /\ ~ (1000 # 1 < inject_Z 1000)%Q
  /\ _verify sample_key checksum_hex exp_loads plain_decode (1000 # 1) token
     = Some sample_payload.
Proof.
  cbn zeta. split; [reflexivity|]. split; [|split; [|reflexivity]].
  - unfold Qle. simpl. lia.
  - unfold Qlt. simpl. lia.
Qed.

(** * Properties of the other endpoints *)

(** ** Deleting a flight *)

Lemma store_get_del_same (k : string) (s : store) :
  store_get k (store_del k s) = None.
Proof.
  unfold store_get, store_del.
  induction s as [|[k' v] s IH]; cbn [filter assoc_get fst]; [reflexivity|].
  destruct (String.eqb k k') eqn:E; cbn [negb assoc_get]; [exact IH|].
  rewrite E. exact IH.
Qed.

Lemma store_get_del_other (k k' : string) (s : store) :
  k <> k' -> store_get k (store_del k' s) = store_get k s.
Proof.
  intros Hk. unfold store_get, store_del.
  induction s as [|[k2 v] s IH]; cbn [filter assoc_get fst]; [reflexivity|].
  destruct (String.eqb_spec k' k2) as [<-|Hne]; cbn [negb assoc_get].
  - apply String.eqb_neq in Hk. rewrite Hk. exact IH.
  - rewrite IH. reflexivity.
Qed.

Lemma get_real_flights_del (k : string) (s : store) :
  get_real_flights (store_del k s) = store_del k (get_real_flights s).
Proof.
  unfold get_real_flights, store_del.
  induction s as [|[k' v] s IH]; cbn [filter fst snd]; [reflexivity|].
  destruct (String.eqb k k') eqn:E, (is_real k' v) eqn:R;
    cbn [negb filter fst snd]; rewrite ?E, ?R; cbn [negb];
    rewrite IH; reflexivity.
Qed.

Lemma dict_truthy (d : dict) (k : key) :
  dict_mem k d = true -> truthy (VDict d) = true.
Proof.
  destruct d; [discriminate|reflexivity].
Qed.

Lemma lookup_flight_dict (user_data : store) (code : string) (d : dict) :
  store_get code user_data = Some (VDict d) ->
  dict_mem "flight_number" d = true ->
  lookup_flight user_data code = Ok (VDict d).
Proof.
  intros Hget Hfn. unfold lookup_flight. rewrite Hget.
  rewrite (dict_truthy d _ Hfn). cbn [negb py_in bind]. rewrite Hfn.
  reflexivity.
Qed.



(** ** Statistics *)

Lemma count_step_raise (l : store) (e : exn) :
  fold_left count_step l (Raise e) = Raise e.
Proof.
  induction l as [|ce l IH]; [reflexivity|exact IH].
Qed.

Lemma assoc_get_key_congr {V : Type} (a b : key) (c : list (key * V)) :
  key_eqb a b = true -> assoc_get key_eqb a c = assoc_get key_eqb b c.
Proof.
  intros Hab. induction c as [|[k v] c IH]; cbn [assoc_get]; [reflexivity|].
  rewrite (key_eqb_sym a k), (key_eqb_sym b k).
  rewrite (eqb_congr_r key_eqb key_eqb_sym key_eqb_trans k a b Hab).
  destruct (key_eqb k b); [reflexivity|exact IH].
Qed.

Lemma count_get_set (k k' : key) (n : Z) (c : counts) :
  count_get k (assoc_set key_eqb k' n c)
  = if key_eqb k k' then n else count_get k c.
Proof.
  unfold count_get.
  rewrite (assoc_get_set key_eqb key_eqb_sym key_eqb_trans).
  destruct (key_eqb k k'); reflexivity.
Qed.

Lemma count_loop (l : store) (c c' : counts) :
  fold_left count_step l (Ok c) = Ok c' ->
  forall k, count_get k c' = (count_get k c + tally k l)%Z.
Proof.
  revert c. induction l as [|ce l IH]; intros c H k; cbn [fold_left] in H.
  - injection H as <-. cbn [tally]. lia.
  - cbn [tally]. unfold count_step at 2 in H. cbn [bind] in H.
    unfold counted_status.
    destruct (py_get (snd ce) "status" (VStr "N/A")) as [sv|e]; cbn [bind] in *;
      [|rewrite count_step_raise in H; discriminate].
    destruct (hash_key sv) as [k0|e]; cbn [bind] in *;
      [|rewrite count_step_raise in H; discriminate].
    rewrite (IH _ H k), count_get_set.
    destruct (key_eqb k k0) eqn:E; [|lia].
    unfold count_get. rewrite (assoc_get_key_congr k k0 c E). lia.
Qed.

Lemma tally_nonneg (k : key) (l : store) : (0 <= tally k l)%Z.
Proof.
  induction l as [|ce l IH]; cbn [tally]; [lia|].
  destruct (counted_status (snd ce)) as [k'|]; [destruct (key_eqb k k')|]; lia.
Qed.

(** The six statuses the counters of the answer read. *)
Lemma six_counters (l : store) :
  (tally "Ended" l + tally "On–Time" l + tally "Cancelled" l
   + tally "N/A" l + tally "Rescheduled" l + tally "Delayed" l
   <= Z.of_nat (List.length l))%Z
  /\ (Forall (fun ce => exists k, counted_status (snd ce) = Ok k
                                  /\ existsb (key_eqb k) VALID_STATUSES = true) l ->
      (tally "Ended" l + tally "On–Time" l + tally "Cancelled" l
       + tally "N/A" l + tally "Rescheduled" l + tally "Delayed" l
       = Z.of_nat (List.length l))%Z).
Proof.
  induction l as [|ce l [IH1 IH2]].
  - split; [cbn; lia|intros _; reflexivity].
  - cbn [tally List.length]. rewrite Nat2Z.inj_succ.
    destruct (counted_status (snd ce)) as [k'|e] eqn:Hk.
    + assert (Hone :
        ((if key_eqb "Ended" k' then 1 else 0)
         + (if key_eqb "On–Time" k' then 1 else 0)
         + (if key_eqb "Cancelled" k' then 1 else 0)
         + (if key_eqb "N/A" k' then 1 else 0)
         + (if key_eqb "Rescheduled" k' then 1 else 0)
         + (if key_eqb "Delayed" k' then 1 else 0) <= 1)%Z
        /\ (existsb (key_eqb k') VALID_STATUSES = true ->
            ((if key_eqb "Ended" k' then 1 else 0)
             + (if key_eqb "On–Time" k' then 1 else 0)
             + (if key_eqb "Cancelled" k' then 1 else 0)
             + (if key_eqb "N/A" k' then 1 else 0)
             + (if key_eqb "Rescheduled" k' then 1 else 0)
             + (if key_eqb "Delayed" k' then 1 else 0) = 1)%Z)).
      { destruct k' as [| | |t]; cbn [key_eqb VALID_STATUSES existsb orb];
          try (split; [lia|discriminate]).
        rewrite !(String.eqb_sym t).
        destruct (String.eqb_spec "Ended" t) as [<-|];
          [split; [reflexivity|reflexivity]|].
        destruct (String.eqb_spec "On–Time" t) as [<-|];
          [split; [reflexivity|reflexivity]|].
        destruct (String.eqb_spec "Cancelled" t) as [<-|];
          [split; [reflexivity|reflexivity]|].
        destruct (String.eqb_spec "N/A" t) as [<-|];
          [split; [reflexivity|reflexivity]|].
        destruct (String.eqb_spec "Rescheduled" t) as [<-|];
          [split; [reflexivity|reflexivity]|].
        destruct (String.eqb_spec "Delayed" t) as [<-|];
          [split; [reflexivity|reflexivity]|].
        split; [lia|discriminate]. }
      destruct Hone as [Hle Heq]. split; [lia|].
      intros Hall. inversion Hall as [|? ? (k2 & Hk2 & Hv) Hrest]; subst.
      rewrite Hk in Hk2. injection Hk2 as <-.
      specialize (IH2 Hrest). specialize (Heq Hv). lia.
    + split; [lia|].
      intros Hall. inversion Hall as [|? ? (k2 & Hk2 & _) _]; subst.
      rewrite Hk in Hk2. discriminate.
Qed.

(** X2.  When [GET /api/stats] answers, its counters are the numbers of
    real flights whose status (["N/A"] when absent) is the one they
    stand for: [ended] counts "Ended", [accepted] "On-Time", [denied]
    "Cancelled", [pending] "N/A", "Rescheduled" and "Delayed" together,
    and [total] is the number of real flights less the ended ones.  So
    no counter is negative, [accepted + denied + pending] never exceeds
    [total], and the two are equal when every real flight has one of
    the six statuses PATCH accepts. *)
Theorem get_stats_counters (session : option value) (user_data : store)
  (json : value) :
  get_stats session user_data = Ok json ->
  let real := get_real_flights user_data in
  exists total ended accepted denied pending : Z,
    exists statuses : dict,
    json = VDict [ (KStr "total", VInt total); (KStr "ended", VInt ended);
                   (KStr "accepted", VInt accepted);
                   (KStr "denied", VInt denied);
                   (KStr "pending", VInt pending);
                   (KStr "statuses", VDict statuses) ]
    /\ ended = tally "Ended" real
    /\ accepted = tally "On–Time" real
    /\ denied = tally "Cancelled" real
    /\ pending = (tally "N/A" real + tally "Rescheduled" real
                  + tally "Delayed" real)%Z
    /\ (total + ended = Z.of_nat (List.length real))%Z
    /\ (0 <= total /\ 0 <= ended /\ 0 <= accepted /\ 0 <= denied
        /\ 0 <= pending)%Z
    /\ (accepted + denied + pending <= total)%Z
    /\ (Forall (fun ce => exists k, counted_status (snd ce) = Ok k
                          /\ existsb (key_eqb k) VALID_STATUSES = true) real ->
        (accepted + denied + pending = total)%Z).
Proof.
  unfold get_stats. intros H. cbv zeta in H.
  destruct (require_auth session) as [s|]; cbn [bind] in H; [|discriminate].
  destruct (fold_left count_step _ _) as [statuses|] eqn:Hloop;
    cbn [bind] in H; [|discriminate].
  injection H as <-. cbv zeta.
  pose proof (count_loop _ _ _ Hloop) as Hc.
  assert (Hz : forall k, count_get k statuses
                         = tally k (get_real_flights user_data)).
  { intros k. rewrite Hc. unfold count_get. cbn [assoc_get]. lia. }
  destruct (six_counters (get_real_flights user_data)) as [Hle Heq].
  pose proof (tally_nonneg "Ended" (get_real_flights user_data)).
  pose proof (tally_nonneg "On–Time" (get_real_flights user_data)).
  pose proof (tally_nonneg "Cancelled" (get_real_flights user_data)).
  pose proof (tally_nonneg "N/A" (get_real_flights user_data)).
  pose proof (tally_nonneg "Rescheduled" (get_real_flights user_data)).
  pose proof (tally_nonneg "Delayed" (get_real_flights user_data)).
  do 6 eexists. split; [reflexivity|].
  rewrite !Hz.
  split; [reflexivity|]. split; [reflexivity|]. split; [reflexivity|].
  split; [reflexivity|]. split; [lia|]. split; [lia|]. split; [lia|].
  intros Hall. specialize (Heq Hall). lia.
Qed.

Lemma get_stats_counters_witness :
  exists json total ended,
    get_stats sample_auth busy_store = Ok json
    /\ py_get json "total" VNone = Ok (VInt total)
    /\ py_get json "ended" VNone = Ok (VInt ended)
    /\ (total + ended = 2)%Z.
Proof.
  destruct (get_stats_counters sample_auth busy_store
              (VDict [ (KStr "total", VInt 1); (KStr "ended", VInt 1);
                       (KStr "accepted", VInt 0); (KStr "denied", VInt 0);
                       (KStr "pending", VInt 1);
                       (KStr "statuses",
                        VDict [ (KStr "Delayed", VInt 1);
                                (KStr "Ended", VInt 1) ]) ])
              eq_refl)
    as (total & ended & accepted & denied & pending & statuses & Hjson & _
        & _ & _ & _ & Hsum & _).
  exists (VDict [ (KStr "total", VInt 1); (KStr "ended", VInt 1);
                  (KStr "accepted", VInt 0); (KStr "denied", VInt 0);
                  (KStr "pending", VInt 1);
                  (KStr "statuses",
                   VDict [ (KStr "Delayed", VInt 1);
                           (KStr "Ended", VInt 1) ]) ]), total, ended.
  split; [reflexivity|].
  rewrite Hjson. split; [reflexivity|]. split; [reflexivity|].
  rewrite Hsum. reflexivity.
Defined.

(** ** Listing and fetching *)

Lemma store_get_In (k : string) (v : value) (s : store) :
  store_get k s = Some v -> In (k, v) s.
Proof.
  unfold store_get.
  induction s as [|[k' v'] s IH]; cbn [assoc_get]; [discriminate|].
  destruct (String.eqb_spec k k') as [->|_].
  - intros [= ->]. left. reflexivity.
  - intros H. right. exact (IH H).
Qed.

(** The comprehension of [get_flights] returns when every record
    serializes, and then item by item. *)
Lemma serialize_all_ok (real : store) (items : list value) :
  serialize_all real = Ok items
  <-> Forall2 (fun ce item => serialize_entry (fst ce) (snd ce) = Ok item)
              real items.
Proof.
  revert items. induction real as [|[k v] real IH]; intros items;
    cbn [serialize_all].
  - split.
    + intros [= <-]. constructor.
    + intros H. inversion H. reflexivity.
  - split.
    + destruct (serialize_entry k v) as [item|e] eqn:E; cbn [bind];
        [|discriminate].
      destruct (serialize_all real) as [rest|e]; cbn [bind]; [|discriminate].
      intros [= <-]. constructor; [exact E|]. apply IH. reflexivity.
    + intros H. inversion H as [|? item ? rest Hitem Hrest]; subst.
      cbn [fst snd] in Hitem. rewrite Hitem. cbn [bind].
      apply IH in Hrest. rewrite Hrest. reflexivity.
Qed.

(** One record that does not serialize ends it with the AttributeError
    of [serialize_entry]. *)
Lemma serialize_all_fails (real : store) (ce : string * value) (e : exn) :
  In ce real -> serialize_entry (fst ce) (snd ce) = Raise e ->
  serialize_all real = Raise AttributeError.
Proof.
  induction real as [|[k v] real IH]; cbn [serialize_all In]; [tauto|].
  intros Hin He.
  destruct (serialize_entry k v) as [item|e0] eqn:E; cbn [bind].
  - destruct Hin as [<-|Hin]; [cbn [fst snd] in He; congruence|].
    rewrite (IH Hin He). reflexivity.
  - rewrite (serialize_entry_raises _ _ _ E). reflexivity.
Qed.

Lemma serialize_all_raise_inv (real : store) (e : exn) :
  serialize_all real = Raise e ->
  e = AttributeError
  /\ exists ce, In ce real
                /\ serialize_entry (fst ce) (snd ce) = Raise AttributeError.
Proof.
  induction real as [|[k v] real IH]; cbn [serialize_all]; [discriminate|].
  destruct (serialize_entry k v) as [item|e0] eqn:E; cbn [bind].
  - destruct (serialize_all real) as [rest|e1]; cbn [bind]; [discriminate|].
    intros [= <-]. destruct (IH eq_refl) as (-> & ce & Hin & He).
    split; [reflexivity|]. exists ce. split; [right; exact Hin|exact He].
  - intros [= <-]. pose proof (serialize_entry_raises _ _ _ E) as ->.
    split; [reflexivity|]. exists (k, v). split; [left; reflexivity|exact E].
Qed.

Lemma Forall2_In_l {A B : Type} (R : A -> B -> Prop) (l : list A)
  (l' : list B) (a : A) :
  Forall2 R l l' -> In a l -> exists b, R a b /\ In b l'.
Proof.
  induction 1 as [|x y l l' Hxy _ IH]; cbn [In]; [tauto|].
  intros [<-|Hin].
  - exists y. auto.
  - destruct (IH Hin) as (b & Hb & Hin'). exists b. auto.
Qed.

(** X3.  For an authorised caller [GET /api/flights] answers with a
    list exactly when every real flight serializes: the list then has
    one item per real flight, in the order of the store, each the
    serialization of its record, so that every real flight is an item.
    One real record that does not serialize makes the whole request fail
    with a server error.  [GET /api/flights/{code}] serves the same item
    when the key is its own uppercase, as every generated code is; a
    real flight stored under a key with lowercase letters is listed but
    answered with 404 when asked for by its code, unless the uppercased
    key exists too. *)
Theorem get_flights_items_served (session : option value) (s : value)
  (user_data : store) (code : string) (entry : value) :
  require_auth session = Ok s ->
  store_get code user_data = Some entry ->
  is_real code entry = true ->
  (forall items,
      get_flights session user_data = Ok (VList items)
      <-> Forall2 (fun ce item => serialize_entry (fst ce) (snd ce) = Ok item)
                  (get_real_flights user_data) items)
  /\ (forall items,
        get_flights session user_data = Ok (VList items) ->
        List.length items = List.length (get_real_flights user_data)
        /\ exists item, serialize_entry code entry = Ok item /\ In item items)
  /\ ((exists ce e, In ce (get_real_flights user_data)
                    /\ serialize_entry (fst ce) (snd ce) = Raise e)
      <-> get_flights session user_data = Raise AttributeError)
  /\ ((exists items, get_flights session user_data = Ok (VList items))
      \/ (get_flights session user_data = Raise AttributeError
          /\ status_code (get_flights session user_data) = 500))
  /\ (upper code = code ->
      get_flight session user_data code = serialize_entry code entry)
  /\ (store_get (upper code) user_data = None ->
      get_flight session user_data code = Raise (HTTPException 404)).
Proof.
  intros Hauth Hget Hreal.
  assert (Hrun : get_flights session user_data
                 = (items <- serialize_all (get_real_flights user_data) ;;
                    Ok (VList items))).
  { unfold get_flights. rewrite Hauth. reflexivity. }
  assert (Hin : In (code, entry) (get_real_flights user_data)).
  { unfold get_real_flights. apply filter_In. split.
    - apply store_get_In. exact Hget.
    - exact Hreal. }
  assert (Hok : forall items,
             get_flights session user_data = Ok (VList items)
             <-> Forall2 (fun ce item =>
                            serialize_entry (fst ce) (snd ce) = Ok item)
                         (get_real_flights user_data) items).
  { intros items. rewrite Hrun, <- serialize_all_ok.
    destruct (serialize_all (get_real_flights user_data)); cbn [bind].
    - split; intros [= ->]; reflexivity.
    - split; discriminate. }
  split; [exact Hok|]. split; [|split; [|split; [|split]]].
  - intros items H. apply Hok in H. split.
    + symmetry. exact (Forall2_length H).
    + exact (Forall2_In_l _ _ _ (code, entry) H Hin).
  - rewrite Hrun. split.
    + intros (ce & e & Hce & He).
      rewrite (serialize_all_fails _ ce e Hce He). reflexivity.
    + destruct (serialize_all (get_real_flights user_data)) as [items|e] eqn:E;
        cbn [bind]; [discriminate|].
      intros _. destruct (serialize_all_raise_inv _ _ E) as (_ & ce & H1 & H2).
      exists ce, AttributeError. auto.
  - rewrite Hrun.
    destruct (serialize_all (get_real_flights user_data)) as [items|e] eqn:E;
      cbn [bind].
    + left. exists items. reflexivity.
    + right. destruct (serialize_all_raise_inv _ _ E) as (-> & _).
      split; reflexivity.
  - intros Hup. unfold get_flight. rewrite Hauth, Hup. cbn [bind].
    rewrite (is_real_lookup _ _ _ Hget Hreal). reflexivity.
  - intros Hnone. unfold get_flight. rewrite Hauth. cbn [bind].
    unfold lookup_flight. rewrite Hnone. reflexivity.
Qed.

Lemma get_flights_items_served_witness :
  (exists items item,
     get_flights sample_auth sample_store = Ok (VList items)
     /\ serialize_entry "AB12CD" sample_flight = Ok item
     /\ In item items
     /\ get_flight sample_auth sample_store "AB12CD" = Ok item)
  /\ (exists items item,
        get_flights sample_auth lowercase_store = Ok (VList items)
        /\ serialize_entry "ab12cd" sample_flight = Ok item
        /\ In item items
        /\ get_flight sample_auth lowercase_store "ab12cd"
           = Raise (HTTPException 404)).
Proof.
  split.
  - destruct (get_flights_items_served sample_auth
                (VDict [ (KStr "user_id", VStr "42");
                         (KStr "has_role", VBool true);
                         (KStr "exp", VInt 2000000000) ])
                sample_store "AB12CD" sample_flight
                eq_refl eq_refl eq_refl)
      as (_ & H2 & _ & _ & H5 & _).
    destruct (H2 _ eq_refl) as (_ & item & Hitem & Hin).
    eexists. exists item. split; [reflexivity|]. split; [exact Hitem|].
    split; [exact Hin|]. rewrite <- Hitem. apply H5. reflexivity.
  - destruct (get_flights_items_served sample_auth
                (VDict [ (KStr "user_id", VStr "42");
                         (KStr "has_role", VBool true);
                         (KStr "exp", VInt 2000000000) ])
                lowercase_store "ab12cd" sample_flight
                eq_refl eq_refl eq_refl)
      as (_ & H2 & _ & _ & _ & H6).
    destruct (H2 _ eq_refl) as (_ & item & Hitem & Hin).
    eexists. exists item. split; [reflexivity|]. split; [exact Hitem|].
    split; [exact Hin|]. apply H6. reflexivity.
Defined.

(** ** Creating a flight: the required fields *)

Lemma missing_fields_filter (b : dict) (fields : list string) :
  missing_fields (VDict b) fields
  = Ok (filter (fun f : string => negb (truthy (get_default f VNone b))) fields).
Proof.
  induction fields as [|f fields IH]; cbn [missing_fields filter];
    [reflexivity|].
  cbn [py_get bind]. rewrite IH. cbn [bind].
  destruct (truthy (get_default f VNone b)); reflexivity.
Qed.



Lemma py_get_raises (v : value) (k : key) (dflt : value) (e : exn) :
  py_get v k dflt = Raise e -> e = AttributeError.
Proof.
  destruct v; cbn [py_get]; try discriminate; intros [= <-]; reflexivity.
Qed.



Lemma new_entry_subdicts (body : value) (code : string) (dd : value)
  (now_iso : string) (d : dict) :
  new_entry body code dd now_iso = Ok (VDict d) -> subdicts_ok d = true.
Proof.
  unfold new_entry.
  repeat match goal with
         | |- context [bind ?x _] =>
             destruct x; cbn [bind]; try discriminate
         end.
  intros [= <-]. reflexivity.
Qed.



(** ** PATCH twice *)

Lemma dict_set_same_value (k : key) (v : value) (d : dict) :
  dict_get k d = Some v -> dict_set k v d = d.
Proof.
  unfold dict_get, dict_set.
  induction d as [|[k' v'] d IH]; cbn [assoc_get assoc_set]; [discriminate|].
  destruct (key_eqb k k').
  - intros [= ->]. reflexivity.
  - intros H. rewrite (IH H). reflexivity.
Qed.

Lemma set_field_fixed (body : dict) (f : string) (d : dict) :
  (forall v, dict_get f body = Some v -> dict_get f d = Some v) ->
  set_field body f d = d.
Proof.
  intros H. unfold set_field.
  destruct (dict_get f body) as [v|]; [|reflexivity].
  apply dict_set_same_value. apply H. reflexivity.
Qed.

Lemma set_nested_fixed (body : dict) (f o i : string) (d : dict) :
  (forall v, dict_get f body = Some v -> sub_get o i d = Some v) ->
  set_nested body f o i d = d.
Proof.
  intros H. unfold set_nested.
  destruct (dict_get f body) as [v|]; [|reflexivity].
  specialize (H v eq_refl). unfold sub_get in H. unfold nested_set.
  destruct (dict_get o d) as [[| | | | |sub]|] eqn:Ho; try discriminate.
  rewrite (dict_set_same_value i v sub H).
  apply dict_set_same_value. exact Ho.
Qed.

Lemma patched_plain_field (body d : dict) (f : string) (v : value) :
  In f ["status"; "alerts"; "meal_service"] ->
  dict_get f body = Some v ->
  dict_get f (patched body d) = Some v.
Proof.
  intros Hf Hb. unfold patched.
  rewrite !dict_get_set_nested
    by (cbn [In] in Hf; decompose [or] Hf; subst; try reflexivity;
        contradiction).
  cbn [In] in Hf. decompose [or] Hf; subst; try contradiction;
    rewrite !dict_get_set_field; cbn [key_eqb String.eqb Ascii.eqb Bool.eqb];
    rewrite Hb; reflexivity.
Qed.

Lemma patched_nested_field (body d : dict) (f outer inner : string)
  (v : value) :
  subdicts_ok d = true ->
  In (f, outer, inner)
     [ ("gate_dep", "gate", "dep"); ("gate_arr", "gate", "arr");
       ("server_link", "server", "link"); ("event_link", "event", "link") ] ->
  dict_get f body = Some v ->
  sub_get outer inner (patched body d) = Some v.
Proof.
  intros Hok Hf Hb.
  assert (Hgk : subdict_ok "gate" d = true /\ subdict_ok "server" d = true
                /\ subdict_ok "event" d = true).
  { unfold subdicts_ok in Hok. rewrite !andb_true_iff in Hok. tauto. }
  destruct Hgk as (Hg & Hs & He).
  unfold patched.
  cbn [In] in Hf. decompose [or] Hf; try contradiction;
    match goal with H : (_, _, _) = (_, _, _) |- _ =>
      injection H as <- <- <- end;
    rewrite !sub_get_set_nested
      by (repeat apply subdict_ok_set_nested;
          repeat apply subdict_ok_set_field; auto);
    rewrite Hb; cbn [String.eqb Ascii.eqb Bool.eqb andb];
    repeat match goal with
           | |- context [match dict_get ?g body with _ => _ end] =>
               destruct (dict_get g body)
           end; reflexivity.
Qed.

Lemma patched_idempotent (body d : dict) :
  subdicts_ok d = true -> patched body (patched body d) = patched body d.
Proof.
  intros Hok.
  pose proof (patched_plain_field body d) as Hp.
  pose proof (fun f o i v => patched_nested_field body d f o i v Hok) as Hn.
  set (D := patched body d) in *.
  unfold patched at 1.
  rewrite (set_field_fixed body "status" D)
    by (intros v; apply Hp; cbn [In]; tauto).
  rewrite (set_field_fixed body "alerts" D)
    by (intros v; apply Hp; cbn [In]; tauto).
  rewrite (set_field_fixed body "meal_service" D)
    by (intros v; apply Hp; cbn [In]; tauto).
  rewrite (set_nested_fixed body "gate_dep" "gate" "dep" D)
    by (intros v; apply Hn; cbn [In]; tauto).
  rewrite (set_nested_fixed body "gate_arr" "gate" "arr" D)
    by (intros v; apply Hn; cbn [In]; tauto).
  rewrite (set_nested_fixed body "server_link" "server" "link" D)
    by (intros v; apply Hn; cbn [In]; tauto).
  apply set_nested_fixed. intros v; apply Hn; cbn [In]; tauto.
Qed.

Lemma patched_keeps_flight_number (body d : dict) :
  dict_mem "flight_number" d = true ->
  dict_mem "flight_number" (patched body d) = true.
Proof.
  unfold dict_mem, assoc_mem. fold dict_get. intros H.
  unfold patched.
  rewrite !dict_get_set_nested by reflexivity.
  rewrite !dict_get_set_field. cbn [key_eqb String.eqb Ascii.eqb Bool.eqb].
  exact H.
Qed.

(** What an accepted PATCH does: the record becomes [patched body d]
    and the answer is its serialization. *)
Lemma update_flight_patched (guilds : list guild) (session : option value)
  (s : value) (user_data : store) (code : string) (body d : dict) :
  require_auth session = Ok s ->
  store_get (upper code) user_data = Some (VDict d) ->
  dict_mem "flight_number" d = true ->
  subdicts_ok d = true ->
  (forall v, dict_get "status" body = Some v ->
             in_valid_statuses v = Ok true) ->
  exists user_data' json,
    update_flight guilds session user_data code (VDict body)
    = (user_data', Ok json)
    /\ serialize_entry (upper code) (VDict (patched body d)) = Ok json
    /\ store_get (upper code) user_data' = Some (VDict (patched body d)).
Proof.
  intros Hauth Hget Hfn Hok Hstatus.
  destruct (apply_fields_patched body d Hok) as [updated Hrun].
  destruct (serialize_entry_ok (upper code) (patched body d)
              (subdicts_ok_patched body d Hok)) as [json Hjson].
  eexists. exists json. split; [|split; [exact Hjson|]].
  - unfold update_flight.
    rewrite Hauth, (lookup_flight_dict _ _ _ Hget Hfn),
      (check_status_dict body Hstatus), Hrun, Hjson.
    reflexivity.
  - cbn [fst].
    destruct updated as [|u updated'].
    + apply store_get_set_same.
    + rewrite refresh_after_update_frame by apply upper_not_day_msgs.
      apply store_get_set_same.
Qed.

(** X6.  PATCH is idempotent on a well-formed record: sending the same
    accepted body a second time gives the same answer and leaves the
    record exactly as the first request left it. *)
Theorem update_flight_idempotent (guilds : list guild)
  (session : option value) (s : value) (user_data : store) (code : string)
  (body d : dict) :
  require_auth session = Ok s ->
  store_get (upper code) user_data = Some (VDict d) ->
  dict_mem "flight_number" d = true ->
  subdicts_ok d = true ->
  (forall v, dict_get "status" body = Some v ->
             in_valid_statuses v = Ok true) ->
  exists user_data1 user_data2 json,
    update_flight guilds session user_data code (VDict body)
    = (user_data1, Ok json)
    /\ update_flight guilds session user_data1 code (VDict body)
       = (user_data2, Ok json)
    /\ store_get (upper code) user_data2 = store_get (upper code) user_data1
    /\ store_get (upper code) user_data1 = Some (VDict (patched body d)).
Proof.
  intros Hauth Hget Hfn Hok Hstatus.
  destruct (update_flight_patched guilds session s user_data code body d
              Hauth Hget Hfn Hok Hstatus) as (ud1 & json & H1 & Hj1 & Hg1).
  destruct (update_flight_patched guilds session s ud1 code body
              (patched body d) Hauth Hg1
              (patched_keeps_flight_number body d Hfn)
              (subdicts_ok_patched body d Hok) Hstatus)
    as (ud2 & json2 & H2 & Hj2 & Hg2).
  rewrite (patched_idempotent body d Hok) in Hj2, Hg2.
  assert (json2 = json) by congruence. subst json2.
  exists ud1, ud2, json. repeat split; try assumption. congruence.
Qed.

Lemma update_flight_idempotent_witness :
  exists user_data1 user_data2 json,
    update_flight [sample_guild] sample_auth sample_store "ab12cd"
                  (VDict sample_patch) = (user_data1, Ok json)
    /\ update_flight [sample_guild] sample_auth user_data1 "ab12cd"
                     (VDict sample_patch) = (user_data2, Ok json)
    /\ store_get "AB12CD" user_data2 = store_get "AB12CD" user_data1.
Proof.
  destruct (update_flight_idempotent [sample_guild] sample_auth
              (VDict [ (KStr "user_id", VStr "42");
                       (KStr "has_role", VBool true);
                       (KStr "exp", VInt 2000000000) ])
              sample_store "ab12cd" sample_patch sample_fields
              eq_refl eq_refl eq_refl eq_refl)
    as (ud1 & ud2 & json & H1 & H2 & H3 & _).
  - intros v [= <-]. reflexivity.
  - exists ud1, ud2, json. repeat split; assumption.
Defined.

(** ** Reminders and announcements *)

Lemma get_nested_dict (d : dict) (outer inner : string) :
  subdict_ok outer d = true ->
  exists v, get_nested (VDict d) outer inner = Ok v.
Proof.
  unfold subdict_ok, get_nested. cbn [py_get bind]. unfold get_default.
  destruct (dict_get outer d) as [[| | | | |sub]|]; try discriminate;
    intros _; cbn [py_get]; eauto.
Qed.

(** X7.  [POST /api/flights/{code}/remind] for an existing flight whose
    [event] is a dict: with a [timestamp] that is missing, falsy or only
    white space the answer is 422 and nothing is posted; otherwise the
    answer is [{"sent": true, "code": CODE, "timestamp": stripped text}]
    whatever the gateway does - at most one message is posted, and the
    answer is the same when nothing was posted because there is no
    guild, no announcement channel, or sending raised. *)
Theorem send_reminder_api_answer (guilds : list announce_guild)
  (session : option value) (s : value) (user_data : store) (code : string)
  (d : dict) (body : value) (timestamp_text : string) :
  require_auth session = Ok s ->
  store_get (upper code) user_data = Some (VDict d) ->
  dict_mem "flight_number" d = true ->
  subdict_ok "event" d = true ->
  text_field body "timestamp" = Ok timestamp_text ->
  (timestamp_text = "" ->
   send_reminder_api guilds session user_data code body
   = ([], Raise (HTTPException 422)))
  /\ (timestamp_text <> "" ->
      exists event_link,
        get_nested (VDict d) "event" "link" = Ok event_link
        /\ snd (send_reminder_api guilds session user_data code body)
           = Ok (VDict [ (KStr "sent", VBool true);
                         (KStr "code", VStr (upper code));
                         (KStr "timestamp", VStr timestamp_text) ])
        /\ (fst (send_reminder_api guilds session user_data code body)
            = [Reminder (get_default "flight_number" (VStr "Unknown") d)
                        timestamp_text event_link]
            <-> exists g rest msg_id,
                  guilds = g :: rest /\ announce_channel g = true
                  /\ announce_send g = Some msg_id)
        /\ ((forall g rest msg_id,
               guilds = g :: rest -> announce_channel g = true ->
               announce_send g <> Some msg_id) ->
            fst (send_reminder_api guilds session user_data code body) = [])).
Proof.
  intros Hauth Hget Hfn Hev Hts.
  unfold send_reminder_api.
  rewrite Hauth, (lookup_flight_dict _ _ _ Hget Hfn), Hts.
  split.
  - intros ->. reflexivity.
  - intros Hne. apply String.eqb_neq in Hne. rewrite Hne.
    destruct (get_nested_dict d "event" "link" Hev) as [event_link Hlink].
    exists event_link. split; [exact Hlink|].
    cbn [py_get]. rewrite Hlink. cbn [fst snd].
    split; [reflexivity|]. split; [split|].
    + destruct guilds as [|g rest]; cbn [post_first]; [discriminate|].
      destruct (announce_channel g) eqn:Hch; [|discriminate].
      destruct (announce_send g) as [msg_id|] eqn:Hsend; [|discriminate].
      intros _. exists g, rest, msg_id. auto.
    + intros (g & rest & msg_id & -> & Hch & Hsend). cbn [post_first].
      rewrite Hch, Hsend. reflexivity.
    + intros Hno. destruct guilds as [|g rest]; cbn [post_first];
        [reflexivity|].
      destruct (announce_channel g) eqn:Hch; [|reflexivity].
      destruct (announce_send g) as [msg_id|] eqn:Hsend; [|reflexivity].
      exfalso. exact (Hno g rest msg_id eq_refl Hch Hsend).
Qed.

Lemma send_reminder_api_answer_witness :
  send_reminder_api [] sample_auth busy_store "qr57st"
    (VDict [(KStr "timestamp", VStr "   ")])
  = ([], Raise (HTTPException 422))
  /\ snd (send_reminder_api [] sample_auth busy_store "qr57st"
            (VDict [(KStr "timestamp", VStr " 2 hours ")]))
     = Ok (VDict [ (KStr "sent", VBool true);
                   (KStr "code", VStr "QR57ST");
                   (KStr "timestamp", VStr "2 hours") ])
  /\ fst (send_reminder_api [] sample_auth busy_store "qr57st"
            (VDict [(KStr "timestamp", VStr " 2 hours ")])) = [].
Proof.
  split.
  - apply (send_reminder_api_answer [] sample_auth
             (VDict [ (KStr "user_id", VStr "42");
                      (KStr "has_role", VBool true);
                      (KStr "exp", VInt 2000000000) ])
             busy_store "qr57st" full_fields
             (VDict [(KStr "timestamp", VStr "   ")]) ""
             eq_refl eq_refl eq_refl eq_refl eq_refl).
    reflexivity.
  - destruct (send_reminder_api_answer [] sample_auth
                (VDict [ (KStr "user_id", VStr "42");
                         (KStr "has_role", VBool true);
                         (KStr "exp", VInt 2000000000) ])
                busy_store "qr57st" full_fields
                (VDict [(KStr "timestamp", VStr " 2 hours ")]) "2 hours"
                eq_refl eq_refl eq_refl eq_refl eq_refl) as [_ H].
    destruct H as (event_link & _ & Hans & _ & Hnone); [discriminate|].
    split; [exact Hans|]. apply Hnone. discriminate.
Defined.




(** ** The day board keeps the flights *)

Lemma get_real_flights_set_unreal (k : string) (v : value) (s : store) :
  (forall w, is_real k w = false) ->
  get_real_flights (store_set k v s) = get_real_flights s.
Proof.
  intros Hk. unfold get_real_flights, store_set.
  induction s as [|[k' v'] s IH]; cbn [assoc_set filter fst snd].
  - rewrite Hk. reflexivity.
  - destruct (String.eqb_spec k k') as [<-|Hne]; cbn [filter fst snd].
    + rewrite !Hk. reflexivity.
    + rewrite IH. reflexivity.
Qed.

Lemma day_msgs_unreal (w : value) : is_real "_day_msgs" w = false.
Proof.
  unfold is_real. cbn [String.length Nat.eqb]. apply andb_false_r.
Qed.

Lemma post_or_update_day_schedule_real (g : guild) (date_raw : value)
  (user_data : store) :
  get_real_flights (fst (post_or_update_day_schedule g date_raw user_data))
  = get_real_flights user_data.
Proof.
  unfold post_or_update_day_schedule.
  assert (H2 : get_real_flights
                 (if store_mem "_day_msgs" user_data then user_data
                  else store_set "_day_msgs" (VDict []) user_data)
               = get_real_flights user_data).
  { destruct (store_mem "_day_msgs" user_data); [reflexivity|].
    apply get_real_flights_set_unreal, day_msgs_unreal. }
  destruct (public_channel g); cbn [negb fst]; [|reflexivity].
  destruct (group_flights_by_date _) as [grouped|]; [|reflexivity].
  destruct (hash_key date_raw) as [dk|]; [|reflexivity].
  destruct (assoc_get key_eqb dk grouped) as [[|x l]|]; try reflexivity.
  destruct (build_day_embed _); [|reflexivity].
  destruct (store_get "_day_msgs" _) as [[| | | | |day_msgs]|]; try exact H2.
  destruct (truthy _ && edit_existing g); [exact H2|].
  destruct (public_send g); [|exact H2].
  cbn [fst].
  rewrite (get_real_flights_set_unreal "_day_msgs" _ _ day_msgs_unreal).
  exact H2.
Qed.

Lemma refresh_after_update_real (guilds : list guild) (entry : value)
  (user_data : store) :
  get_real_flights (refresh_after_update guilds entry user_data)
  = get_real_flights user_data.
Proof.
  revert user_data.
  induction guilds as [|g guilds IH]; intros user_data;
    cbn [refresh_after_update]; [reflexivity|].
  destruct (py_get entry "dep_date" VNone) as [dep_date|]; [|apply IH].
  destruct (truthy dep_date); [|reflexivity].
  pose proof (post_or_update_day_schedule_real g dep_date user_data) as H.
  destruct (post_or_update_day_schedule g dep_date user_data)
    as [user_data' [u|e]]; cbn [fst] in H; [exact H|].
  rewrite IH. exact H.
Qed.

(** X11.  [POST /api/flights/{code}/refresh] never changes a record:
    whatever the session, the code and the gateway, every key of the
    store other than ["_day_msgs"] holds the value it held, and the
    real flights are the same list. *)
Theorem refresh_embed_keeps_records (guilds : list guild)
  (session : option value) (user_data : store) (code : string) :
  (forall k, k <> "_day_msgs" ->
             store_get k (fst (refresh_embed guilds session user_data code))
             = store_get k user_data)
  /\ get_real_flights (fst (refresh_embed guilds session user_data code))
     = get_real_flights user_data.
Proof.
  unfold refresh_embed.
  destruct (require_auth session); [|split; reflexivity].
  destruct (lookup_flight user_data (upper code)) as [entry|];
    [|split; reflexivity].
  cbn [fst]. split.
  - intros k Hk. apply refresh_after_update_frame. exact Hk.
  - apply refresh_after_update_real.
Qed.

(** X12.  A day gets one board message: when a call of
    [post_or_update_day_schedule] has gone through, a later call for
    the same day, in a guild whose posted message can be fetched and
    edited, posts nothing and leaves the store as it is (message ids
    are not empty). *)
Theorem day_board_posted_once (g g2 : guild) (date_raw : value)
  (user_data user_data1 : store) :
  (forall msg_id, public_send g = Some msg_id -> msg_id <> "") ->
  public_channel g2 = public_channel g ->
  edit_existing g2 = true ->
  post_or_update_day_schedule g date_raw user_data = (user_data1, Ok tt) ->
  post_or_update_day_schedule g2 date_raw user_data1 = (user_data1, Ok tt).
Proof.
  intros Hid Hch Hedit H.
  pose proof (post_or_update_day_schedule_real g date_raw user_data) as Hreal.
  rewrite H in Hreal. cbn [fst] in Hreal.
  unfold post_or_update_day_schedule in *. rewrite Hch, Hreal.
  destruct (public_channel g); cbn [negb] in *; [|reflexivity].
  destruct (group_flights_by_date (get_real_flights user_data))
    as [grouped|]; [|discriminate].
  destruct (hash_key date_raw) as [dk|]; [|discriminate].
  destruct (assoc_get key_eqb dk grouped) as [[|x l]|];
    try (injection H as <-; reflexivity).
  destruct (build_day_embed (x :: l)) as [[]|]; [|discriminate].
  assert (Hmem : forall v s, store_mem "_day_msgs" (store_set "_day_msgs" v s)
                             = true).
  { intros v s0. unfold store_mem, assoc_mem. fold store_get. fold store_set.
    rewrite store_get_set_same. reflexivity. }
  set (ud0 := if store_mem "_day_msgs" user_data then user_data
              else store_set "_day_msgs" (VDict []) user_data) in *.
  assert (Hmem0 : store_mem "_day_msgs" ud0 = true).
  { subst ud0. destruct (store_mem "_day_msgs" user_data) eqn:E;
      [exact E|apply Hmem]. }
  destruct (store_get "_day_msgs" ud0) as [[| | | | |day_msgs]|] eqn:Hdm;
    try discriminate.
  destruct (truthy (get_default dk VNone day_msgs) && edit_existing g) eqn:Hex.
  - injection H as <-. rewrite Hmem0, Hdm.
    apply andb_true_iff in Hex. destruct Hex as [Hex _].
    rewrite Hex, Hedit. reflexivity.
  - destruct (public_send g) as [msg_id|] eqn:Hsend; [|discriminate].
    injection H as <-. rewrite Hmem, store_get_set_same.
    unfold get_default. rewrite dict_get_set_same. cbn [truthy].
    specialize (Hid msg_id eq_refl). apply String.eqb_neq in Hid.
    rewrite Hid, Hedit. reflexivity.
Qed.

Lemma day_board_posted_once_witness :
  exists user_data1,
    post_or_update_day_schedule sample_guild (VStr "20092025") sample_store
    = (user_data1, Ok tt)
    /\ store_get "_day_msgs" user_data1
       = Some (VDict [(KStr "20092025", VStr "900")])
    /\ post_or_update_day_schedule (mkguild true true true None None)
         (VStr "20092025") user_data1
       = (user_data1, Ok tt).
Proof.
  eexists. split; [reflexivity|]. split; [reflexivity|].
  apply (day_board_posted_once sample_guild (mkguild true true true None None)
           (VStr "20092025") sample_store).
  - intros msg_id [= <-]. discriminate.
  - reflexivity.
  - reflexivity.
  - reflexivity.
Defined.

(** ** Starting and closing a flight *)


Lemma refresh_until_ok_frame (guilds : list announce_guild) (dep_date : value)
  (user_data : store) (k : string) :
  k <> "_day_msgs" ->
  store_get k (refresh_until_ok guilds dep_date user_data)
  = store_get k user_data.
Proof.
  intros Hk. revert user_data.
  induction guilds as [|g guilds IH]; intros user_data;
    cbn [refresh_until_ok]; [reflexivity|].
  pose proof (post_or_update_day_schedule_frame (day_board g) dep_date
                user_data k Hk) as H.
  destruct (post_or_update_day_schedule (day_board g) dep_date user_data)
    as [user_data' [u|e]]; cbn [fst] in H; [exact H|].
  rewrite IH. exact H.
Qed.

Lemma serialize_entry_server_link (code : string) (d : dict) :
  subdicts_ok d = true ->
  exists j,
    serialize_entry code (VDict d) = Ok (VDict j)
    /\ dict_get "server_link" j
       = Some (match sub_get "server" "link" d with
               | Some v => v
               | None => VStr "N/A"
               end).
Proof.
  unfold subdicts_ok, subdict_ok, sub_get. rewrite !andb_true_iff.
  intros [[Hg Hs] He].
  unfold serialize_entry, get_nested. cbn [py_get bind]. unfold get_default.
  destruct (dict_get "gate" d) as [[| | | | |g]|]; try discriminate;
    destruct (dict_get "server" d) as [[| | | | |sv]|]; try discriminate;
    destruct (dict_get "event" d) as [[| | | | |ev]|]; try discriminate;
    cbn [py_get bind]; eexists; (split; [reflexivity|]);
    unfold get_default; cbn [dict_get assoc_get key_eqb String.eqb Ascii.eqb
                             Bool.eqb];
    try reflexivity;
    match goal with
    | |- context [dict_get ?k ?m] => destruct (dict_get k m); reflexivity
    end.
Qed.

Lemma server_of (d : dict) :
  subdicts_ok d = true -> dict_mem "server" d = true ->
  exists sub, dict_get "server" d = Some (VDict sub).
Proof.
  unfold subdicts_ok, subdict_ok, dict_mem, assoc_mem. fold dict_get.
  rewrite !andb_true_iff. intros [[_ Hs] _].
  destruct (dict_get "server" d) as [[| | | | |sub]|]; try discriminate.
  eauto.
Qed.

Lemma subdicts_ok_set_server (d sub : dict) :
  subdicts_ok d = true ->
  subdicts_ok (dict_set "server" (VDict sub) d) = true.
Proof.
  unfold subdicts_ok. rewrite !subdict_ok_dict_set.
  cbn [key_eqb String.eqb Ascii.eqb Bool.eqb]. rewrite !andb_true_iff.
  tauto.
Qed.

Lemma subdicts_ok_set_announce (d : dict) (v : value) :
  subdicts_ok d = true ->
  subdicts_ok (dict_set "announce_message_id" v d) = true.
Proof.
  unfold subdicts_ok. rewrite !subdict_ok_dict_set.
  cbn [key_eqb String.eqb Ascii.eqb Bool.eqb]. tauto.
Qed.

Lemma get_flight_dict (session : option value) (s : value)
  (user_data : store) (code : string) (d : dict) :
  require_auth session = Ok s ->
  store_get (upper code) user_data = Some (VDict d) ->
  dict_mem "flight_number" d = true ->
  get_flight session user_data code = serialize_entry (upper code) (VDict d).
Proof.
  intros Hauth Hget Hfn. unfold get_flight. rewrite Hauth. cbn [bind].
  rewrite (lookup_flight_dict _ _ _ Hget Hfn). reflexivity.
Qed.



(** X10.  [POST /api/flights/{code}/close] on a record that has its
    [server] dict answers [{"closed": CODE}] and sets [server.link] to
    the gate-closed text, leaving every other field; a GET afterwards
    shows that text, and closing a second time leaves the record as the
    first left it. *)
Theorem close_flight_api_closes (guilds guilds2 : list announce_guild)
  (session : option value) (s : value) (user_data : store) (code : string)
  (d : dict) :
  require_auth session = Ok s ->
  store_get (upper code) user_data = Some (VDict d) ->
  dict_mem "flight_number" d = true ->
  subdicts_ok d = true ->
  dict_mem "server" d = true ->
  exists user_data' e' json,
    close_flight_api guilds session user_data code
    = (user_data', Ok (VDict [(KStr "closed", VStr (upper code))]))
    /\ store_get (upper code) user_data' = Some (VDict e')
    /\ sub_get "server" "link" e' = Some (VStr GATE_CLOSED)
    /\ (forall k, key_eqb k "server" = false -> dict_get k e' = dict_get k d)
    /\ get_flight session user_data' code = Ok (VDict json)
    /\ dict_get "server_link" json = Some (VStr GATE_CLOSED)
    /\ store_get (upper code)
         (fst (close_flight_api guilds2 session user_data' code))
       = Some (VDict e').
Proof.
  intros Hauth Hget Hfn Hok Hsv.
  destruct (server_of d Hok Hsv) as [sub Hsub].
  set (sub1 := dict_set "link" (VStr GATE_CLOSED) sub).
  set (e1 := dict_set "server" (VDict sub1) d).
  assert (Hset : set_server_link (VDict d) GATE_CLOSED = Ok e1).
  { unfold set_server_link. cbn [py_index]. rewrite Hsub. reflexivity. }
  assert (Hok1 : subdicts_ok e1 = true) by (apply subdicts_ok_set_server, Hok).
  assert (Hfn1 : dict_mem "flight_number" e1 = true).
  { unfold e1. rewrite dict_mem_set, Hfn. apply orb_true_r. }
  assert (Hsub1 : dict_get "server" e1 = Some (VDict sub1))
    by apply dict_get_set_same.
  assert (Hl1 : sub_get "server" "link" e1 = Some (VStr GATE_CLOSED)).
  { unfold sub_get. rewrite Hsub1. apply dict_get_set_same. }
  pose proof (upper_not_day_msgs code) as Hcode.
  assert (Hrun : forall gs ud e e2,
             store_get (upper code) ud = Some (VDict e) ->
             dict_mem "flight_number" e = true ->
             set_server_link (VDict e) GATE_CLOSED = Ok e2 ->
             close_flight_api gs session ud code
             = (refresh_until_ok gs (get_default "dep_date" (VStr "") e2)
                  (store_set (upper code) (VDict e2) ud),
                Ok (VDict [(KStr "closed", VStr (upper code))]))).
  { intros gs ud e e2 Hg Hf Hs. unfold close_flight_api.
    rewrite Hauth, (lookup_flight_dict _ _ _ Hg Hf), Hs. reflexivity. }
  assert (Hafter : forall gs ud e2,
             store_get (upper code)
               (refresh_until_ok gs (get_default "dep_date" (VStr "") e2)
                  (store_set (upper code) (VDict e2) ud))
             = Some (VDict e2)).
  { intros gs ud e2. rewrite refresh_until_ok_frame by exact Hcode.
    apply store_get_set_same. }
  destruct (serialize_entry_server_link (upper code) e1 Hok1)
    as (json & Hj & Hjl).
  eexists. exists e1, json.
  split; [exact (Hrun guilds user_data d e1 Hget Hfn Hset)|].
  split; [apply Hafter|]. split; [exact Hl1|]. split; [|split; [|split]].
  - intros k Hk. unfold e1. rewrite dict_get_set, Hk. reflexivity.
  - rewrite (get_flight_dict _ _ _ _ _ Hauth (Hafter _ _ _) Hfn1). exact Hj.
  - rewrite Hjl, Hl1. reflexivity.
  - assert (Hset1 : set_server_link (VDict e1) GATE_CLOSED = Ok e1).
    { unfold set_server_link. cbn [py_index]. rewrite Hsub1. cbn [bind].
      f_equal.
      rewrite (dict_set_same_value "link" (VStr GATE_CLOSED) sub1)
        by apply dict_get_set_same.
      apply dict_set_same_value. exact Hsub1. }
    rewrite (Hrun guilds2 _ e1 e1 (Hafter _ _ _) Hfn1 Hset1). cbn [fst].
    apply Hafter.
Qed.

Lemma close_flight_api_closes_witness :
  exists user_data' json,
    close_flight_api [loud_guild] sample_auth busy_store "qr57st"
    = (user_data', Ok (VDict [(KStr "closed", VStr "QR57ST")]))
    /\ get_flight sample_auth user_data' "qr57st" = Ok (VDict json)
    /\ dict_get "server_link" json = Some (VStr GATE_CLOSED).
Proof.
  destruct (close_flight_api_closes [loud_guild] [] sample_auth
              (VDict [ (KStr "user_id", VStr "42");
                       (KStr "has_role", VBool true);
                       (KStr "exp", VInt 2000000000) ])
              busy_store "qr57st" full_fields
              eq_refl eq_refl eq_refl eq_refl eq_refl)
    as (ud' & e' & json & H1 & _ & _ & _ & H5 & H6 & _).
  exists ud', json. auto.
Defined.

(** ** Pages and sessions *)

Section Pages.

Variable SECRET_KEY : string.
Variable hmac_sha256_hexdigest : string -> string -> string.
Variable json_dumps : value -> string.
Variable json_loads : string -> option value.
Variable urlsafe_b64encode : string -> string.
Variable urlsafe_b64decode : string -> option string.

Local Abbreviation session_of_cookie :=
  (get_session SECRET_KEY hmac_sha256_hexdigest json_loads urlsafe_b64decode).
Local Abbreviation issue :=
  (set_session_cookie SECRET_KEY hmac_sha256_hexdigest json_dumps
                      urlsafe_b64encode).

(** What [_verify] lets through is a dict. *)
Lemma get_session_dict (now : Q) (cookie : option string) (session : value) :
  session_of_cookie now cookie = Some session -> exists d, session = VDict d.
Proof.
  unfold get_session, _verify.
  destruct cookie as [token|]; [|discriminate].
  destruct (String.eqb token ""); [discriminate|].
  destruct (rsplit_dot token) as [[b64 sig]|]; [|discriminate].
  destruct (negb _); [discriminate|].
  destruct (urlsafe_b64decode b64) as [raw|]; [|discriminate].
  destruct (json_loads raw) as [[| | | | |d]|]; try discriminate.
  cbn [py_get].
  destruct (expired _ now) as [[|]|]; try discriminate.
  intros [= <-]. eauto.
Qed.

(** X13.  For every cookie and every clock reading, the pages never
    send a browser in circles and never raise: either the session has
    the role, and then [/] and [/dashboard.html] serve the dashboard,
    [/login.html] redirects to [/] and [require_auth] lets the request
    through; or [/] and [/dashboard.html] redirect to [/login.html],
    [/login.html] serves the login page and [require_auth] answers 401
    or 403. *)
Theorem serve_pages_no_loop (now : Q) (cookie : option string) :
  let session := session_of_cookie now cookie in
  (serve_root session = Ok (FileResponse "dashboard.html")
   /\ serve_dashboard session = Ok (FileResponse "dashboard.html")
   /\ serve_login session = Ok (RedirectResponse "/")
   /\ exists s, session = Some s /\ require_auth session = Ok s)
  \/ (serve_root session = Ok (RedirectResponse "/login.html")
      /\ serve_dashboard session = Ok (RedirectResponse "/login.html")
      /\ serve_login session = Ok (FileResponse "login.html")
      /\ (require_auth session = Raise (HTTPException 401)
          \/ require_auth session = Raise (HTTPException 403))).
Proof.
  cbv zeta.
  destruct (session_of_cookie now cookie) as [s|] eqn:Hs.
  - destruct (get_session_dict now cookie s Hs) as [d ->].
    unfold serve_dashboard, serve_root, serve_login, require_auth.
    destruct (truthy (VDict d)); cbn [negb]; [|right; auto 6].
    cbn [py_get bind].
    destruct (truthy (get_default "has_role" VNone d)); cbn [negb].
    + left. eauto 6.
    + right. auto 6.
  - right. cbn. auto 6.
Qed.

Lemma sign_not_empty (payload : value) :
  _sign SECRET_KEY hmac_sha256_hexdigest json_dumps urlsafe_b64encode payload
  <> "".
Proof.
  unfold _sign. cbv zeta. intros H.
  apply (f_equal String.length) in H. rewrite !length_append in H.
  cbn [String.length] in H. lia.
Qed.

(** X14.  The cookie [set_session_cookie] issues at clock reading
    [now] carries the payload with [exp] set to [int(now)] plus 24
    hours (an [exp] already there is overwritten).  When the stamped
    payload survives the JSON and base64 round trips, the cookie is
    accepted, and gives back that payload, at every clock reading up to
    [exp], so during at least 24 hours less one second after it was
    issued, and it is refused at every clock reading after [exp]. *)
Theorem session_cookie_lifetime (now : Q) (payload : dict) :
  let stamped := fst (issue now payload) in
  let token := snd (issue now payload) in
  json_loads (json_dumps (VDict stamped)) = Some (VDict stamped) ->
  urlsafe_b64decode (urlsafe_b64encode (json_dumps (VDict stamped)))
  = Some (json_dumps (VDict stamped)) ->
  has_dot (hmac_sha256_hexdigest SECRET_KEY
             (urlsafe_b64encode (json_dumps (VDict stamped)))) = false ->
  dict_get "exp" stamped = Some (VInt (int_of_time now + SESSION_TTL))
  /\ (forall k, key_eqb k "exp" = false ->
                dict_get k stamped = dict_get k payload)
  /\ (forall later,
        (later <= inject_Z (int_of_time now + SESSION_TTL))%Q ->
        session_of_cookie later (Some token) = Some (VDict stamped))
  /\ (forall later,
        (0 <= now)%Q ->
        (later <= now + inject_Z SESSION_TTL - 1)%Q ->
        session_of_cookie later (Some token) = Some (VDict stamped))
  /\ (forall later,
        (inject_Z (int_of_time now + SESSION_TTL) < later)%Q ->
        session_of_cookie later (Some token) = None).
Proof.
  cbv zeta. unfold set_session_cookie. cbn [fst snd].
  set (exp := (int_of_time now + SESSION_TTL)%Z).
  set (stamped := dict_set "exp" (VInt exp) payload).
  intros Hjson Hb64 Hdot.
  assert (Hexp : dict_get "exp" stamped = Some (VInt exp))
    by apply dict_get_set_same.
  assert (Hverify : forall later,
             session_of_cookie later
               (Some (_sign SECRET_KEY hmac_sha256_hexdigest json_dumps
                            urlsafe_b64encode (VDict stamped)))
             = match expired (VInt exp) later with
               | Some false => Some (VDict stamped)
               | _ => None
               end).
  { intros later. unfold get_session.
    pose proof (sign_not_empty (VDict stamped)) as Hne.
    apply String.eqb_neq in Hne. rewrite Hne.
    unfold _verify, _sign. cbv zeta.
    rewrite (rsplit_dot_append _ _ Hdot), String.eqb_refl. cbn [negb].
    rewrite Hb64, Hjson. cbn [py_get]. unfold get_default. rewrite Hexp.
    destruct (expired (VInt exp) later) as [[|]|]; reflexivity. }
  assert (Hfresh : forall later,
             (later <= inject_Z exp)%Q ->
             session_of_cookie later
               (Some (_sign SECRET_KEY hmac_sha256_hexdigest json_dumps
                            urlsafe_b64encode (VDict stamped)))
             = Some (VDict stamped)).
  { intros later Hle. rewrite Hverify.
    destruct (expired (VInt exp) later) as [[|]|] eqn:E.
    - apply expired_iff in E. exfalso. exact (Qlt_not_le _ _ E Hle).
    - reflexivity.
    - discriminate. }
  split; [exact Hexp|]. split; [|split; [exact Hfresh|split]].
  - intros k Hk. unfold stamped. rewrite dict_get_set, Hk. reflexivity.
  - intros later Hnow Hle. apply Hfresh.
    unfold exp, int_of_time.
    assert (Hq : Qle_bool 0 now = true) by (apply Qle_bool_iff; exact Hnow).
    rewrite Hq. rewrite inject_Z_plus.
    pose proof (Qlt_floor now) as Hfl. rewrite inject_Z_plus in Hfl.
    apply Qlt_le_weak.
    eapply Qle_lt_trans; [exact Hle|].
    setoid_replace (now + inject_Z SESSION_TTL - 1)%Q
      with (now - 1 + inject_Z SESSION_TTL)%Q by ring.
    apply Qplus_lt_l.
    apply (Qplus_lt_l _ _ 1%Q).
    setoid_replace (now - 1 + 1)%Q with now by ring.
    exact Hfl.
  - intros later Hlt. rewrite Hverify.
    apply expired_iff in Hlt. rewrite Hlt. reflexivity.
Qed.

End Pages.

Lemma session_cookie_lifetime_witness :
  let token :=
    snd (set_session_cookie sample_key checksum_hex exp_dumps plain_encode
                            (1000 # 1) []) in
  get_session sample_key checksum_hex exp_loads plain_decode (5000 # 1)
              (Some token)
  = Some (VDict [(KStr "exp", VInt 87400)])
  /\ get_session sample_key checksum_hex exp_loads plain_decode (90000 # 1)
                 (Some token)
     = None.
Proof.
  cbv zeta.
  destruct (session_cookie_lifetime sample_key checksum_hex exp_dumps
              exp_loads plain_encode plain_decode (1000 # 1) [])
    as (_ & _ & H1 & _ & H2); try (vm_compute; reflexivity).
  split.
  - apply H1. vm_compute. discriminate.
  - apply H2. vm_compute. reflexivity.
Defined.

(** ** The three forms of the wizard *)

(** One step of a proof that two lists written out in full are
    permutations of each other: the head of the first is found in the
    second. *)
Ltac perm_find a l pre post :=
  lazymatch post with
  | a :: ?post' =>
      let rp := eval cbn [rev app] in (rev pre) in
      apply (@Permutation_cons_app _ l rp post' a); cbn [app]
  | ?b :: ?post' => perm_find a l (b :: pre) post'
  end.

Ltac perm_head :=
  lazymatch goal with
  | |- @Permutation ?A (?a :: ?l) ?r => perm_find a l (@nil A) r
  end.

Lemma three_steps_run (uid : Z) (a : answers) (user_data : store) :
  exists user_data',
    three_steps uid a user_data = Ok (user_data', Summary)
    /\ store_get (str_of_int uid) user_data' = Some (VDict (session_of a))
    /\ (forall k, k <> str_of_int uid ->
                  store_get k user_data' = store_get k user_data).
Proof.
  unfold three_steps, modal1_on_submit, modal2_on_submit, modal3_on_submit,
    update_session.
  rewrite store_get_set_same. cbn [bind fst]. rewrite store_get_set_same.
  eexists. split; [reflexivity|]. split.
  - rewrite store_get_set_same. reflexivity.
  - intros k Hk. rewrite !store_get_set_other by exact Hk. reflexivity.
Qed.

(** X15.  Whatever the store held, the three forms submitted one after
    the other leave, under [str(user_id)], a session of exactly the
    thirteen fields [POST /api/flights] requires, each holding the
    stripped answer (an earlier session of the user is dropped by the
    first form); no other key of the store changes.  The session
    passes the required-fields check of POST exactly when no answer is
    blank. *)
Theorem three_steps_session (uid : Z) (a : answers) (user_data : store) :
  exists user_data',
    three_steps uid a user_data = Ok (user_data', Summary)
    /\ store_get (str_of_int uid) user_data' = Some (VDict (session_of a))
    /\ (forall k, k <> str_of_int uid ->
                  store_get k user_data' = store_get k user_data)
    /\ Permutation (map fst (session_of a)) (map KStr required)
    /\ (missing_fields (VDict (session_of a)) required = Ok []
        <-> Forall (fun v => truthy (snd v) = true) (session_of a)).
Proof.
  destruct (three_steps_run uid a user_data) as (user_data' & H1 & H2 & H3).
  exists user_data'. split; [exact H1|]. split; [exact H2|].
  split; [exact H3|]. split.
  - unfold session_of, required. cbn [map fst].
    repeat perm_head. constructor.
  - rewrite missing_fields_filter. unfold session_of, required.
    cbn [filter get_default dict_get assoc_get key_eqb String.eqb Ascii.eqb
         Bool.eqb truthy snd].
    split.
    + intros H.
      repeat match type of H with
             | context [negb (String.eqb ?s "")] =>
                 destruct (String.eqb s "") eqn:?; cbn [negb] in H;
                 try discriminate
             end.
      repeat (constructor; [cbn [snd truthy]; apply negb_true_iff; assumption|]).
      constructor.
    + intros H.
      repeat match goal with
             | H : Forall _ (_ :: _) |- _ =>
                 let H1 := fresh "T" in
                 let H2 := fresh "R" in
                 inversion H as [|? ? H1 H2]; subst; clear H;
                 cbn [snd truthy] in H1
             end.
      repeat match goal with
             | T : negb (String.eqb ?s "") = true |- _ =>
                 rewrite T; clear T
             end.
      reflexivity.
Qed.

(** X16.  A flight entered through the three forms and confirmed with
    Yes is served by [GET /api/flights/{code}] under the code the
    submitter was told.  The answer is given field by field: the
    thirteen answers, stripped, as they were typed (the airport codes
    and the aircraft are not uppercased, unlike those of a POST),
    [host_user_id] the submitter's id as a number, the time of creation,
    and "N/A" for gates, meal service, status, alerts and links.  The
    departure date is shown as YYYY-MM-DD when the answer is the
    DDMMYYYY text of a calendar date from the year 1000 on, and as it
    was typed when it does not read as a date. *)
Theorem wizard_flight_served (r : rng) (pos fuel : nat) (now_iso : string)
  (uid : Z) (a : answers) (session : option value) (s : value)
  (user_data user_data1 : store) (code : string) (pos' : nat) :
  require_auth session = Ok s ->
  three_steps uid a user_data = Ok (user_data1, Summary) ->
  fresh_code fuel user_data1 r pos = Some (code, pos') ->
  let typed := strip (a_dep_date a) in
  exists user_data2,
    yes_button r pos fuel now_iso uid true uid user_data1
    = Some (user_data2, Saved code)
    /\ get_flight session user_data2 code
       = Ok (VDict [
           (KStr "code", VStr code);
           (KStr "flight_number", VStr (strip (a_flight_number a)));
           (KStr "dep_city", VStr (strip (a_dep_city a)));
           (KStr "arr_city", VStr (strip (a_arr_city a)));
           (KStr "dep_code", VStr (strip (a_dep_code a)));
           (KStr "arr_code", VStr (strip (a_arr_code a)));
           (KStr "dep_airport", VStr (strip (a_dep_airport a)));
           (KStr "arr_airport", VStr (strip (a_arr_airport a)));
           (KStr "dep_time", VStr (strip (a_dep_time a)));
           (KStr "arr_time", VStr (strip (a_arr_time a)));
           (KStr "dep_date", dep_date_display (VStr typed));
           (KStr "dep_date_raw", VStr typed);
           (KStr "duration", VStr (strip (a_duration a)));
           (KStr "terminal", VStr (strip (a_terminal a)));
           (KStr "aircraft", VStr (strip (a_aircraft a)));
           (KStr "meal_service", VStr "N/A");
           (KStr "status", VStr "N/A");
           (KStr "gate_dep", VStr "N/A");
           (KStr "gate_arr", VStr "N/A");
           (KStr "alerts", VStr "N/A");
           (KStr "server_link", VStr "N/A");
           (KStr "event_link", VStr "N/A");
           (KStr "host_user_id", VInt uid);
           (KStr "created_at", VStr (now_iso ++ "Z")) ])
    /\ (forall y m d,
          calendar_date y m d -> 1000 <= y -> typed = dmy_text d m y ->
          dep_date_display (VStr typed) = VStr (ymd_text y m d))
    /\ ((forall d m y, reads_as typed d m y -> ~ calendar_date y m d) ->
        dep_date_display (VStr typed) = VStr typed).
Proof.
  intros Hauth Hsteps Hfresh typed.
  destruct (three_steps_run uid a user_data) as (ud1 & H1 & Hsess & _).
  rewrite H1 in Hsteps. injection Hsteps as <-.
  destruct (fresh_code_spec _ _ _ _ _ _ Hfresh) as (Hlen & Hchars & _).
  set (fe := flight_entry code uid (session_of a) now_iso).
  assert (Hyes : yes_button r pos fuel now_iso uid true uid ud1
                 = Some (store_set (str_of_int uid ++ "_pending")
                           (VDict (session_of a))
                           (store_set code (VDict fe) ud1),
                         Saved code)).
  { unfold yes_button. rewrite Z.eqb_refl. cbn [negb].
    rewrite Hsess, Hfresh. reflexivity. }
  assert (Hget : store_get code
                   (store_set (str_of_int uid ++ "_pending")
                      (VDict (session_of a)) (store_set code (VDict fe) ud1))
                 = Some (VDict fe)).
  { rewrite store_get_set_other; [apply store_get_set_same|].
    intros ->.
    pose proof (endswith_append (str_of_int uid) "_pending") as E.
    apply endswith_length in E. cbn [String.length] in E. lia. }
  assert (Hfn : dict_mem "flight_number" fe = true) by reflexivity.
  eexists. split; [exact Hyes|]. split; [|split].
  - rewrite <- (upper_code_chars code Hchars) at 1.
    rewrite <- (upper_code_chars code Hchars) in Hget.
    rewrite (get_flight_dict _ _ _ _ _ Hauth Hget Hfn).
    rewrite (upper_code_chars code Hchars). reflexivity.
  - intros y m d Hcal Hy ->. apply valid_date_iff in Hcal.
    apply (dep_date_round_trip y m d Hcal Hy).
  - intros Hno. unfold dep_date_display.
    destruct (strptime_dmY typed) as [dt|] eqn:E; [|reflexivity].
    destruct (strptime_dmY_reads typed dt E) as [Hr Hv].
    apply valid_date_iff in Hv. destruct (Hno _ _ _ Hr Hv).
Qed.

Lemma wizard_flight_served_witness :
  exists user_data1 user_data2 json,
    three_steps 123456789 sample_answers sample_store
    = Ok (user_data1, Summary)
    /\ yes_button counting_rng 0 1 "2025-09-01T12:00:00" 123456789 true
                  123456789 user_data1
       = Some (user_data2, Saved "ABCDEF")
    /\ get_flight sample_auth user_data2 "ABCDEF" = Ok (VDict json)
    /\ dict_get "flight_number" json = Some (VStr "AC8840")
    /\ dict_get "arr_airport" json = Some (VStr "Calgary International")
    /\ dict_get "dep_date" json = Some (VStr "2025-09-22").
Proof.
  edestruct (wizard_flight_served counting_rng 0 1 "2025-09-01T12:00:00"
               123456789 sample_answers sample_auth
               (VDict [ (KStr "user_id", VStr "42");
                        (KStr "has_role", VBool true);
                        (KStr "exp", VInt 2000000000) ])
               sample_store)
    as (ud2 & H1 & H2 & _);
    [reflexivity|reflexivity|reflexivity|].
  do 2 eexists. eexists.
  split; [reflexivity|]. split; [exact H1|]. split; [exact H2|].
  repeat split.
Defined.

(** ** The admin panel *)

Lemma split_colon_prefix (action code : string) :
  split_colon action = None ->
  split_colon (action ++ String ":" code) = Some (action, code).
Proof.
  induction action as [|c action IH]; cbn [append split_colon].
  - reflexivity.
  - destruct (Ascii.eqb c ":"); [discriminate|].
    destruct (split_colon action) as [[x y]|]; [discriminate|].
    intros _. rewrite (IH eq_refl). reflexivity.
Qed.

(** X18.  Every button [make_admin_view(code)] builds leads
    [on_interaction] to the branch its id names, with the uppercased
    code - whatever characters the code has, colons included; for a
    generated code, or any code of capitals and digits, that is the
    flight the view was built for. *)
Theorem admin_buttons_route_back (code : string) :
  map on_interaction_route (admin_button_ids code)
  = map (fun a => Some (a, upper code))
        [SetGates; SetAlerts; SendReminder; NotStarted; StartFlight;
         CloseFlight]
  /\ (code_chars code = true ->
      map on_interaction_route (admin_button_ids code)
      = map (fun a => Some (a, code))
            [SetGates; SetAlerts; SendReminder; NotStarted; StartFlight;
             CloseFlight]).
Proof.
  assert (H : map on_interaction_route (admin_button_ids code)
              = map (fun a => Some (a, upper code))
                    [SetGates; SetAlerts; SendReminder; NotStarted;
                     StartFlight; CloseFlight]).
  { unfold admin_button_ids, on_interaction_route. cbn [map].
    rewrite !split_colon_prefix by reflexivity. reflexivity. }
  split; [exact H|].
  intros Hc. rewrite H, (upper_code_chars code Hc). reflexivity.
Qed.

Lemma admin_buttons_route_back_witness :
  map on_interaction_route (admin_button_ids "QR57ST")
  = map (fun a => Some (a, "QR57ST"))
        [SetGates; SetAlerts; SendReminder; NotStarted; StartFlight;
         CloseFlight].
Proof.
  apply (proj2 (admin_buttons_route_back "QR57ST")). reflexivity.
Defined.

Lemma fetch_loop_spec {A : Type} (fetch : nat -> option A) (delay : Q)
  (n i : nat) :
  let (r, slept) := fetch_loop fetch delay i n in
  let k := List.length slept in
  k <= n
  /\ (forall j, j < k -> fetch (i + j) = None)
  /\ slept = map (fun j => (delay * inject_Z (Z.of_nat (i + j) + 1))%Q)
                 (seq 0 k)
  /\ match r with
     | Some msg => k < n /\ fetch (i + k) = Some msg
     | None => k = n
     end.
Proof.
  revert i. induction n as [|n IH]; intros i; cbn [fetch_loop].
  - cbn. repeat split; [lia|intros j Hj; lia].
  - destruct (fetch i) as [msg|] eqn:Hi.
    + cbn. rewrite Nat.add_0_r.
      repeat split; try lia; try (intros j Hj; lia); auto.
    + specialize (IH (S i)).
      destruct (fetch_loop fetch delay (S i) n) as [r slept].
      cbn zeta in *. destruct IH as (Hk & Hnone & Hslept & Hr).
      cbn [List.length]. split; [lia|]. split; [|split].
      * intros [|j] Hj; [rewrite Nat.add_0_r; exact Hi|].
        replace (i + S j) with (S i + j) by lia. apply Hnone. lia.
      * cbn [seq map]. rewrite Nat.add_0_r. f_equal.
        rewrite Hslept at 1. rewrite <- seq_shift, map_map.
        apply map_ext. intros j.
        replace (S i + j) with (i + S j) by lia. reflexivity.
      * destruct r as [msg|].
        -- destruct Hr as [Hlt Hf]. split; [lia|].
           replace (i + S (List.length slept))
             with (S i + List.length slept) by lia.
           exact Hf.
        -- lia.
Qed.

Lemma total_sleep_seq (delay : Q) (k : nat) :
  (total_sleep
     (map (fun j => delay * inject_Z (Z.of_nat (0 + j) + 1)) (seq 0 k))
   == delay * (inject_Z (Z.of_nat k * (Z.of_nat k + 1)) / 2))%Q.
Proof.
  induction k as [|k IH].
  - cbn. field.
  - rewrite seq_S, map_app. cbn [map Nat.add].
    unfold total_sleep in *. rewrite fold_right_app. cbn [fold_right].
    assert (Hmove : forall (l : list Q) (x : Q),
               (fold_right Qplus (x + 0) l == fold_right Qplus 0 l + x)%Q).
    { induction l as [|y l IHl]; intros x; cbn [fold_right]; [ring|].
      rewrite IHl. ring. }
    rewrite Hmove, IH. rewrite Nat2Z.inj_succ.
    unfold Z.succ. rewrite !inject_Z_mult, !inject_Z_plus. field.
Qed.

(** X19.  [fetch_message_with_retries] tries at most [attempts] times
    and answers with the first fetch that succeeds; it answers None
    exactly when all [attempts] tries fail (at once when [attempts] is
    not positive).  After failure number [j] it pauses [delay * j], so
    with [k] failures it has slept [delay * k * (k + 1) / 2]: never
    more than [delay * attempts * (attempts + 1) / 2], three seconds
    with the defaults. *)
Theorem fetch_message_with_retries_spec {A : Type} (fetch : nat -> option A)
  (attempts : Z) (delay : Q) :
  let n := Z.to_nat attempts in
  let r := fst (fetch_message_with_retries fetch attempts delay) in
  let slept := snd (fetch_message_with_retries fetch attempts delay) in
  let k := List.length slept in
  (forall j, j < k -> fetch j = None)
  /\ match r with
     | Some msg => k < n /\ fetch k = Some msg
     | None => k = n
     end
  /\ (r = None <-> forall j, j < n -> fetch j = None)
  /\ (total_sleep slept
      == delay * (inject_Z (Z.of_nat k * (Z.of_nat k + 1)) / 2))%Q
  /\ ((0 <= delay)%Q ->
      (total_sleep slept
       <= delay * (inject_Z (Z.of_nat n * (Z.of_nat n + 1)) / 2))%Q).
Proof.
  cbv zeta. unfold fetch_message_with_retries.
  pose proof (fetch_loop_spec fetch delay (Z.to_nat attempts) 0) as H.
  destruct (fetch_loop fetch delay 0 (Z.to_nat attempts)) as [r slept].
  cbn zeta in H. cbn [fst snd]. destruct H as (Hk & Hnone & Hslept & Hr).
  cbn [Nat.add] in Hnone, Hr.
  assert (Hsum : (total_sleep slept
                  == delay * (inject_Z (Z.of_nat (List.length slept)
                                        * (Z.of_nat (List.length slept) + 1))
                              / 2))%Q).
  { rewrite Hslept at 1. apply total_sleep_seq. }
  split; [exact Hnone|]. split; [exact Hr|]. split; [|split; [exact Hsum|]].
  - split.
    + intros ->. rewrite <- Hr. exact Hnone.
    + intros Hall. destruct r as [msg|]; [|reflexivity].
      destruct Hr as [Hlt Hf]. rewrite (Hall _ Hlt) in Hf. discriminate.
  - intros Hd. rewrite Hsum.
    rewrite !(Qmult_comm delay).
    apply Qmult_le_compat_r; [|exact Hd].
    unfold Qdiv. apply Qmult_le_compat_r; [|discriminate].
    rewrite <- Zle_Qle. nia.
Qed.

Lemma fetch_message_with_retries_spec_witness :
  fetch_message_with_retries third_time 3 (1 # 2)
  = (Some "message", [(1 # 2)%Q; (2 # 2)%Q])
  /\ (total_sleep (snd (fetch_message_with_retries third_time 3 (1 # 2)))
      <= 3)%Q.
Proof.
  split; [reflexivity|].
  destruct (fetch_message_with_retries_spec third_time 3 (1 # 2))
    as (_ & _ & _ & _ & H).
  apply H. discriminate.
Defined.

(** X17.  [SetGatesModal.on_submit] on a record that has its [gate]
    dict writes both gates and nothing else of the record: each gate
    becomes the stripped input, or "N/A" when the input is blank, so a
    gate is never stored as an empty string. *)
Theorem set_gates_on_submit_writes (g : option guild) (code : string)
  (dep_gate arr_gate : string) (user_data : store) (d gate : dict) :
  code <> "_day_msgs" ->
  store_get code user_data = Some (VDict d) ->
  dict_get "gate" d = Some (VDict gate) ->
  exists user_data' e',
    set_gates_on_submit g code dep_gate arr_gate user_data
    = Ok (Some user_data')
    /\ store_get code user_data' = Some (VDict e')
    /\ sub_get "gate" "dep" e' = Some (VStr (or_na dep_gate))
    /\ sub_get "gate" "arr" e' = Some (VStr (or_na arr_gate))
    /\ or_na dep_gate <> "" /\ or_na arr_gate <> ""
    /\ (strip dep_gate <> "" -> or_na dep_gate = strip dep_gate)
    /\ (strip arr_gate <> "" -> or_na arr_gate = strip arr_gate)
    /\ (forall k, key_eqb k "gate" = false -> dict_get k e' = dict_get k d).
Proof.
  intros Hcode Hget Hgate.
  set (e1 := dict_set "gate"
               (VDict (dict_set "arr" (VStr (or_na arr_gate))
                         (dict_set "dep" (VStr (or_na dep_gate)) gate))) d).
  assert (Hna : forall t, or_na t <> ""
                          /\ (strip t <> "" -> or_na t = strip t)).
  { intros t. unfold or_na.
    destruct (String.eqb_spec (strip t) "") as [E|E].
    - split; [discriminate|contradiction].
    - split; [exact E|reflexivity]. }
  exists (refresh_board g (get_default "dep_date" VNone e1)
            (store_set code (VDict e1) user_data)), e1.
  split; [|split; [|split; [|split]]].
  - unfold set_gates_on_submit. rewrite Hget.
    assert (Ht : truthy (VDict d) = true).
    { destruct d; [discriminate|reflexivity]. }
    rewrite Ht. cbn [negb]. unfold set_gate_fields. cbn [py_index].
    rewrite Hgate. reflexivity.
  - unfold refresh_board. destruct g as [g|]; [|apply store_get_set_same].
    destruct (truthy _); [|apply store_get_set_same].
    rewrite post_or_update_day_schedule_frame by exact Hcode.
    apply store_get_set_same.
  - unfold sub_get, e1. rewrite dict_get_set_same, dict_get_set.
    cbn [key_eqb String.eqb Ascii.eqb Bool.eqb]. apply dict_get_set_same.
  - unfold sub_get, e1. rewrite dict_get_set_same. apply dict_get_set_same.
  - split; [apply Hna|]. split; [apply Hna|]. split; [apply Hna|].
    split; [apply Hna|].
    intros k Hk. unfold e1. rewrite dict_get_set, Hk. reflexivity.
Qed.

Lemma set_gates_on_submit_writes_witness :
  exists user_data' e',
    set_gates_on_submit (Some sample_guild) "QR57ST" " A1 " "  " busy_store
    = Ok (Some user_data')
    /\ store_get "QR57ST" user_data' = Some (VDict e')
    /\ sub_get "gate" "dep" e' = Some (VStr "A1")
    /\ sub_get "gate" "arr" e' = Some (VStr "N/A").
Proof.
  destruct (set_gates_on_submit_writes (Some sample_guild) "QR57ST" " A1 "
              "  " busy_store full_fields
              [(KStr "dep", VStr "N/A"); (KStr "arr", VStr "N/A")])
    as (ud' & e' & H1 & H2 & H3 & H4 & _); try reflexivity; [discriminate|].
  exists ud', e'. auto.
Defined.

(** ** The log reader *)

Lemma scan_object_bounds (rest : string) (i : nat) (depth : Z)
  (in_str esc : bool) (stop : nat) :
  scan_object rest i depth in_str esc = Some stop ->
  i < stop <= i + String.length rest
  /\ String.get (stop - 1 - i) rest = Some rbrace.
Proof.
  revert i depth in_str esc.
  induction rest as [|c rest IH]; intros i depth in_str esc;
    cbn [scan_object]; [discriminate|].
  assert (Hrec : forall d s e,
             scan_object rest (S i) d s e = Some stop ->
             i < stop <= i + String.length (String c rest)
             /\ String.get (stop - 1 - i) (String c rest) = Some rbrace).
  { intros d s e H. destruct (IH _ _ _ _ H) as [Hb Hg].
    cbn [String.length]. split; [lia|].
    replace (stop - 1 - i) with (S (stop - 1 - S i)) by lia. exact Hg. }
  destruct esc; [apply Hrec|].
  destruct (Ascii.eqb c backslash && in_str); [apply Hrec|].
  destruct (negb (if Ascii.eqb c dquote then negb in_str else in_str));
    [|apply Hrec].
  destruct (Ascii.eqb c lbrace); [apply Hrec|].
  destruct (Ascii.eqb c rbrace) eqn:Hc; [|apply Hrec].
  destruct (depth - 1 =? 0)%Z; [|apply Hrec].
  intros [= <-]. cbn [String.length]. split; [lia|].
  replace (S i - 1 - i) with 0 by lia. cbn [String.get].
  apply Ascii.eqb_eq in Hc. rewrite Hc. reflexivity.
Qed.

Lemma length_substring_le (n m : nat) (s : string) :
  String.length (substring n m s) <= String.length s - n.
Proof.
  revert n m. induction s as [|c s IH]; intros n m.
  - destruct n, m; cbn; lia.
  - destruct n as [|n].
    + destruct m as [|m]; cbn [substring String.length]; [lia|].
      specialize (IH 0 m). lia.
    + cbn [substring String.length]. specialize (IH n m). lia.
Qed.

Lemma length_substring (n m : nat) (s : string) :
  n + m <= String.length s -> String.length (substring n m s) = m.
Proof.
  revert n m. induction s as [|c s IH]; intros n m H.
  - cbn [String.length] in H. destruct n, m; cbn; lia.
  - destruct n as [|n].
    + destruct m as [|m]; cbn [substring String.length]; [reflexivity|].
      cbn [String.length] in H. rewrite (IH 0 m); lia.
    + cbn [substring]. apply IH. cbn [String.length] in H. lia.
Qed.

Lemma extract_json_at_bounds_of (s : string) (start : nat) :
  match _extract_json_at s start with
  | (Some obj, stop) => start < stop
  | (None, stop) => stop = start
  end.
Proof.
  unfold _extract_json_at.
  destruct (scan_object _ start 0 false false) as [stop|] eqn:H;
    [|reflexivity].
  destruct (scan_object_bounds _ _ _ _ _ _ H) as [[Hlo _] _]. exact Hlo.
Qed.

(** X20.  What [_extract_json_at(s, start)] returns: either the text
    [s[start:stop]] with [start < stop <= len(s)], whose last character
    is a closing brace, together with [stop]; or nothing, together with
    [start] itself. *)
Theorem extract_json_at_bounds (s : string) (start : nat) :
  match _extract_json_at s start with
  | (Some obj, stop) =>
      start < stop <= String.length s
      /\ obj = slice s start stop
      /\ String.length obj = stop - start
      /\ String.get (stop - 1) s = Some rbrace
  | (None, stop) => stop = start
  end.
Proof.
  unfold _extract_json_at.
  destruct (scan_object _ start 0 false false) as [stop|] eqn:H;
    [|reflexivity].
  destruct (scan_object_bounds _ _ _ _ _ _ H) as [[Hlo Hhi] Hget].
  unfold slice in *.
  pose proof (length_substring_le start (String.length s - start) s) as Hlen.
  assert (Hstop : stop <= String.length s) by lia.
  split; [lia|]. split; [reflexivity|]. split.
  - apply length_substring. lia.
  - rewrite substring_correct1 in Hget by lia.
    replace (stop - 1 - start + start) with (stop - 1) in Hget by lia.
    exact Hget.
Qed.

Lemma string_append_assoc (a b c : string) :
  ((a ++ b) ++ c)%string = (a ++ (b ++ c))%string.
Proof.
  induction a as [|x a IH]; cbn [append]; [reflexivity|].
  rewrite IH. reflexivity.
Qed.

Lemma scan_literal (lit rest : string) (i : nat) (depth : Z) :
  literal_body lit ->
  scan_object (lit ++ rest) i depth true false
  = scan_object rest (i + String.length lit) depth true false.
Proof.
  intros H. revert i.
  induction H as [|c s Hq Hb Hs IH|c s Hs IH]; intros i;
    cbn [append String.length].
  - rewrite Nat.add_0_r. reflexivity.
  - cbn [scan_object]. rewrite Hb, Hq. cbn [andb negb].
    rewrite IH. f_equal. lia.
  - cbn [scan_object]. rewrite Ascii.eqb_refl. cbn [andb].
    rewrite IH. f_equal. lia.
Qed.

Lemma scan_body (b rest : string) (i : nat) (depth : Z) :
  object_body b ->
  (1 <= depth)%Z ->
  scan_object (b ++ rest) i depth false false
  = scan_object rest (i + String.length b) depth false false.
Proof.
  intros H. revert rest i depth.
  induction H as [|c s Hq Hl Hr Hs IH|lit s Hlit Hs IH|b s Hb IHb Hs IHs];
    intros rest i depth Hd; cbn [append String.length].
  - rewrite Nat.add_0_r. reflexivity.
  - cbn [scan_object]. rewrite Hq, Hl, Hr. cbn [andb negb].
    rewrite andb_false_r. cbn [negb]. rewrite IH by exact Hd. f_equal. lia.
  - cbn [scan_object]. rewrite Ascii.eqb_refl.
    replace (Ascii.eqb dquote backslash) with false by reflexivity.
    cbn [andb negb].
    rewrite string_append_assoc. cbn [append].
    rewrite scan_literal by exact Hlit.
    cbn [scan_object]. rewrite Ascii.eqb_refl.
    replace (Ascii.eqb dquote backslash) with false by reflexivity.
    cbn [andb negb].
    replace (Ascii.eqb dquote lbrace) with false by reflexivity.
    replace (Ascii.eqb dquote rbrace) with false by reflexivity.
    rewrite IH by exact Hd. f_equal.
    rewrite length_append. cbn [String.length]. lia.
  - cbn [scan_object].
    replace (Ascii.eqb lbrace backslash) with false by reflexivity.
    replace (Ascii.eqb lbrace dquote) with false by reflexivity.
    rewrite Ascii.eqb_refl. cbn [andb negb].
    rewrite string_append_assoc. cbn [append].
    rewrite IHb by lia.
    cbn [scan_object].
    replace (Ascii.eqb rbrace backslash) with false by reflexivity.
    replace (Ascii.eqb rbrace dquote) with false by reflexivity.
    replace (Ascii.eqb rbrace lbrace) with false by reflexivity.
    rewrite Ascii.eqb_refl. cbn [andb negb].
    replace (depth + 1 - 1)%Z with depth by lia.
    destruct (Z.eqb_spec depth 0) as [E|_]; [lia|].
    rewrite IHs by exact Hd. f_equal.
    rewrite length_append. cbn [String.length]. lia.
Qed.

Lemma substring_skip (pre t : string) (m : nat) :
  substring (String.length pre) m (pre ++ t) = substring 0 m t.
Proof.
  induction pre as [|c pre IH]; cbn [append String.length substring];
    [reflexivity|exact IH].
Qed.

Lemma substring_prefix (t u : string) :
  substring 0 (String.length t) (t ++ u) = t.
Proof.
  induction t as [|c t IH]; cbn [append String.length substring].
  - destruct u; reflexivity.
  - rewrite IH. reflexivity.
Qed.

(** X21.  An object of the log is found whole: when the text at
    [start] is an opening brace, a body made of plain characters,
    string literals (which may hold braces, and quotes behind a
    backslash) and nested objects, and the closing brace,
    [_extract_json_at] returns exactly that text and the index after
    it, whatever comes before and after. *)
Theorem extract_json_at_object (pre body post : string) :
  object_body body ->
  let obj := String lbrace (body ++ String rbrace EmptyString) in
  _extract_json_at (pre ++ obj ++ post) (String.length pre)
  = (Some obj, String.length pre + String.length obj).
Proof.
  intros Hbody. cbv zeta.
  set (obj := String lbrace (body ++ String rbrace EmptyString)).
  unfold _extract_json_at, slice.
  assert (Hall : String.length (pre ++ obj ++ post) - String.length pre
                 = String.length (obj ++ post)).
  { rewrite length_append. lia. }
  rewrite Hall, substring_append.
  assert (Hscan : scan_object (obj ++ post) (String.length pre) 0 false false
                  = Some (String.length pre + String.length obj)).
  { unfold obj. cbn [append scan_object].
    replace (Ascii.eqb lbrace backslash) with false by reflexivity.
    replace (Ascii.eqb lbrace dquote) with false by reflexivity.
    rewrite Ascii.eqb_refl. cbn [andb negb].
    rewrite string_append_assoc. cbn [append].
    rewrite scan_body by (exact Hbody || lia).
    cbn [scan_object].
    replace (Ascii.eqb rbrace backslash) with false by reflexivity.
    replace (Ascii.eqb rbrace dquote) with false by reflexivity.
    replace (Ascii.eqb rbrace lbrace) with false by reflexivity.
    rewrite Ascii.eqb_refl. cbn [andb negb Z.add Z.sub Z.eqb Z.opp
                                 Z.pos_sub].
    f_equal. cbn [String.length]. rewrite length_append.
    cbn [String.length]. lia. }
  rewrite Hscan. f_equal. f_equal.
  replace (String.length pre + String.length obj - String.length pre)
    with (String.length obj) by lia.
  rewrite substring_skip. apply substring_prefix.
Qed.

Lemma extract_json_at_object_witness :
  _extract_json_at log_line 6 = (Some log_object, 23).
Proof.
  assert (Hbody : object_body
            ("a:" ++ String lbrace ("b:1" ++ String rbrace
               (",c:" ++ String dquote ("x}y" ++ String dquote EmptyString))))).
  { apply (body_char "a"); try reflexivity.
    apply (body_char ":"); try reflexivity.
    apply (body_object
             "b:1"
             (",c:" ++ String dquote ("x}y" ++ String dquote EmptyString))).
    - repeat (apply body_char; try reflexivity). apply body_end.
    - apply (body_char ","); try reflexivity.
      apply (body_char "c"); try reflexivity.
      apply (body_char ":"); try reflexivity.
      apply (body_literal "x}y" EmptyString).
      + repeat (apply literal_char; try reflexivity). apply literal_end.
      + apply body_end. }
  exact (extract_json_at_object "saved " _ " ok" Hbody).
Defined.

Lemma scan_segments_runs (json_loads : string -> option value)
  (content : string) (fuel pos : nat) (segments : list segment) :
  String.length content - pos < fuel ->
  exists found,
    scan_segments json_loads fuel content pos segments = Some found.
Proof.
  revert pos segments.
  induction fuel as [|fuel IH]; intros pos segments Hfuel; [lia|].
  cbn [scan_segments].
  destruct (pos <? String.length content) eqn:Hpos; cbn [negb]; [|eauto].
  apply Nat.ltb_lt in Hpos.
  destruct (String.index 0 "{" _) as [m_start|]; [|eauto].
  pose proof (extract_json_at_bounds_of content (pos + m_start)) as Hb.
  destruct (_extract_json_at content (pos + m_start)) as [[obj|] stop].
  - destruct (String.eqb obj ""); [apply IH; lia|].
    apply IH. lia.
  - apply IH. lia.
Qed.

(** X22.  Pass 1 of the log reader always comes to an end: on every
    log text, whatever [json.loads] makes of the objects found, the
    loop finishes within [len(content)] turns, because every turn
    moves [pos] forward. *)
Theorem scan_segments_terminates (json_loads : string -> option value)
  (content : string) :
  exists found,
    scan_segments json_loads (S (String.length content)) content 0 []
    = Some found.
Proof.
  apply scan_segments_runs. lia.
Qed.

(** ** The code loop *)

Lemma fresh_code_busy (user_data : store) (r : rng) (k pos fuel : nat) :
  (forall j, j < k ->
             store_mem (generate_code 6 r (pos + 6 * j)) user_data = true) ->
  fuel <= k ->
  fresh_code fuel user_data r pos = None.
Proof.
  revert pos k. induction fuel as [|fuel IH]; intros pos k Hbusy Hfuel;
    cbn [fresh_code]; [reflexivity|].
  destruct k as [|k]; [lia|].
  pose proof (Hbusy 0 ltac:(lia)) as H0.
  replace (pos + 6 * 0) with pos in H0 by lia. rewrite H0.
  apply (IH (pos + 6) k); [|lia].
  intros j Hj. specialize (Hbusy (S j) ltac:(lia)).
  replace (pos + 6 + 6 * j) with (pos + 6 * S j) by lia. exact Hbusy.
Qed.

(** X23.  The loop [while code in user_data: code = generate_code()]
    ends with the first code drawn that is not a key of the store: when
    the first [k] codes drawn are taken and the next one is free, the
    loop returns that one after [k + 1] draws of six characters, and it
    is still running after any smaller number of draws. *)
Theorem code_loop_first_free (user_data : store) (r : rng) (k pos : nat) :
  (forall j, j < k ->
             store_mem (generate_code 6 r (pos + 6 * j)) user_data = true) ->
  store_mem (generate_code 6 r (pos + 6 * k)) user_data = false ->
  (forall fuel, k < fuel ->
                fresh_code fuel user_data r pos
                = Some (generate_code 6 r (pos + 6 * k), pos + 6 * (k + 1)))
  /\ (forall fuel, fuel <= k -> fresh_code fuel user_data r pos = None).
Proof.
  intros Hbusy Hfree. split.
  - intros fuel Hfuel.
    rewrite (fresh_code_terminates user_data r k pos fuel Hbusy Hfree Hfuel).
    f_equal. f_equal. lia.
  - intros fuel Hfuel. apply (fresh_code_busy user_data r k); assumption.
Qed.

Lemma code_loop_first_free_witness :
  fresh_code 2 crowded_store counting_rng 0 = Some ("GHIJKL", 12)
  /\ fresh_code 1 crowded_store counting_rng 0 = None.
Proof.
  assert (Hbusy : forall j, j < 1 ->
            store_mem (generate_code 6 counting_rng (0 + 6 * j)) crowded_store
            = true).
  { intros [|j] Hj; [reflexivity|lia]. }
  destruct (code_loop_first_free crowded_store counting_rng 1 0 Hbusy eq_refl)
    as [H1 H2].
  split.
  - exact (H1 2 (le_n 2)).
  - exact (H2 1 (le_n 1)).
Defined.

(** ** PATCH with a status that is not one of the six *)

(** X5.  An authorised PATCH of an existing flight whose body gives
    [status] as a string other than the six statuses is answered with
    422 and changes nothing in the store, whatever else the body
    holds. *)
Theorem update_flight_unknown_status (guilds : list guild)
  (session : option value) (s : value) (user_data : store) (code : string)
  (d body : dict) (status : string) :
  require_auth session = Ok s ->
  store_get (upper code) user_data = Some (VDict d) ->
  dict_mem "flight_number" d = true ->
  dict_get "status" body = Some (VStr status) ->
  ~ In status
      ["On–Time"; "Delayed"; "Cancelled"; "Rescheduled"; "N/A"; "Ended"] ->
  update_flight guilds session user_data code (VDict body)
  = (user_data, Raise (HTTPException 422)).
Proof.
  intros Hauth Hget Hfn Hst Hnot.
  apply (update_flight_invalid_status_422 guilds session s user_data code
           body (VDict d) (VStr status) Hauth
           (lookup_flight_dict _ _ _ Hget Hfn) Hst).
  unfold in_valid_statuses. cbn [hash_key bind VALID_STATUSES existsb key_eqb].
  f_equal. cbn [In] in Hnot.
  repeat match goal with
         | |- context [String.eqb status ?t] =>
             destruct (String.eqb_spec status t);
             [subst status; exfalso; apply Hnot; auto 10|]
         end.
  reflexivity.
Qed.

Lemma update_flight_unknown_status_witness :
  update_flight [sample_guild] sample_auth sample_store "ab12cd"
                (VDict sample_bad_status)
  = (sample_store, Raise (HTTPException 422)).
Proof.
  apply (update_flight_unknown_status [sample_guild] sample_auth
           (VDict [ (KStr "user_id", VStr "42");
                    (KStr "has_role", VBool true);
                    (KStr "exp", VInt 2000000000) ])
           sample_store "ab12cd" sample_fields sample_bad_status "Boarding");
    try reflexivity.
  cbn [In]. intros H. decompose [or] H; discriminate || assumption.
Defined.

(** ** Dates that come back from the dashboard *)

Lemma strptime_dmY_valid (s : string) (dt : datetime) :
  strptime_dmY s = Some dt ->
  valid_date (year dt) (month dt) (day dt) = true.
Proof.
  intros H. apply (strptime_dmY_reads s dt H).
Qed.

(** One to three digits: what [%Y] writes for a year below 1000. *)
Definition short_year (t : string) : bool :=
  match t with
  | String a "" => is_digit a
  | String a (String b "") => is_digit a && is_digit b
  | String a (String b (String c "")) => is_digit a && is_digit b && is_digit c
  | _ => false
  end.

Lemma str_of_nat_short (y : nat) : y < 1000 -> short_year (str_of_nat y) = true.
Proof.
  intros Hy.
  assert (Hall : forallb (fun y => short_year (str_of_nat y)) (seq 0 1000)
                 = true) by (vm_compute; reflexivity).
  rewrite forallb_forall in Hall. apply Hall, in_seq. lia.
Qed.

Lemma is_digit_match (a : ascii) (rest : string) :
  is_digit a = true -> match_digit (String a rest) = Some (digit_val a, rest).
Proof.
  apply (between_digit 48 57); lia.
Qed.

(** A year of fewer than four digits before the hyphen is not a [%Y]. *)
Lemma strptime_Ymd_short (t rest : string) :
  short_year t = true -> strptime_Ymd (t ++ String "-" rest) = None.
Proof.
  intros Ht. unfold strptime_Ymd, match_Y.
  destruct t as [|a [|b [|c [|? ?]]]]; try discriminate; cbn [short_year] in Ht;
    repeat match type of Ht with
           | _ && _ = true =>
               let H := fresh "Hd" in
               apply andb_true_iff in Ht; destruct Ht as [Ht H]
           end;
    cbn [append];
    rewrite ?is_digit_match by assumption;
    reflexivity.
Qed.

(** X24.  A stored date [strptime] accepts as DDMMYYYY reads as day,
    month and year of a calendar date.  From the year 1000 on it is
    shown as YYYY-MM-DD, and sending the date shown back through POST
    stores the zero-padded DDMMYYYY form of the same day, which is shown
    as the same YYYY-MM-DD again; the stored text itself need not come
    back, since a date the wizard took without padding is stored padded
    after the round trip.  Below the year 1000 the date is shown with
    the year as [%Y] writes it, without leading zeros, and POST stores
    the text shown as it is. *)
Theorem dep_date_canonical (s : string) (dt : datetime) :
  strptime_dmY s = Some dt ->
  let y := year dt in
  let m := month dt in
  let d := day dt in
  reads_as s d m y
  /\ calendar_date y m d
  /\ (1000 <= y ->
      dep_date_display (VStr s) = VStr (ymd_text y m d)
      /\ dep_date_stored (dep_date_display (VStr s)) = VStr (dmy_text d m y)
      /\ dep_date_display (dep_date_stored (dep_date_display (VStr s)))
         = dep_date_display (VStr s))
  /\ (y < 1000 ->
      dep_date_display (VStr s)
      = VStr (str_of_nat y ++ "-" ++ two_digits m ++ "-" ++ two_digits d)
      /\ dep_date_stored (dep_date_display (VStr s))
         = dep_date_display (VStr s)).
Proof.
  intros H y m d. destruct (strptime_dmY_reads s dt H) as [Hr Hv].
  fold y m d in Hr, Hv.
  assert (Hd : dep_date_display (VStr s) = VStr (strftime_Ymd dt)).
  { unfold dep_date_display. rewrite H. reflexivity. }
  split; [exact Hr|]. split; [apply valid_date_iff, Hv|]. split.
  - intros Hy. destruct (valid_date_bounds y m d Hv) as ((_ & Hy') & _).
    destruct (dep_date_round_trip y m d Hv Hy) as [Hst Hdi].
    assert (Hd' : dep_date_display (VStr s) = VStr (ymd_text y m d)).
    { rewrite Hd. destruct dt as [y0 m0 d0]. cbn [year month day] in *.
      subst y m d. apply f_equal, strftime_Ymd_text. lia. }
    rewrite Hd', Hst, Hdi. repeat split.
  - intros Hy. rewrite Hd. split; [reflexivity|].
    unfold dep_date_stored, strftime_Ymd, strftime_Y. fold y.
    change ("-" ++ pad2 (month dt) ++ "-" ++ pad2 (day dt))%string
      with (String "-" (pad2 (month dt) ++ "-" ++ pad2 (day dt))).
    rewrite strptime_Ymd_short; [reflexivity|].
    apply str_of_nat_short. exact Hy.
Qed.

Lemma dep_date_canonical_witness :
  (dep_date_display (VStr "1092025") = VStr "2025-09-10"
   /\ dep_date_stored (dep_date_display (VStr "1092025")) = VStr "10092025")
  /\ (dep_date_display (VStr "01010999") = VStr "999-01-01"
      /\ dep_date_stored (dep_date_display (VStr "01010999"))
         = VStr "999-01-01").
Proof.
  split.
  - destruct (dep_date_canonical "1092025" (mkdate 2025 9 10) eq_refl)
      as (_ & _ & H & _).
    destruct H as (H1 & H2 & _); [repeat constructor|].
    split; [exact H1|exact H2].
  - destruct (dep_date_canonical "01010999" (mkdate 999 1 1) eq_refl)
      as (_ & _ & _ & H).
    destruct H as (H1 & H2); [cbn [year]; repeat constructor|].
    split; [exact H1|]. rewrite H2. exact H1.
Defined.

(** ** Requests without a session *)

Section Unauthorised.

Variable SECRET_KEY : string.
Variable hmac_sha256_hexdigest : string -> string -> string.
Variable json_loads : string -> option value.
Variable urlsafe_b64decode : string -> option string.

Local Abbreviation cookie_session :=
  (get_session SECRET_KEY hmac_sha256_hexdigest json_loads urlsafe_b64decode).

(** X25.  A request whose cookie is missing, empty, without a dot, or
    signed with anything but the HMAC of its payload part has no
    session, and without a session every endpoint of the API answers
    401, posts nothing and leaves the store as it is. *)
Theorem no_session_no_access (now : Q) (cookie : option string)
  (guilds : list guild) (servers : list announce_guild) (r : rng)
  (pos fuel : nat) (now_iso : string) (user_data : store) (code : string)
  (body : value) :
  (cookie = None
   \/ cookie = Some ""
   \/ (exists token, cookie = Some token /\ rsplit_dot token = None)
   \/ (exists token b64 sig,
         cookie = Some token /\ rsplit_dot token = Some (b64, sig)
         /\ sig <> hmac_sha256_hexdigest SECRET_KEY b64)) ->
  let session := cookie_session now cookie in
  session = None
  /\ get_flights session user_data = Raise (HTTPException 401)
  /\ get_flight session user_data code = Raise (HTTPException 401)
  /\ get_stats session user_data = Raise (HTTPException 401)
  /\ update_flight guilds session user_data code body
     = (user_data, Raise (HTTPException 401))
  /\ create_flight guilds r pos fuel now_iso session user_data body
     = Some (user_data, Raise (HTTPException 401))
  /\ delete_flight session user_data code
     = (user_data, Raise (HTTPException 401))
  /\ refresh_embed guilds session user_data code
     = (user_data, Raise (HTTPException 401))
  /\ start_flight_api servers session user_data code body
     = (user_data, [], Raise (HTTPException 401))
  /\ close_flight_api servers session user_data code
     = (user_data, Raise (HTTPException 401))
  /\ send_reminder_api servers session user_data code body
     = ([], Raise (HTTPException 401))
  /\ post_announcement servers session body
     = ([], Raise (HTTPException 401)).
Proof.
  intros Hcookie. cbv zeta.
  assert (Hnone : cookie_session now cookie = None).
  { unfold get_session, _verify.
    destruct Hcookie as [->|[->|[(token & -> & Hsplit)
                                |(token & b64 & sig & -> & Hsplit & Hsig)]]];
      try reflexivity.
    - destruct (String.eqb token ""); [reflexivity|].
      rewrite Hsplit. reflexivity.
    - destruct (String.eqb token ""); [reflexivity|].
      rewrite Hsplit. apply String.eqb_neq in Hsig. rewrite Hsig.
      reflexivity. }
  rewrite Hnone. repeat split.
Qed.

End Unauthorised.

Lemma no_session_no_access_witness :
  get_session sample_key checksum_hex exp_loads plain_decode (999 # 1)
              (Some "exp=1000.00000") = None
  /\ delete_flight
       (get_session sample_key checksum_hex exp_loads plain_decode (999 # 1)
                    (Some "exp=1000.00000"))
       sample_store "ab12cd"
     = (sample_store, Raise (HTTPException 401)).
Proof.
  destruct (no_session_no_access sample_key checksum_hex exp_loads
              plain_decode (999 # 1) (Some "exp=1000.00000") [] []
              counting_rng 0 0 "" sample_store "ab12cd" VNone)
    as (H1 & _ & _ & _ & _ & _ & H7 & _).
  - right. right. right. exists "exp=1000.00000", "exp=1000", "00000".
    split; [reflexivity|]. split; [reflexivity|].
    vm_compute. discriminate.
  - split; [exact H1|exact H7].
Defined.

(** ** The shape of the store is kept *)

Lemma wf_get (user_data : store) (k : string) (v : value) :
  well_formed user_data = true ->
  store_get k user_data = Some v ->
  k <> "_day_msgs" ->
  shaped v = true.
Proof.
  unfold well_formed, store_get. intros Hwf Hget Hk.
  induction user_data as [|[k' v'] ud IH]; cbn [assoc_get forallb fst snd] in *;
    [discriminate|].
  apply andb_true_iff in Hwf. destruct Hwf as [H1 H2].
  destruct (String.eqb_spec k k') as [<-|_].
  - injection Hget as <-. apply String.eqb_neq in Hk. rewrite Hk in H1.
    exact H1.
  - exact (IH H2 Hget).
Qed.

Lemma wf_set (user_data : store) (k : string) (v : value) :
  well_formed user_data = true ->
  (k <> "_day_msgs" -> shaped v = true) ->
  well_formed (store_set k v user_data) = true.
Proof.
  unfold well_formed, store_set. intros Hwf Hv.
  assert (Hkv : String.eqb k "_day_msgs" || shaped v = true).
  { destruct (String.eqb_spec k "_day_msgs") as [_|Hne]; [reflexivity|].
    exact (Hv Hne). }
  induction user_data as [|[k' v'] ud IH]; cbn [assoc_set forallb fst snd] in *.
  - rewrite Hkv. reflexivity.
  - apply andb_true_iff in Hwf. destruct Hwf as [H1 H2].
    destruct (String.eqb_spec k k') as [<-|_]; cbn [forallb fst snd].
    + rewrite Hkv, H2. reflexivity.
    + rewrite H1, (IH H2). reflexivity.
Qed.

Lemma wf_del (user_data : store) (k : string) :
  well_formed user_data = true -> well_formed (store_del k user_data) = true.
Proof.
  unfold well_formed, store_del.
  induction user_data as [|[k' v'] ud IH]; cbn [filter forallb fst snd];
    [reflexivity|].
  intros Hwf. apply andb_true_iff in Hwf. destruct Hwf as [H1 H2].
  destruct (negb (String.eqb k k')); cbn [forallb fst snd];
    rewrite ?H1, (IH H2); reflexivity.
Qed.

Lemma wf_day_msgs (user_data : store) (v : value) :
  well_formed user_data = true ->
  well_formed (store_set "_day_msgs" v user_data) = true.
Proof.
  intros Hwf. apply wf_set; [exact Hwf|]. intros H. contradiction.
Qed.

Lemma wf_board (g : guild) (date_raw : value) (user_data : store) :
  well_formed user_data = true ->
  well_formed (fst (post_or_update_day_schedule g date_raw user_data)) = true.
Proof.
  intros Hwf. unfold post_or_update_day_schedule.
  assert (H2 : well_formed
                 (if store_mem "_day_msgs" user_data then user_data
                  else store_set "_day_msgs" (VDict []) user_data) = true).
  { destruct (store_mem "_day_msgs" user_data);
      [exact Hwf|apply wf_day_msgs, Hwf]. }
  destruct (public_channel g); cbn [negb fst]; [|exact Hwf].
  destruct (group_flights_by_date _) as [grouped|]; [|exact Hwf].
  destruct (hash_key date_raw) as [dk|]; [|exact Hwf].
  destruct (assoc_get key_eqb dk grouped) as [[|x l]|]; try exact Hwf.
  destruct (build_day_embed _); [|exact Hwf].
  destruct (store_get "_day_msgs" _) as [[| | | | |day_msgs]|]; try exact H2.
  destruct (truthy _ && edit_existing g); [exact H2|].
  destruct (public_send g); [|exact H2].
  cbn [fst]. apply wf_day_msgs, H2.
Qed.

Lemma wf_refresh_after_update (guilds : list guild) (entry : value)
  (user_data : store) :
  well_formed user_data = true ->
  well_formed (refresh_after_update guilds entry user_data) = true.
Proof.
  revert user_data.
  induction guilds as [|g guilds IH]; intros user_data Hwf;
    cbn [refresh_after_update]; [exact Hwf|].
  destruct (py_get entry "dep_date" VNone) as [dep_date|]; [|apply IH, Hwf].
  destruct (truthy dep_date); [|exact Hwf].
  pose proof (wf_board g dep_date user_data Hwf) as H.
  destruct (post_or_update_day_schedule g dep_date user_data)
    as [user_data' [u|e]]; cbn [fst] in H; [exact H|apply IH, H].
Qed.

Lemma wf_refresh_all (guilds : list announce_guild) (dep_date : value)
  (user_data : store) :
  well_formed user_data = true ->
  well_formed (refresh_all guilds dep_date user_data) = true.
Proof.
  revert user_data.
  induction guilds as [|g guilds IH]; intros user_data Hwf; cbn [refresh_all];
    [exact Hwf|].
  apply IH, wf_board, Hwf.
Qed.

Lemma wf_refresh_until_ok (guilds : list announce_guild) (dep_date : value)
  (user_data : store) :
  well_formed user_data = true ->
  well_formed (refresh_until_ok guilds dep_date user_data) = true.
Proof.
  revert user_data.
  induction guilds as [|g guilds IH]; intros user_data Hwf;
    cbn [refresh_until_ok]; [exact Hwf|].
  pose proof (wf_board (day_board g) dep_date user_data Hwf) as H.
  destruct (post_or_update_day_schedule (day_board g) dep_date user_data)
    as [user_data' [u|e]]; cbn [fst] in H; [exact H|apply IH, H].
Qed.

Lemma lookup_flight_get (user_data : store) (code : string) (entry : value) :
  lookup_flight user_data code = Ok entry ->
  store_get code user_data = Some entry.
Proof.
  unfold lookup_flight.
  destruct (store_get code user_data) as [v|]; [|discriminate].
  destruct (negb (truthy v)); [discriminate|].
  destruct (py_in "flight_number" v) as [[|]|]; cbn [bind negb];
    try discriminate.
  intros [= <-]. reflexivity.
Qed.

Lemma shaped_plain_update (e v e' : value) (k : string) :
  key_eqb "gate" k = false -> key_eqb "server" k = false ->
  key_eqb "event" k = false ->
  shaped e = true -> entry_update e k v = Ok e' -> shaped e' = true.
Proof.
  intros Kg Ks Ke. destruct e as [| | | | |d]; try discriminate.
  cbn [shaped entry_update]. intros Hok [= <-]. cbn [shaped].
  unfold subdicts_ok in *. rewrite !subdict_ok_dict_set, Kg, Ks, Ke.
  exact Hok.
Qed.

Lemma shaped_nested_update (e v e' : value) (o i : string) :
  In o ["gate"; "server"; "event"] ->
  shaped e = true -> entry_update_nested e o i v = Ok e' -> shaped e' = true.
Proof.
  intros Ho. destruct e as [| | | | |d]; try discriminate.
  cbn [shaped]. intros Hok.
  assert (Hgk : subdict_ok "gate" d = true /\ subdict_ok "server" d = true
                /\ subdict_ok "event" d = true).
  { unfold subdicts_ok in Hok. rewrite !andb_true_iff in Hok. tauto. }
  destruct Hgk as (Hg & Hs & He).
  assert (Hod : subdict_ok o d = true).
  { cbn [In] in Ho. decompose [or] Ho; subst; try contradiction; assumption. }
  rewrite (entry_update_nested_ok o i v d Hod). intros [= <-]. cbn [shaped].
  unfold subdicts_ok. rewrite !subdict_ok_nested_set by assumption.
  reflexivity.
Qed.

Lemma apply_fields_shaped
  (fields : list (string * (value -> value -> result value)))
  (body entry : value) (updated : list string) :
  Forall (fun fu => forall e v e', shaped e = true -> snd fu e v = Ok e' ->
                                   shaped e' = true) fields ->
  shaped entry = true ->
  shaped (fst (apply_fields fields body entry updated)) = true.
Proof.
  intros Hall. revert entry updated.
  induction Hall as [|[f upd] fields Hupd Hall IH]; intros entry updated He;
    cbn [apply_fields fst]; [exact He|].
  destruct (py_in f body) as [[|]|]; try exact He; [|apply IH, He].
  destruct (py_index body f) as [v|]; [|exact He].
  destruct (upd entry v) as [entry'|] eqn:Hu; [|exact He].
  apply IH. exact (Hupd entry v entry' He Hu).
Qed.

Lemma field_map_shaped :
  Forall (fun fu => forall e v e', shaped e = true -> snd fu e v = Ok e' ->
                                   shaped e' = true) field_map.
Proof.
  unfold field_map.
  repeat (apply Forall_cons;
          [ cbn [snd]; intros e v e' He Hu;
            first [ eapply shaped_plain_update;
                    [ | | | exact He | exact Hu]; reflexivity
                  | eapply shaped_nested_update;
                    [ | exact He | exact Hu]; cbn [In]; tauto ]
          | ]).
  apply Forall_nil.
Qed.

Lemma wf_announce_created (guilds : list guild) (code : string)
  (entry dd : value) (user_data : store) :
  well_formed user_data = true ->
  shaped entry = true ->
  well_formed (fst (announce_created guilds code entry dd user_data)) = true
  /\ shaped (snd (announce_created guilds code entry dd user_data)) = true.
Proof.
  intros Hwf He. unfold announce_created.
  destruct guilds as [|g _]; [auto|].
  pose proof (wf_board g dd user_data Hwf) as Hb.
  destruct (admin_channel g); [|auto].
  destruct (admin_send g) as [msg_id|]; [|auto].
  destruct entry as [| | | | |d]; try discriminate.
  cbn [fst snd shaped] in *.
  assert (Hs : subdicts_ok (dict_set "admin_message_id" (VStr msg_id) d)
               = true).
  { unfold subdicts_ok in *. rewrite !subdict_ok_dict_set. exact He. }
  split; [|exact Hs]. apply wf_set; [exact Hb|]. intros _. exact Hs.
Qed.

Lemma set_server_link_shaped (entry : value) (link : string) (e1 : dict) :
  shaped entry = true ->
  set_server_link entry link = Ok e1 ->
  subdicts_ok e1 = true.
Proof.
  destruct entry as [| | | | |d]; try discriminate. cbn [shaped].
  intros Hok. unfold set_server_link. cbn [py_index].
  destruct (dict_get "server" d) as [[| | | | |sub]|]; cbn [bind];
    try discriminate.
  intros [= <-]. apply subdicts_ok_set_server. exact Hok.
Qed.

Lemma flight_entry_shaped (code : string) (user_id : Z) (d : dict)
  (now_iso : string) :
  subdicts_ok (flight_entry code user_id d now_iso) = true.
Proof.
  unfold flight_entry, subdicts_ok. cbv zeta.
  rewrite !subdict_ok_dict_set. reflexivity.
Qed.

Lemma live_forallb (P : key * value -> bool) (d : dict) (seen : list key) :
  forallb P d = true -> forallb P (live seen d) = true.
Proof.
  revert seen. induction d as [|[k v] d IH]; intros seen; cbn [live forallb];
    [reflexivity|].
  rewrite andb_true_iff. intros [Hk Hd].
  destruct (existsb (key_eqb k) seen); [apply IH, Hd|].
  cbn [forallb]. rewrite Hk. apply IH, Hd.
Qed.

Lemma dict_update_shaped (d fields : dict) :
  subdicts_ok d = true ->
  forallb (fun kv => negb (key_eqb "gate" (fst kv))
                     && negb (key_eqb "server" (fst kv))
                     && negb (key_eqb "event" (fst kv))) fields = true ->
  subdicts_ok (dict_update d fields) = true.
Proof.
  unfold dict_update. intros Hd Hf.
  apply (live_forallb _ fields []) in Hf.
  revert d Hd Hf.
  induction (live [] fields) as [|[k v] l IH]; intros d Hd Hf;
    cbn [fold_left forallb fst snd] in *; [exact Hd|].
  rewrite !andb_true_iff, !negb_true_iff in Hf.
  destruct Hf as [[[Kg Ks] Ke] Hrest].
  apply IH; [|exact Hrest].
  unfold subdicts_ok in *. rewrite !subdict_ok_dict_set, Kg, Ks, Ke.
  exact Hd.
Qed.

Lemma str_of_int_not_day_msgs (n : Z) : str_of_int n <> "_day_msgs".
Proof.
  unfold str_of_int.
  destruct (Z.to_int n) as [u|u]; destruct u; cbn; discriminate.
Qed.

Lemma update_session_wf (uid : Z) (fields : dict) (user_data user_data' : store)
  (reply : form_reply) :
  forallb (fun kv => negb (key_eqb "gate" (fst kv))
                     && negb (key_eqb "server" (fst kv))
                     && negb (key_eqb "event" (fst kv))) fields = true ->
  well_formed user_data = true ->
  update_session uid fields user_data = Ok (user_data', reply) ->
  well_formed user_data' = true.
Proof.
  intros Hf Hwf. unfold update_session.
  destruct (store_get (str_of_int uid) user_data) as [[| | | | |d]|] eqn:Hget;
    try discriminate.
  - intros [= <- _]. apply wf_set; [exact Hwf|]. intros Hk.
    pose proof (wf_get _ _ _ Hwf Hget Hk) as Hd. cbn [shaped] in *.
    apply dict_update_shaped; assumption.
  - intros [= <- _]. exact Hwf.
Qed.

(** X26.  Every function that writes to the store keeps it well formed
    (each value, the day-message ids apart, a dict whose [gate],
    [server] and [event] are dicts where present): PATCH, POST, DELETE,
    refresh, start and close of the API, whatever they answer, the
    three forms and the Yes button of the wizard, and the gates form of
    the admin panel. *)
Theorem store_stays_well_formed (user_data : store) :
  well_formed user_data = true ->
  (forall guilds session code body,
      well_formed (fst (update_flight guilds session user_data code body))
      = true)
  /\ (forall guilds r pos fuel now_iso session body user_data' answer,
        create_flight guilds r pos fuel now_iso session user_data body
        = Some (user_data', answer) ->
        well_formed user_data' = true)
  /\ (forall session code,
        well_formed (fst (delete_flight session user_data code)) = true)
  /\ (forall guilds session code,
        well_formed (fst (refresh_embed guilds session user_data code)) = true)
  /\ (forall guilds session code body,
        well_formed
          (fst (fst (start_flight_api guilds session user_data code body)))
        = true)
  /\ (forall guilds session code,
        well_formed (fst (close_flight_api guilds session user_data code))
        = true)
  /\ (forall r pos fuel now_iso user_id last presser user_data' outcome,
        yes_button r pos fuel now_iso user_id last presser user_data
        = Some (user_data', outcome) ->
        well_formed user_data' = true)
  /\ (forall uid a b c d e,
        well_formed (modal1_on_submit uid a b c d e user_data) = true)
  /\ (forall uid a b c d user_data' reply,
        modal2_on_submit uid a b c d user_data = Ok (user_data', reply) ->
        well_formed user_data' = true)
  /\ (forall uid a b c d user_data' reply,
        modal3_on_submit uid a b c d user_data = Ok (user_data', reply) ->
        well_formed user_data' = true)
  /\ (forall g code dep_gate arr_gate user_data',
        set_gates_on_submit g code dep_gate arr_gate user_data
        = Ok (Some user_data') ->
        well_formed user_data' = true).
Proof.
  intros Hwf.
  assert (Hentry : forall code entry,
             lookup_flight user_data (upper code) = Ok entry ->
             shaped entry = true).
  { intros code entry H. apply lookup_flight_get in H.
    exact (wf_get _ _ _ Hwf H (upper_not_day_msgs code)). }
  repeat match goal with |- _ /\ _ => split end.
  - intros guilds session code body. unfold update_flight.
    destruct (require_auth session); [|exact Hwf].
    destruct (lookup_flight user_data (upper code)) as [entry|] eqn:Hl;
      [|exact Hwf].
    destruct (check_status body); [|exact Hwf].
    pose proof (apply_fields_shaped field_map body entry [] field_map_shaped
                  (Hentry code entry Hl)) as Hs.
    destruct (apply_fields field_map body entry []) as [entry' [updated|e]];
      cbn [fst] in *.
    + destruct updated as [|u updated].
      * apply wf_set; auto.
      * apply wf_refresh_after_update, wf_set; auto.
    + apply wf_set; auto.
  - intros guilds r pos fuel now_iso session body user_data' answer.
    unfold create_flight.
    destruct (require_auth session); [|intros [= <- _]; exact Hwf].
    destruct (missing_fields body required) as [[|f l]|];
      try (intros [= <- _]; exact Hwf).
    destruct (fresh_code fuel user_data r pos) as [[code pos']|];
      [|discriminate].
    destruct (py_index body "dep_date") as [raw|];
      [|intros [= <- _]; exact Hwf].
    cbv zeta.
    destruct (new_entry body code (dep_date_stored raw) now_iso)
      as [entry|] eqn:Hnew; [|intros [= <- _]; exact Hwf].
    destruct (new_entry_dict _ _ _ _ _ Hnew) as [d ->].
    pose proof (new_entry_subdicts _ _ _ _ _ Hnew) as Hd.
    destruct (wf_announce_created guilds code (VDict d) (dep_date_stored raw)
                (store_set code (VDict d) user_data)
                (wf_set user_data code (VDict d) Hwf (fun _ => Hd)) Hd)
      as [Hw _].
    destruct (announce_created guilds code (VDict d) (dep_date_stored raw)
                (store_set code (VDict d) user_data)) as [ud2 entry'].
    intros [= <- _]. exact Hw.
  - intros session code. unfold delete_flight.
    destruct (require_auth session); [|exact Hwf].
    destruct (store_get (upper code) user_data) as [entry|]; [|exact Hwf].
    destruct (py_in "flight_number" entry) as [[|]|]; try exact Hwf.
    destruct (py_get entry "flight_number" _); [|exact Hwf].
    apply wf_del, Hwf.
  - intros guilds session code. unfold refresh_embed.
    destruct (require_auth session); [|exact Hwf].
    destruct (lookup_flight user_data (upper code)); [|exact Hwf].
    apply wf_refresh_after_update, Hwf.
  - intros guilds session code body. unfold start_flight_api.
    destruct (require_auth session); [|exact Hwf].
    destruct (lookup_flight user_data (upper code)) as [entry|] eqn:Hl;
      [|exact Hwf].
    destruct (text_field body "server_link") as [link|]; [|exact Hwf].
    destruct (text_field body "spawn_location") as [spawn|]; [|exact Hwf].
    destruct (String.eqb link ""); [exact Hwf|].
    destruct (set_server_link entry link) as [e1|] eqn:Hset; [|exact Hwf].
    pose proof (set_server_link_shaped _ _ _ (Hentry code entry Hl) Hset)
      as He1.
    assert (Hw2 : well_formed
                    (refresh_all guilds (get_default "dep_date" (VStr "") e1)
                       (store_set (upper code) (VDict e1) user_data)) = true).
    { apply wf_refresh_all, wf_set; auto. }
    unfold announce_start.
    destruct guilds as [|g rest]; [exact Hw2|].
    destruct (announce_channel g); [|exact Hw2].
    destruct (announce_send g) as [msg_id|]; [|exact Hw2].
    cbn [fst]. apply wf_set; [exact Hw2|]. intros _. cbn [shaped].
    apply subdicts_ok_set_announce. exact He1.
  - intros guilds session code. unfold close_flight_api.
    destruct (require_auth session); [|exact Hwf].
    destruct (lookup_flight user_data (upper code)) as [entry|] eqn:Hl;
      [|exact Hwf].
    destruct (set_server_link entry GATE_CLOSED) as [e1|] eqn:Hset;
      [|exact Hwf].
    pose proof (set_server_link_shaped _ _ _ (Hentry code entry Hl) Hset)
      as He1.
    cbn [fst]. apply wf_refresh_until_ok, wf_set; auto.
  - intros r pos fuel now_iso user_id last presser user_data' outcome.
    unfold yes_button.
    destruct (negb (presser =? user_id)%Z); [intros [= <- _]; exact Hwf|].
    destruct last; [|intros [= <- _]; exact Hwf].
    destruct (store_get (str_of_int user_id) user_data) as [entry|] eqn:Hget;
      [|intros [= <- _]; exact Hwf].
    pose proof (wf_get _ _ _ Hwf Hget (str_of_int_not_day_msgs user_id))
      as He.
    destruct entry as [| | | | |d]; try discriminate.
    destruct (fresh_code fuel user_data r pos) as [[code pos']|];
      [|discriminate].
    intros [= <- _]. apply wf_set; [apply wf_set; [exact Hwf|]|].
    + intros _. apply flight_entry_shaped.
    + intros _. exact He.
  - intros uid a b c d e. unfold modal1_on_submit.
    apply wf_set; [exact Hwf|]. intros _. reflexivity.
  - intros uid a b c d user_data' reply. unfold modal2_on_submit.
    apply update_session_wf; [reflexivity|exact Hwf].
  - intros uid a b c d user_data' reply. unfold modal3_on_submit.
    apply update_session_wf; [reflexivity|exact Hwf].
  - intros g code dep_gate arr_gate user_data'. unfold set_gates_on_submit.
    destruct (store_get code user_data) as [entry|] eqn:Hget; [|discriminate].
    destruct (negb (truthy entry)); [discriminate|].
    unfold set_gate_fields.
    destruct (py_index entry "gate") as [gate|]; cbn [bind]; [|discriminate].
    destruct entry as [| | | | |d]; try discriminate.
    destruct gate as [| | | | |sub]; try discriminate.
    cbn [bind]. intros [= <-].
    assert (Hw1 : well_formed
              (store_set code
                 (VDict (dict_set "gate"
                    (VDict (dict_set "arr" (VStr (or_na arr_gate))
                              (dict_set "dep" (VStr (or_na dep_gate)) sub)))
                    d)) user_data) = true).
    { apply wf_set; [exact Hwf|]. intros Hk.
      pose proof (wf_get _ _ _ Hwf Hget Hk) as Hd. cbn [shaped] in *.
      unfold subdicts_ok in *. rewrite !subdict_ok_dict_set.
      cbn [key_eqb String.eqb Ascii.eqb Bool.eqb].
      rewrite !andb_true_iff in *. tauto. }
    unfold refresh_board. destruct g as [g|]; [|exact Hw1].
    destruct (truthy _); [|exact Hw1]. apply wf_board, Hw1.
Qed.

Lemma store_stays_well_formed_witness :
  well_formed busy_store = true
  /\ well_formed
       (fst (update_flight [sample_guild] sample_auth busy_store "qr57st"
               (VDict sample_patch))) = true.
Proof.
  split; [reflexivity|].
  destruct (store_stays_well_formed busy_store eq_refl) as [H _].
  apply H.
Defined.

Lemma serialize_all_dicts (real : store) :
  Forall (fun ce => exists json,
            serialize_entry (fst ce) (snd ce) = Ok (VDict json)) real ->
  exists items,
    serialize_all real = Ok items
    /\ List.length items = List.length real
    /\ Forall (fun item => exists json, item = VDict json) items.
Proof.
  induction 1 as [|[k v] real (json & Hjson) _ (items & Hrun & Hlen & Hall)];
    cbn [serialize_all].
  - exists []. repeat split. constructor.
  - cbn [fst snd] in Hjson. rewrite Hjson, Hrun. cbn [bind].
    exists (VDict json :: items). split; [reflexivity|]. split.
    + cbn [List.length]. rewrite Hlen. reflexivity.
    + constructor; [exists json; reflexivity|exact Hall].
Qed.

(** X27.  On a well-formed store the reading endpoints never fail with
    a server error: for an authorised session [GET /api/flights]
    answers with a list that has one serialized record for every real
    flight, and [GET /api/flights/{code}] answers either a serialized
    record or 404. *)
Theorem well_formed_reads (session : option value) (s : value)
  (user_data : store) :
  require_auth session = Ok s ->
  well_formed user_data = true ->
  (exists items,
     get_flights session user_data = Ok (VList items)
     /\ List.length items = List.length (get_real_flights user_data)
     /\ Forall (fun item => exists json, item = VDict json) items)
  /\ (forall code,
        (exists json, get_flight session user_data code = Ok (VDict json))
        \/ get_flight session user_data code = Raise (HTTPException 404)).
Proof.
  intros Hauth Hwf. split.
  - unfold get_flights. rewrite Hauth. cbn [bind].
    destruct (serialize_all_dicts (get_real_flights user_data))
      as (items & Hrun & Hlen & Hall).
    + apply Forall_forall. intros [k v] Hin.
      unfold get_real_flights in Hin. apply filter_In in Hin.
      destruct Hin as [Hin Hreal]. cbn [fst snd] in *.
      apply is_real_iff in Hreal. destruct Hreal as ((d & -> & _) & Hlen & _).
      unfold well_formed in Hwf. rewrite forallb_forall in Hwf.
      specialize (Hwf _ Hin). cbn [fst snd shaped] in Hwf.
      destruct (String.eqb_spec k "_day_msgs") as [->|_];
        [cbn in Hlen; discriminate|].
      cbn [orb] in Hwf.
      destruct (serialize_entry_ok k d Hwf) as [json Hjson].
      destruct (serialize_entry_dep_date _ _ _ Hjson) as (j & -> & _).
      exists j. exact Hjson.
    + rewrite Hrun. cbn [bind]. exists items. auto.
  - intros code. unfold get_flight. rewrite Hauth. cbn [bind].
    unfold lookup_flight.
    destruct (store_get (upper code) user_data) as [entry|] eqn:Hget;
      [|right; reflexivity].
    pose proof (wf_get _ _ _ Hwf Hget (upper_not_day_msgs code)) as He.
    destruct entry as [| | | | |d]; try discriminate. cbn [shaped] in He.
    destruct (truthy (VDict d)); cbn [negb]; [|right; reflexivity].
    cbn [py_in bind].
    destruct (dict_mem "flight_number" d); cbn [negb]; [|right; reflexivity].
    left. destruct (serialize_entry_ok (upper code) d He) as [json Hjson].
    destruct (serialize_entry_dep_date _ _ _ Hjson) as (j & -> & _).
    exists j. exact Hjson.
Qed.

Lemma well_formed_reads_witness :
  (exists json, get_flight sample_auth busy_store "qr57st" = Ok (VDict json))
  \/ get_flight sample_auth busy_store "qr57st" = Raise (HTTPException 404).
Proof.
  destruct (well_formed_reads sample_auth
              (VDict [ (KStr "user_id", VStr "42");
                       (KStr "has_role", VBool true);
                       (KStr "exp", VInt 2000000000) ])
              busy_store eq_refl eq_refl) as [_ H].
  apply H.
Defined.

(** ** Creating and deleting *)

Lemma store_del_set (k : string) (v : value) (s : store) :
  store_del k (store_set k v s) = store_del k s.
Proof.
  unfold store_del, store_set.
  induction s as [|[k' v'] s IH]; cbn [assoc_set filter fst].
  - rewrite String.eqb_refl. reflexivity.
  - destruct (String.eqb k k') eqn:E; cbn [filter fst]; rewrite E;
      cbn [negb]; [reflexivity|]. rewrite IH. reflexivity.
Qed.

Lemma store_del_absent (k : string) (s : store) :
  store_get k s = None -> store_del k s = s.
Proof.
  unfold store_del, store_get.
  induction s as [|[k' v'] s IH]; cbn [assoc_get filter fst]; [reflexivity|].
  destruct (String.eqb k k'); [discriminate|]. cbn [negb].
  intros H. rewrite (IH H). reflexivity.
Qed.

Lemma announce_created_frame (guilds : list guild) (code : string)
  (entry dd : value) (user_data : store) (k : string) :
  k <> "_day_msgs" -> k <> code ->
  store_get k (fst (announce_created guilds code entry dd user_data))
  = store_get k user_data.
Proof.
  intros Hk Hc. unfold announce_created.
  destruct guilds as [|g _]; [reflexivity|].
  pose proof (post_or_update_day_schedule_frame g dd user_data k Hk) as Hf.
  destruct (admin_channel g); [|exact Hf].
  destruct (admin_send g) as [msg_id|]; [|exact Hf].
  destruct entry; try exact Hf.
  cbn [fst]. rewrite store_get_set_other by exact Hc. exact Hf.
Qed.

Lemma announce_created_real (guilds : list guild) (code : string)
  (entry dd : value) (user_data : store) :
  get_real_flights
    (store_del code (fst (announce_created guilds code entry dd user_data)))
  = get_real_flights (store_del code user_data).
Proof.
  unfold announce_created.
  destruct guilds as [|g _]; [reflexivity|].
  assert (Hb : get_real_flights
                 (store_del code
                    (fst (post_or_update_day_schedule g dd user_data)))
               = get_real_flights (store_del code user_data)).
  { rewrite !get_real_flights_del, post_or_update_day_schedule_real.
    reflexivity. }
  destruct (admin_channel g); [|exact Hb].
  destruct (admin_send g) as [msg_id|]; [|exact Hb].
  destruct entry; try exact Hb.
  cbn [fst]. rewrite store_del_set. exact Hb.
Qed.

(** X28.  Deleting a flight that POST has just created undoes the
    creation: DELETE of the new code answers [{"deleted": CODE}], and
    afterwards the real flights are the list they were before the POST
    and every key of the store other than ["_day_msgs"] holds what it
    held before. *)
Theorem create_then_delete (guilds : list guild) (r : rng) (pos fuel : nat)
  (now_iso : string) (session : option value) (user_data user_data1 : store)
  (body json : value) (code : string) (pos' : nat) :
  fresh_code fuel user_data r pos = Some (code, pos') ->
  create_flight guilds r pos fuel now_iso session user_data body
  = Some (user_data1, Ok json) ->
  exists user_data2,
    delete_flight session user_data1 code
    = (user_data2, Ok (VDict [(KStr "deleted", VStr code)]))
    /\ get_real_flights user_data2 = get_real_flights user_data
    /\ (forall k, k <> "_day_msgs" ->
                  store_get k user_data2 = store_get k user_data).
Proof.
  intros Hfresh Hcreate.
  destruct (fresh_code_spec _ _ _ _ _ _ Hfresh) as (Hlen & Hchars & Hfree).
  unfold create_flight in Hcreate. rewrite Hfresh in Hcreate.
  destruct (require_auth session) as [s|] eqn:Hauth; [|discriminate].
  destruct (missing_fields body required) as [[|f l]|]; try discriminate.
  destruct (py_index body "dep_date") as [raw|]; [|discriminate].
  cbv zeta in Hcreate.
  destruct (new_entry body code (dep_date_stored raw) now_iso)
    as [entry|] eqn:Hnew; [|discriminate].
  destruct (new_entry_dict _ _ _ _ _ Hnew) as [d ->].
  pose proof (announce_created_frame guilds code (VDict d)
                (dep_date_stored raw) (store_set code (VDict d) user_data))
    as Hframe.
  pose proof (announce_created_real guilds code (VDict d)
                (dep_date_stored raw) (store_set code (VDict d) user_data))
    as Hreal.
  destruct (announce_created_spec guilds code d (dep_date_stored raw)
              (store_set code (VDict d) user_data)
              (code_not_day_msgs code Hlen) (store_get_set_same _ _ _))
    as (ud1 & e' & Hann & Hget & He').
  rewrite Hann in Hcreate, Hframe, Hreal. cbn [fst] in Hframe, Hreal.
  injection Hcreate as <- _.
  assert (Hfn : dict_mem "flight_number" e' = true).
  { assert (Hfd : dict_mem "flight_number" d = true).
    { revert Hnew. unfold new_entry.
      repeat match goal with
             | |- context [bind ?x _] =>
                 destruct x; cbn [bind]; try discriminate
             end.
      intros [= <-]. reflexivity. }
    destruct He' as [->|[msg_id ->]]; [exact Hfd|].
    rewrite dict_mem_set, Hfd. apply orb_true_r. }
  exists (store_del code ud1).
  split; [|split].
  - unfold delete_flight.
    rewrite Hauth, (upper_code_chars code Hchars), Hget.
    cbn [py_in py_get]. rewrite Hfn. reflexivity.
  - rewrite Hreal, store_del_set, (store_del_absent code user_data Hfree).
    reflexivity.
  - intros k Hk. destruct (String.eqb_spec k code) as [->|Hne].
    + rewrite store_get_del_same. symmetry. exact Hfree.
    + rewrite store_get_del_other by exact Hne.
      rewrite (Hframe k Hk Hne). apply store_get_set_other. exact Hne.
Qed.

Lemma create_then_delete_witness :
  exists user_data1 json user_data2,
    create_flight [sample_guild] counting_rng 0 2 "2025-09-01T12:00:00"
                  sample_auth crowded_store (VDict sample_post)
    = Some (user_data1, Ok json)
    /\ delete_flight sample_auth user_data1 "GHIJKL"
       = (user_data2, Ok (VDict [(KStr "deleted", VStr "GHIJKL")]))
    /\ get_real_flights user_data2 = get_real_flights crowded_store.
Proof.
  edestruct create_then_delete
    with (guilds := [sample_guild]) (r := counting_rng) (pos := 0)
         (fuel := 2) (now_iso := "2025-09-01T12:00:00")
         (session := sample_auth) (user_data := crowded_store)
         (body := VDict sample_post)
    as (ud2 & H1 & H2 & _); [reflexivity|reflexivity|].
  do 2 eexists. exists ud2.
  split; [reflexivity|]. split; [exact H1|exact H2].
Defined.

(** X29.  The two ways of creating a flight write records with the
    same fields: the record [POST /api/flights] stores and the record
    the wizard stores after its three forms have the same 24 keys. *)
Theorem same_fields_both_ways (body : value) (code code' : string)
  (dd : value) (now_iso now_iso' : string) (e : dict) (uid : Z)
  (a : answers) :
  new_entry body code dd now_iso = Ok (VDict e) ->
  Permutation (map fst e)
              (map fst (flight_entry code' uid (session_of a) now_iso'))
  /\ List.length e = 24.
Proof.
  unfold new_entry.
  repeat match goal with
         | |- context [bind ?x _] =>
             destruct x; cbn [bind]; try discriminate
         end.
  intros [= <-]. split; [|reflexivity].
  cbn [map fst]. cbv [flight_entry session_of dict_update].
  cbn [live existsb orb fold_left dict_set assoc_set key_eqb String.eqb
       Ascii.eqb Bool.eqb fst snd map].
  repeat perm_head. constructor.
Qed.

Lemma same_fields_both_ways_witness :
  exists e,
    new_entry (VDict sample_post) "GHIJKL" (VStr "20092025")
              "2025-09-01T12:00:00" = Ok (VDict e)
    /\ Permutation (map fst e)
         (map fst (flight_entry "ABCDEF" 123456789 (session_of sample_answers)
                     "2025-09-01T12:00:00")).
Proof.
  eexists. split; [reflexivity|].
  eapply (proj1 (same_fields_both_ways (VDict sample_post) "GHIJKL" "ABCDEF"
                   (VStr "20092025") "2025-09-01T12:00:00"
                   "2025-09-01T12:00:00" _ 123456789 sample_answers _)).
  Unshelve. reflexivity.
Defined.

(** ** One notion of a missing flight *)

Lemma py_in_raises (item : string) (container : value) (e : exn) :
  py_in item container = Raise e -> e = TypeError.
Proof.
  destruct container; cbn [py_in]; try discriminate; intros [= <-];
    reflexivity.
Qed.

Lemma py_index_raises (container : value) (k : string) (e : exn) :
  py_index container k = Raise e -> e = KeyError \/ e = TypeError.
Proof.
  destruct container as [| | | | |d]; cbn [py_index];
    try (intros [= <-]; tauto).
  destruct (dict_get k d); [discriminate|]. intros [= <-]. tauto.
Qed.

Lemma check_status_raises (body : value) (e : exn) :
  check_status body = Raise e -> e <> HTTPException 404.
Proof.
  unfold check_status, in_valid_statuses.
  destruct (py_in "status" body) as [[|]|e0] eqn:Hin; cbn [bind];
    try discriminate.
  - destruct (py_index body "status") as [v|e1] eqn:Hix; cbn [bind].
    + destruct (hash_key v) as [k|e2] eqn:Hh; cbn [bind].
      * destruct (negb _); [|discriminate]. intros [= <-]. discriminate.
      * intros [= <-]. destruct v; cbn [hash_key] in Hh; try discriminate;
          injection Hh as <-; discriminate.
    + intros [= <-]. apply py_index_raises in Hix.
      destruct Hix as [->| ->]; discriminate.
  - intros [= <-]. apply py_in_raises in Hin. subst. discriminate.
Qed.

Lemma apply_fields_raises
  (fields : list (string * (value -> value -> result value)))
  (body entry : value) (updated : list string) (e : exn) :
  Forall (fun fu => forall en v e0, snd fu en v = Raise e0 ->
                                    e0 = AttributeError) fields ->
  snd (apply_fields fields body entry updated) = Raise e ->
  e <> HTTPException 404.
Proof.
  intros Hall. revert entry updated.
  induction Hall as [|[f upd] fields Hupd Hall IH]; intros entry updated;
    cbn [apply_fields]; [discriminate|].
  destruct (py_in f body) as [[|]|e0] eqn:Hin; cbn [snd].
  - destruct (py_index body f) as [v|e1] eqn:Hix; cbn [snd].
    + destruct (upd entry v) as [entry'|e2] eqn:Hu; cbn [snd]; [apply IH|].
      intros [= <-]. rewrite (Hupd entry v e2 Hu). discriminate.
    + intros [= <-]. apply py_index_raises in Hix.
      destruct Hix as [->| ->]; discriminate.
  - apply IH.
  - intros [= <-]. apply py_in_raises in Hin. subst. discriminate.
Qed.

Lemma field_map_raises :
  Forall (fun fu => forall en v e0, snd fu en v = Raise e0 ->
                                    e0 = AttributeError) field_map.
Proof.
  unfold field_map.
  repeat (apply Forall_cons;
          [ cbn [snd]; intros en v e0;
            unfold entry_update, entry_update_nested;
            destruct en as [| | | | |d]; try (intros [= <-]; reflexivity);
            try discriminate;
            match goal with
            | |- context [dict_get ?o d] =>
                destruct (dict_get o d) as [[| | | | |sub]|];
                try discriminate; intros [= <-]; reflexivity
            end
          | ]).
  apply Forall_nil.
Qed.

Lemma text_field_raises (body : value) (name : string) (e : exn) :
  text_field body name = Raise e -> e = AttributeError.
Proof.
  unfold text_field.
  destruct (py_get body name VNone) as [v|e0] eqn:Hg; cbn [bind].
  - destruct (py_or v (VStr "")); try discriminate; intros [= <-];
      reflexivity.
  - intros [= <-]. exact (py_get_raises _ _ _ _ Hg).
Qed.

Lemma get_nested_raises (entry : value) (o i : string) (e : exn) :
  get_nested entry o i = Raise e -> e = AttributeError.
Proof.
  unfold get_nested.
  destruct (py_get entry o (VDict [])) as [sub|e0] eqn:Hg; cbn [bind].
  - apply py_get_raises.
  - intros [= <-]. exact (py_get_raises _ _ _ _ Hg).
Qed.

Lemma set_server_link_raises (entry : value) (link : string) (e : exn) :
  set_server_link entry link = Raise e -> e = KeyError \/ e = TypeError.
Proof.
  unfold set_server_link.
  destruct (py_index entry "server") as [sub|e0] eqn:Hix; cbn [bind].
  - destruct entry; try (intros [= <-]; tauto).
    destruct sub; try discriminate; intros [= <-]; tauto.
  - intros [= <-]. exact (py_index_raises _ _ _ Hix).
Qed.

(** X30.  The endpoints that take a code agree on which flights are
    missing: for an authorised session, GET, PATCH, refresh, remind,
    start and close answer 404 for exactly the same codes, those
    [lookup_flight] refuses (no key for the uppercased code, a falsy
    value, or no [flight_number]); none of them answers 404 for another
    reason, whatever the body and the gateway. *)
Theorem per_code_endpoints_agree (guilds : list guild)
  (servers : list announce_guild) (session : option value) (s : value)
  (user_data : store) (code : string) (body : value) :
  require_auth session = Ok s ->
  let missing :=
    lookup_flight user_data (upper code) = Raise (HTTPException 404) in
  (get_flight session user_data code = Raise (HTTPException 404) <-> missing)
  /\ (snd (update_flight guilds session user_data code body)
      = Raise (HTTPException 404) <-> missing)
  /\ (snd (refresh_embed guilds session user_data code)
      = Raise (HTTPException 404) <-> missing)
  /\ (snd (send_reminder_api servers session user_data code body)
      = Raise (HTTPException 404) <-> missing)
  /\ (snd (start_flight_api servers session user_data code body)
      = Raise (HTTPException 404) <-> missing)
  /\ (snd (close_flight_api servers session user_data code)
      = Raise (HTTPException 404) <-> missing)
  /\ (missing <-> not_found user_data (upper code)).
Proof.
  intros Hauth. cbv zeta.
  unfold get_flight, update_flight, refresh_embed, send_reminder_api,
    start_flight_api, close_flight_api.
  rewrite Hauth. cbn [bind].
  split; [|split; [|split; [|split; [|split; [|split]]]]];
    try apply lookup_flight_404;
    (destruct (lookup_flight user_data (upper code)) as [entry|e0] eqn:Hl;
     cbn [bind snd];
     [|split; intros H; exact H]);
    (split; [|discriminate]); intros H; exfalso.
  - apply serialize_entry_raises in H. discriminate.
  - destruct (check_status body) as [u|e1] eqn:Hc; cbn [snd] in H.
    + pose proof (apply_fields_raises field_map body entry []
                    (HTTPException 404) field_map_raises) as Ha.
      destruct (apply_fields field_map body entry []) as [entry' [upd|e2]];
        cbn [snd] in *.
      * apply serialize_entry_raises in H. discriminate.
      * injection H as ->. apply Ha; reflexivity.
    + injection H as ->. exact (check_status_raises _ _ Hc eq_refl).
  - discriminate.
  - destruct (text_field body "timestamp") as [ts|e1] eqn:Ht; cbn [snd] in H.
    + destruct (String.eqb ts ""); cbn [snd] in H; [discriminate|].
      destruct (py_get entry "flight_number" _) as [fn|e2] eqn:Hf;
        cbn [snd] in H.
      * destruct (get_nested entry "event" "link") as [el|e3] eqn:Hn;
          cbn [snd] in H; [discriminate|].
        injection H as ->. apply get_nested_raises in Hn. discriminate.
      * injection H as ->. apply py_get_raises in Hf. discriminate.
    + injection H as ->. apply text_field_raises in Ht. discriminate.
  - destruct (text_field body "server_link") as [link|e1] eqn:Ht;
      cbn [snd] in H.
    + destruct (text_field body "spawn_location") as [sp|e2] eqn:Hs;
        cbn [snd] in H.
      * destruct (String.eqb link ""); cbn [snd] in H; [discriminate|].
        destruct (set_server_link entry link) as [e1|e3] eqn:Hset;
          cbn [snd] in H.
        -- destruct (announce_start _ _ _ _ _ _); discriminate.
        -- injection H as ->. apply set_server_link_raises in Hset.
           destruct Hset; discriminate.
      * injection H as ->. apply text_field_raises in Hs. discriminate.
    + injection H as ->. apply text_field_raises in Ht. discriminate.
  - destruct (set_server_link entry GATE_CLOSED) as [e1|e3] eqn:Hset;
      cbn [snd] in H; [discriminate|].
    injection H as ->. apply set_server_link_raises in Hset.
    destruct Hset; discriminate.
Qed.

Lemma per_code_endpoints_agree_witness :
  get_flight sample_auth busy_store "zz99zz" = Raise (HTTPException 404)
  /\ snd (close_flight_api [] sample_auth busy_store "zz99zz")
     = Raise (HTTPException 404).
Proof.
  destruct (per_code_endpoints_agree [] [] sample_auth
              (VDict [ (KStr "user_id", VStr "42");
                       (KStr "has_role", VBool true);
                       (KStr "exp", VInt 2000000000) ])
              busy_store "zz99zz" VNone eq_refl)
    as (H1 & _ & _ & _ & _ & H6 & _).
  split; [apply H1; reflexivity|apply H6; reflexivity].
Defined.
